(** * auto-sqa-gantt: the ClickUp -> Gantt PNG -> Confluence synchroniser

    A shallow embedding of [scripts/gantt-click-conf.py] and the proofs of
    the properties its specification states.

    Conventions of the embedding.
    - Python exceptions are values of [exn]; a computation that may raise
      returns a [result]; [try ... except] is [try_except].
    - Code that talks to the network runs in the monad [M] over a [world]:
      the answers of the network, the requests made so far, the clock, the
      configuration file and the environment.
    - The JSON objects of the two APIs are records of the keys the script
      reads, with the types the APIs document; a key read with [.get], and
      a key looked up in a ClickUp list or in a Confluence page, is an
      [option], [None] being the key absent.  The entries of an attachment
      listing are taken with their title and id.  The two timestamp fields
      of a task are arbitrary Python values ([value]), as the decoder is
      written for them.
    - Text is ASCII text ([string]); case mapping and white space are the
      ASCII ones.  [int] is the one of CPython 3.11, with its limit of
      4300 digits.
    - A naive [datetime] is a number of microseconds on the local wall-clock
      time line, counted from 1970-01-01 00:00:00, and a [timedelta] a
      number of microseconds.  A sum or difference that leaves the years 1
      to 9999 raises [OverflowError], as [datetime] does.
    - [print] calls write to the console only and are left out. *)

From Stdlib Require Import ZArith List String Ascii Bool Lia.
From Stdlib Require Import Permutation Sorted QArith.
From Stdlib Require Import DecimalNat DecimalString.
From Stdlib Require DecimalPos DecimalZ.
Import ListNotations.
Open Scope Z_scope.
Set Warnings "-register-all".

(** ** Exceptions and results *)

Inductive exn : Type :=
| Timeout            (* requests.exceptions.Timeout *)
| ConnectionError    (* requests.exceptions.ConnectionError *)
| HTTPError          (* requests.exceptions.HTTPError, from raise_for_status *)
| JSONDecodeError    (* requests.exceptions.JSONDecodeError, from response.json *)
| RequestException   (* any other requests.exceptions.RequestException *)
| ValueError
| TypeError
| OverflowError
| OSError
| KeyError
| IndexError
| SystemExit (code : Z)   (* raised by sys.exit(code) *)
| OtherException.

(** The classes below [requests.exceptions.RequestException]. *)
Definition is_RequestException (e : exn) : bool :=
  match e with
  | Timeout | ConnectionError | HTTPError | JSONDecodeError
  | RequestException => true
  | _ => false
  end.

Inductive result (A : Type) : Type :=
| Ok (a : A)
| Raise (e : exn).
Arguments Ok {A} a.
Arguments Raise {A} e.

Definition rbind {A B} (r : result A) (k : A -> result B) : result B :=
  match r with
  | Ok a => k a
  | Raise e => Raise e
  end.

(** [try: body except: handler], the handler receiving the exception. *)
Definition try_except {A} (body : result A) (handler : exn -> result A)
  : result A :=
  match body with
  | Ok a => Ok a
  | Raise e => handler e
  end.

Declare Scope result_scope.
Delimit Scope result_scope with result.
Notation "x <- c ;; k" := (rbind c (fun x => k))
  (at level 61, c at next level, right associativity) : result_scope.

(** ** Python values met in a timestamp field *)

Inductive pyfloat : Type :=
| Finite (q : Q)
| NaN
| Inf (negative : bool).

Inductive value : Type :=
| VNone
| VBool (b : bool)
| VInt (n : Z)
| VFloat (f : pyfloat)
| VStr (s : string)
| VList (l : list value)
| VDict (d : list (string * value)).

(** Truth value of an object, as [if x] and [not x] test it. *)
Definition truthy (v : value) : bool :=
  match v with
  | VNone => false
  | VBool b => b
  | VInt n => negb (n =? 0)
  | VFloat (Finite q) => negb (Qnum q =? 0)
  | VFloat _ => true
  | VStr s => negb (String.length s =? 0)%nat
  | VList l => negb (List.length l =? 0)%nat
  | VDict d => negb (List.length d =? 0)%nat
  end.

Definition truthy_str (s : string) : bool := negb (String.length s =? 0)%nat.

Definition truthy_opt {A} (o : option A) : bool :=
  match o with Some _ => true | None => false end.

(** *** [int(x)] *)

(** The blanks [int] skips around a literal: tab, line feed, vertical tab,
    form feed, carriage return and the space. *)
Definition is_space (c : ascii) : bool :=
  let n := nat_of_ascii c in
  ((9 <=? n) && (n <=? 13) || (n =? 32))%nat.

Definition is_digit (c : ascii) : bool :=
  let n := nat_of_ascii c in ((48 <=? n) && (n <=? 57))%nat.

Definition digit_value (c : ascii) : Z := Z.of_nat (nat_of_ascii c) - 48.

Fixpoint lstrip (s : string) : string :=
  match s with
  | String c r => if is_space c then lstrip r else s
  | EmptyString => EmptyString
  end.

Fixpoint rstrip (s : string) : string :=
  match s with
  | String c r =>
      match rstrip r with
      | EmptyString => if is_space c then EmptyString else String c EmptyString
      | r' => String c r'
      end
  | EmptyString => EmptyString
  end.

Definition strip (s : string) : string := rstrip (lstrip s).

(** Decimal digits, single underscores allowed between two digits. *)
Fixpoint parse_digits (acc : Z) (after_digit : bool) (s : string) : option Z :=
  match s with
  | EmptyString => if after_digit then Some acc else None
  | String c r =>
      if is_digit c then parse_digits (10 * acc + digit_value c) true r
      else if Ascii.eqb c "_" then
             if after_digit then parse_digits acc false r else None
      else None
  end.

(** The number of digits of a text; underscores are not counted. *)
Fixpoint count_digits (s : string) : Z :=
  match s with
  | EmptyString => 0
  | String c r => (if is_digit c then 1 else 0) + count_digits r
  end.

(** [sys.get_int_max_str_digits()], at its default. *)
Definition max_str_digits : Z := 4300.

Definition int_of_str (s : string) : result Z :=
  let parsed :=
    match strip s with
    | String "+" r => parse_digits 0 false r
    | String "-" r => option_map Z.opp (parse_digits 0 false r)
    | t => parse_digits 0 false t
    end in
  match parsed with
  | Some n =>
      if max_str_digits <? count_digits s then Raise ValueError else Ok n
  | None => Raise ValueError
  end.

Definition int_ (v : value) : result Z :=
  match v with
  | VNone => Raise TypeError
  | VBool b => Ok (if b then 1 else 0)
  | VInt n => Ok n
  | VFloat (Finite q) => Ok (Z.quot (Qnum q) (Z.pos (Qden q)))
  | VFloat NaN => Raise ValueError
  | VFloat (Inf _) => Raise OverflowError
  | VStr s => int_of_str s
  | VList _ => Raise TypeError
  | VDict _ => Raise TypeError
  end.

(** *** [str.upper], [str.lower], [x in s], [str.replace] of a character *)

Definition upper_char (c : ascii) : ascii :=
  let n := nat_of_ascii c in
  if ((97 <=? n) && (n <=? 122))%nat then ascii_of_nat (n - 32) else c.

Definition lower_char (c : ascii) : ascii :=
  let n := nat_of_ascii c in
  if ((65 <=? n) && (n <=? 90))%nat then ascii_of_nat (n + 32) else c.

Fixpoint map_string (f : ascii -> ascii) (s : string) : string :=
  match s with
  | EmptyString => EmptyString
  | String c r => String (f c) (map_string f r)
  end.

Definition upper : string -> string := map_string upper_char.
Definition lower : string -> string := map_string lower_char.

Definition replace_char (old new : ascii) : string -> string :=
  map_string (fun c => if Ascii.eqb c old then new else c).

(** [key in s] *)
Fixpoint contains (key s : string) : bool :=
  if String.prefix key s then true
  else match s with
       | EmptyString => false
       | String _ r => contains key r
       end.

(** ** Dates *)

Definition datetime : Type := Z.
Definition timedelta : Type := Z.

Definition timedelta_days (n : Z) : timedelta := n * 86400000000.

(** [datetime.min] and [datetime.max]: 0001-01-01 00:00:00 and
    9999-12-31 23:59:59.999999. *)
Definition datetime_min : datetime := -62135596800000000.
Definition datetime_max : datetime := 253402300799999999.

Definition in_range (d : Z) : bool :=
  (datetime_min <=? d) && (d <=? datetime_max).

(** [d + delta] and [d - delta] *)
Definition datetime_add (d : datetime) (delta : timedelta) : result datetime :=
  if in_range (d + delta) then Ok (d + delta) else Raise OverflowError.

Definition datetime_sub (d : datetime) (delta : timedelta) : result datetime :=
  if in_range (d - delta) then Ok (d - delta) else Raise OverflowError.

(** [n / 1000] raises [OverflowError] when the quotient is no float: when
    it rounds to 2^1024 or beyond. *)
Definition float_overflow : Z := 1000 * (2 ^ 1024 - 2 ^ 970).

Definition true_div_1000 (n : Z) : result Z :=
  if float_overflow <=? Z.abs n then Raise OverflowError else Ok n.

(** [(a - b).days] *)
Definition days_between (a b : datetime) : Z := (a - b) / 86400000000.

(** ** Task records of the ClickUp API

    A task is read through four keys: [name], [start_date], [due_date] and
    [status], the last an object read through its key [status].  [None] in
    an option field is the key being absent. *)

Record status_obj : Type := { st_status : option string }.

Record task : Type := {
  t_name : option string;
  t_start_date : value;      (* task.get("start_date"), None when absent *)
  t_due_date : value;        (* task.get("due_date"), None when absent *)
  t_status : option status_obj
}.

(** [d.get(key, default)], [o] being what the key holds. *)
Definition get_default {A} (o : option A) (default : A) : A :=
  match o with
  | Some a => a
  | None => default
  end.

(** The empty object, [{}]. *)
Definition empty_status : status_obj := {| st_status := None |}.

(** ** The chart renderer *)

Record chart_task : Type := {
  name : string;
  start : datetime;
  end_ : datetime;
  status : string
}.

(** One [ax.barh] call and the [ax.text] call that follows it. *)
Record bar : Type := {
  bar_y : nat;               (* idx *)
  bar_width : Z;             (* duration, in days *)
  bar_left : datetime;       (* the date given to date2num *)
  bar_color : string;
  bar_label : string         (* the text drawn left of the bar *)
}.

(** What is drawn before [plt.savefig]; the PNG buffer returned is its
    rasterisation.  The size of the figure, the ticks, the grid and the
    other constants of the layout are left out. *)
Record figure : Type := {
  fig_bars : list bar;                 (* in drawing order *)
  fig_xlim : datetime * datetime;      (* the dates given to ax.set_xlim *)
  fig_yticks : list nat;
  fig_ylim : Q * Q;                    (* bottom and top of the vertical axis *)
  fig_title : string
}.

Definition status_colors : list (string * string) :=
  [ ("ACHIEVED", "#8dd879"); ("COMPLETE", "#8dd879");
    ("COMPLETED", "#8dd879"); ("APPROVED", "#8dd879");
    ("FINALIZED", "#8dd879"); ("DONE", "#8dd879"); ("CLOSED", "#8dd879");
    ("MONITORING", "#a8c5f0"); ("IMPLEMENTING", "#a8c5f0");
    ("PROGRESS", "#a8c5f0"); ("REVIEWING", "#a8c5f0");
    ("IN PROGRESS", "#a8c5f0");
    ("TODO", "#e0e0e0"); ("TO DO", "#e0e0e0"); ("OPEN", "#e0e0e0");
    ("DRAFTING", "#e0e0e0"); ("NOT STARTED", "#e0e0e0") ]%string.

Definition default_color : string := "#e0e0e0".

(** The inner [for key, col in status_colors.items()] loop with its
    [break], over a label already upper-cased. *)
Fixpoint first_color (table : list (string * string)) (label : string)
  (color : string) : string :=
  match table with
  | [] => color
  | (key, col) :: rest =>
      if contains key label then col else first_color rest label color
  end.

Definition color_of_status (status : string) : string :=
  first_color status_colors (upper status) default_color.

(** [list.sort(key=lambda x: x["start"])]: the stable sort, written as an
    insertion sort that keeps equal keys in their order. *)
Fixpoint insert_by_start (t : chart_task) (l : list chart_task)
  : list chart_task :=
  match l with
  | [] => [t]
  | h :: r => if start t <=? start h then t :: l
              else h :: insert_by_start t r
  end.

Fixpoint sort_by_start (l : list chart_task) : list chart_task :=
  match l with
  | [] => []
  | t :: r => insert_by_start t (sort_by_start r)
  end.

(** [min(...)] and [max(...)] over a generator; both raise on an empty one. *)
Definition py_min (l : list datetime) : result datetime :=
  match l with
  | [] => Raise ValueError
  | d :: r => Ok (fold_left Z.min r d)
  end.

Definition py_max (l : list datetime) : result datetime :=
  match l with
  | [] => Raise ValueError
  | d :: r => Ok (fold_left Z.max r d)
  end.

(** [enumerate(l)] from index [i]. *)
Fixpoint enumerate_from {A} (i : nat) (l : list A) : list (nat * A) :=
  match l with
  | [] => []
  | a :: r => (i, a) :: enumerate_from (S i) r
  end.

Definition draw_bar (it : nat * chart_task) : bar :=
  let (idx, t) := it in
  {| bar_y := idx;
     bar_width := days_between (end_ t) (start t) + 1;
     bar_left := start t;
     bar_color := color_of_status (status t);
     bar_label := name t |}.

(** Arithmetic on a variable that holds a date or [None]. *)
Definition date_of (o : option datetime) : result datetime :=
  match o with
  | Some d => Ok d
  | None => Raise TypeError
  end.

(** The two tests that follow the [continue], in their order. *)
Definition resolve_dates (start_date due_date : option datetime)
  : result (option datetime * option datetime) :=
  (start_date <-
     (if negb (truthy_opt start_date) && truthy_opt due_date
      then d <- date_of due_date ;;
           s <- datetime_sub d (timedelta_days 1) ;;
           Ok (Some s)
      else Ok start_date) ;;
   due_date <-
     (if truthy_opt start_date && negb (truthy_opt due_date)
      then s <- date_of start_date ;;
           d <- datetime_add s (timedelta_days 1) ;;
           Ok (Some d)
      else Ok due_date) ;;
   Ok (start_date, due_date))%result.

Section Renderer.

(** [datetime.fromtimestamp(q)] for the float [q] that [ms / 1000] gives,
    [ms] an integer: the local date, or the exception raised outside the
    platform's range. *)
Variable fromtimestamp : Z -> result datetime.

Definition clickup_timestamp_to_date (timestamp : value)
  : result (option datetime) :=
  if negb (truthy timestamp) then Ok None
  else
    try_except
      (n <- int_ timestamp ;;
       ms <- true_div_1000 n ;;
       d <- fromtimestamp ms ;;
       Ok (Some d))%result
      (fun _ => Ok None).

(** One turn of the filtering loop: [valid_tasks] after the task.  A date
    left at [None] in an appended entry makes the arithmetic on it further
    down raise [TypeError]. *)
Definition filter_step (valid_tasks : list chart_task) (t : task)
  : result (list chart_task) :=
  (start_date <- clickup_timestamp_to_date (t_start_date t) ;;
   due_date <- clickup_timestamp_to_date (t_due_date t) ;;
   let task_name := get_default (t_name t) "Sin nombre"%string in
   let status :=
     get_default (st_status (get_default (t_status t) empty_status))
       "Sin Status"%string in
   if negb (truthy_opt start_date) && negb (truthy_opt due_date)
   then Ok valid_tasks
   else
     dates <- resolve_dates start_date due_date ;;
     match dates with
     | (Some s, Some e) =>
         Ok (valid_tasks ++
               [ {| name := task_name; start := s; end_ := e;
                    status := status |} ])
     | _ => Raise TypeError
     end)%result.

Fixpoint filter_tasks (valid_tasks : list chart_task) (tasks : list task)
  : result (list chart_task) :=
  match tasks with
  | [] => Ok valid_tasks
  | t :: rest =>
      (valid_tasks' <- filter_step valid_tasks t ;;
       filter_tasks valid_tasks' rest)%result
  end.

Definition generate_gantt_image (tasks : list task) (project_name : string)
  : result (option figure) :=
  (valid_tasks <- filter_tasks [] tasks ;;
   if (List.length valid_tasks =? 0)%nat then Ok None
   else
     let valid_tasks := sort_by_start valid_tasks in
     min_date <- py_min (map start valid_tasks) ;;
     max_date <- py_max (map end_ valid_tasks) ;;
     let date_margin := timedelta_days 7 in
     chart_start <- datetime_sub min_date date_margin ;;
     chart_end <- datetime_add max_date date_margin ;;
     Ok (Some
           {| fig_bars := map draw_bar (enumerate_from 0 (rev valid_tasks));
              fig_xlim := (chart_start, chart_end);
              fig_yticks := seq 0 (List.length valid_tasks);
              fig_ylim :=
                ((- (1 # 2))%Q,
                 (inject_Z (Z.of_nat (List.length valid_tasks)) - (1 # 2))%Q);
              fig_title := ("Diagrama de Gantt - " ++ project_name)%string
           |}))%result.

End Renderer.

(** ** The remote systems

    A run is a computation over a [world]: what the network answers, the
    requests made so far, the clock, the configuration file and the
    environment.  [sys.exit(n)] raises [SystemExit n]. *)

Inductive method : Type := GET | POST | PUT | DELETE.

Record page_payload : Type := {
  p_version_number : Z;
  p_title : string;
  p_type : string;
  p_body_value : string
}.

Inductive request_body : Type :=
| NoBody
| Files (filename : string) (image : figure)
| Json (payload : page_payload).

Record request : Type := {
  rq_method : method;
  rq_url : string;
  rq_headers : list (string * string);
  rq_auth : option (string * string);
  rq_params : list (string * string);
  rq_timeout : Z;
  rq_body : request_body
}.

(** The JSON objects of the two APIs, seen through the keys the script
    reads; [None] is the key being absent. *)
Record list_item : Type := {
  li_id : option string;
  li_name : option string
}.
Record attachment : Type := { att_title : string; att_id : string }.
Record version_obj : Type := { number : Z }.

Record json_obj : Type := {
  j_lists : option (list list_item);
  j_tasks : option (list task);
  j_results : option (list attachment);
  j_version : option version_obj;
  j_title : option string;
  j_type : option string
}.

Record response : Type := {
  status_code : Z;
  json_body : option json_obj     (* None: the body is not JSON *)
}.

Inductive file_state (A : Type) : Type :=
| Missing
| Unreadable
| Content (a : A).
Arguments Missing {A}.
Arguments Unreadable {A}.
Arguments Content {A} a.

Record mapping : Type := {
  m_name : option string;
  m_confluence_page_id : option string;
  m_clickup_list_id : option string;
  m_clickup_folder_id : option string
}.

Record confluence_config : Type := {
  cf_url : string;
  cf_user : string;
  cf_api_token : string
}.

Record clickup_config : Type := { cu_api_token : string }.

Record config : Type := {
  confluence : confluence_config;
  clickup : clickup_config;
  mappings : option (list mapping)
}.

(** What a call of [requests] raises when it gets no response. *)
Inductive request_error : Type :=
| TimedOut        (* requests.exceptions.Timeout *)
| Unreachable     (* requests.exceptions.ConnectionError *)
| Failed.         (* any other requests.exceptions.RequestException *)

Definition exn_of (e : request_error) : exn :=
  match e with
  | TimedOut => Timeout
  | Unreachable => ConnectionError
  | Failed => RequestException
  end.

(** The outcome of a call of [requests]. *)
Definition outcome (a : response + request_error) : result response :=
  match a with
  | inl r => Ok r
  | inr e => Raise (exn_of e)
  end.

Record world : Type := {
  (** what the n-th request of the run meets: a response, or an error
      [requests] raises *)
  net : nat -> request -> response + request_error;
  (** the requests made so far, oldest first *)
  sent : list request;
  (** [datetime.now().strftime(fmt)] after n requests *)
  clock : nat -> string -> string;
  config_file : file_state config;
  environ : list (string * string)
}.

Definition M (A : Type) : Type := world -> result A * world.

Definition ret {A} (a : A) : M A := fun w => (Ok a, w).

Definition raise {A} (e : exn) : M A := fun w => (Raise e, w).

Definition bind {A B} (c : M A) (k : A -> M B) : M B :=
  fun w => match c w with
           | (Ok a, w') => k a w'
           | (Raise e, w') => (Raise e, w')
           end.

Definition lift {A} (r : result A) : M A := fun w => (r, w).

(** [try: body except: handler] over the world. *)
Definition try_except_M {A} (body : M A) (handler : exn -> M A) : M A :=
  fun w => match body w with
           | (Ok a, w') => (Ok a, w')
           | (Raise e, w') => handler e w'
           end.

Declare Scope M_scope.
Delimit Scope M_scope with M.
Notation "x <- c ;; k" := (bind c (fun x => k))
  (at level 61, c at next level, right associativity) : M_scope.
Notation "c ;;; k" := (bind c (fun _ => k))
  (at level 61, right associativity) : M_scope.

(** One call of [requests]: the request is recorded and the network
    answers. *)
Definition send (rq : request) : M response :=
  fun w => (outcome (net w (List.length (sent w)) rq),
            {| net := net w; sent := sent w ++ [rq]; clock := clock w;
               config_file := config_file w; environ := environ w |}).

Definition now_strftime (fmt : string) : M string :=
  fun w => (Ok (clock w (List.length (sent w)) fmt), w).

Definition raise_for_status (r : response) : M unit :=
  if (400 <=? status_code r) && (status_code r <? 600)
  then raise HTTPError else ret tt.

Definition response_json (r : response) : M json_obj :=
  match json_body r with
  | Some j => ret j
  | None => raise JSONDecodeError
  end.

(** A loop body either returns from the function or falls through to the
    next turn. *)
Inductive flow (A : Type) : Type :=
| Return (a : A)
| Continue.
Arguments Return {A} a.
Arguments Continue {A}.

(** [for i in range: body] followed by [after]. *)
Fixpoint for_range {A} (range : list Z) (body : Z -> M (flow A)) (after : M A)
  : M A :=
  match range with
  | [] => after
  | i :: rest =>
      (r <- body i ;;
       match r with
       | Return a => ret a
       | Continue => for_range rest body after
       end)%M
  end.

Definition py_range (n : nat) : list Z := map Z.of_nat (seq 0 n).

(** ** The task fetcher *)

Definition max_retries : nat := 3.

(** [requests.get(url, headers=headers, timeout=timeout)] of
    [get_lists_from_folder]. *)
Definition folder_request (api_token folder_id : string) (timeout : Z)
  : request :=
  let url := ("https://api.clickup.com/api/v2/folder/" ++ folder_id)%string in
  let headers := [("Authorization", api_token)]%string in
  {| rq_method := GET; rq_url := url; rq_headers := headers;
     rq_auth := None; rq_params := []; rq_timeout := timeout;
     rq_body := NoBody |}.

(** The body of the [for attempt in range(max_retries)] loop of
    [get_lists_from_folder]. *)
Definition get_lists_attempt (api_token folder_id : string) (attempt : Z)
  : M (flow (option (list list_item))) :=
  try_except_M
    (let timeout := 15 + attempt * 5 in
     response <- send (folder_request api_token folder_id timeout) ;;
     if status_code response =? 404 then ret (Return None)
     else if status_code response =? 401 then ret (Return None)
     else if status_code response =? 403 then ret (Return None)
     else
       raise_for_status response ;;;
       folder_data <- response_json response ;;
       let lists := match j_lists folder_data with
                    | Some l => l
                    | None => []
                    end in
       ret (Return (Some lists)))%M
    (fun e =>
       match e with
       | Timeout =>
           if attempt =? Z.of_nat max_retries - 1
           then ret (Return None) else ret Continue
       | ConnectionError =>
           if attempt =? Z.of_nat max_retries - 1
           then ret (Return None) else ret Continue
       | _ => if is_RequestException e then ret (Return None)
              else raise e
       end).

Definition get_lists_from_folder (api_token folder_id : string)
  : M (option (list list_item)) :=
  for_range (py_range max_retries)
    (get_lists_attempt api_token folder_id)
    (ret None).

(** [requests.get(url, headers=headers, params=..., timeout=timeout)] of
    [get_clickup_tasks]. *)
Definition tasks_request (api_token list_id : string) (timeout : Z)
  : request :=
  let url :=
    ("https://api.clickup.com/api/v2/list/" ++ list_id ++ "/task")%string in
  let headers := [("Authorization", api_token)]%string in
  {| rq_method := GET; rq_url := url; rq_headers := headers;
     rq_auth := None;
     rq_params := [("archived", "False"); ("include_closed", "True")]%string;
     rq_timeout := timeout; rq_body := NoBody |}.

(** The body of the [for attempt in range(max_retries)] loop of
    [get_clickup_tasks]. *)
Definition get_tasks_attempt (api_token list_id : string) (attempt : Z)
  : M (flow (option (list task))) :=
  try_except_M
    (let timeout := 15 + attempt * 5 in
     response <- send (tasks_request api_token list_id timeout) ;;
     if status_code response =? 404 then ret (Return None)
     else if status_code response =? 401 then ret (Return None)
     else
       raise_for_status response ;;;
       j <- response_json response ;;
       let tasks := match j_tasks j with
                    | Some l => l
                    | None => []
                    end in
       ret (Return (Some tasks)))%M
    (fun e =>
       match e with
       | Timeout =>
           if attempt =? Z.of_nat max_retries - 1
           then ret (Return None) else ret Continue
       | ConnectionError =>
           if attempt =? Z.of_nat max_retries - 1
           then ret (Return None) else ret Continue
       | _ => if is_RequestException e then ret (Return None)
              else raise e
       end).

Definition get_clickup_tasks (api_token list_id : string)
  : M (option (list task)) :=
  for_range (py_range max_retries)
    (get_tasks_attempt api_token list_id)
    (ret None).

(** Truth value of a list that may be [None], and the list itself. *)
Definition truthy_list {A} (o : option (list A)) : bool :=
  match o with
  | Some (_ :: _) => true
  | _ => false
  end.

Definition list_of {A} (o : option (list A)) : list A :=
  match o with
  | Some l => l
  | None => []
  end.

(** [d[key]] for a key that may be absent. *)
Definition subscript {A} (o : option A) : M A :=
  match o with
  | Some a => ret a
  | None => raise KeyError
  end.

(** The [for list_item in lists] loop: [all_tasks] at its end. *)
Fixpoint extend_from_lists (api_token : string) (lists : list list_item)
  (all_tasks : list task) : M (list task) :=
  match lists with
  | [] => ret all_tasks
  | list_item :: rest =>
      (list_id <- subscript (li_id list_item) ;;
       list_name <- subscript (li_name list_item) ;;
       tasks <- get_clickup_tasks api_token list_id ;;
       let all_tasks :=
         if truthy_list tasks then all_tasks ++ list_of tasks
         else all_tasks in
       extend_from_lists api_token rest all_tasks)%M
  end.

(** The end of [get_all_tasks_from_source], from [if not all_tasks] on. *)
Definition return_all_tasks (all_tasks : list task) : M (option (list task)) :=
  if negb (truthy_list (Some all_tasks)) then ret None
  else ret (Some all_tasks).

Definition get_all_tasks_from_source (api_token source_id source_type : string)
  : M (option (list task)) :=
  let all_tasks := [] in
  if String.eqb source_type "folder" then
    (lists <- get_lists_from_folder api_token source_id ;;
     if negb (truthy_list lists) then ret None
     else
       all_tasks <- extend_from_lists api_token (list_of lists) all_tasks ;;
       return_all_tasks all_tasks)%M
  else
    (tasks <- get_clickup_tasks api_token source_id ;;
     let all_tasks := if truthy_list tasks then list_of tasks else all_tasks in
     return_all_tasks all_tasks)%M.

(** ** The document publisher *)

(** [str(x)] inside an f-string, for a value that may be [None]. *)
Definition str_opt (o : option string) : string :=
  match o with
  | Some s => s
  | None => "None"%string
  end.

Definition dquote : string := String (ascii_of_nat 34) EmptyString.
Definition newline : string := String (ascii_of_nat 10) EmptyString.

(** The [for att in attachments] loop with its [break]. *)
Fixpoint delete_previous (confluence_config : confluence_config)
  (auth : string * string) (attachments : list attachment) (filename : string)
  : M unit :=
  match attachments with
  | [] => ret tt
  | att :: rest =>
      if String.eqb (att_title att) filename then
        (let att_id := att_id att in
         let delete_url :=
           (cf_url confluence_config ++ "/wiki/rest/api/content/" ++ att_id)%string in
         _ <- send {| rq_method := DELETE; rq_url := delete_url;
                      rq_headers := []; rq_auth := Some auth;
                      rq_params := []; rq_timeout := 10;
                      rq_body := NoBody |} ;;
         ret tt)%M
      else delete_previous confluence_config auth rest filename
  end.

Definition upload_attachment_to_confluence
  (confluence_config : confluence_config) (page_id : option string)
  (image_buffer : figure) (filename : string) : M (option string) :=
  let url := (cf_url confluence_config ++ "/wiki/rest/api/content/"
              ++ str_opt page_id ++ "/child/attachment")%string in
  let auth := (cf_user confluence_config, cf_api_token confluence_config) in
  (try_except_M
     (response <- send {| rq_method := GET; rq_url := url;
                          rq_headers := []; rq_auth := Some auth;
                          rq_params := []; rq_timeout := 10;
                          rq_body := NoBody |} ;;
      raise_for_status response ;;;
      j <- response_json response ;;
      let attachments := list_of (j_results j) in
      delete_previous confluence_config auth attachments filename)
     (fun _ => ret tt) ;;;
   let headers := [("X-Atlassian-Token", "no-check")]%string in
   try_except_M
     (response <- send {| rq_method := POST; rq_url := url;
                          rq_headers := headers; rq_auth := Some auth;
                          rq_params := []; rq_timeout := 30;
                          rq_body := Files filename image_buffer |} ;;
      raise_for_status response ;;;
      result <- response_json response ;;
      match j_results result with
      | None => raise KeyError
      | Some [] => raise IndexError
      | Some (first :: _) => ret (Some (att_id first))
      end)
     (fun e => if is_RequestException e then ret None else raise e))%M.

Definition page_content (project_name timestamp filename : string) : string :=
  (newline
   ++ "<h2>Diagrama de Gantt - " ++ project_name ++ "</h2>" ++ newline
   ++ "<p><em>Última actualización: " ++ timestamp ++ "</em></p>" ++ newline
   ++ "<p> </p>" ++ newline
   ++ newline
   ++ "<ac:image ac:height=" ++ dquote ++ "600" ++ dquote ++ ">" ++ newline
   ++ "  <ri:attachment ri:filename=" ++ dquote ++ filename ++ dquote
   ++ " />" ++ newline
   ++ "</ac:image>" ++ newline
   ++ newline
   ++ "<p> </p>" ++ newline
   ++ "<p><ac:structured-macro ac:name=" ++ dquote ++ "info" ++ dquote ++ ">"
   ++ newline
   ++ "  <ac:rich-text-body>" ++ newline
   ++ "    <p>Sincronizado desde ClickUp API automáticamente (Imagen PNG)</p>"
   ++ newline
   ++ "  </ac:rich-text-body>" ++ newline
   ++ "</ac:structured-macro></p>" ++ newline)%string.

Definition update_confluence_with_image
  (confluence_config : confluence_config) (page_id : option string)
  (attachment_id filename project_name : string) : M bool :=
  let url := (cf_url confluence_config ++ "/wiki/rest/api/content/"
              ++ str_opt page_id ++ "?expand=body.storage,version")%string in
  let auth := (cf_user confluence_config, cf_api_token confluence_config) in
  (fetched <-
     try_except_M
       (response <- send {| rq_method := GET; rq_url := url;
                            rq_headers := []; rq_auth := Some auth;
                            rq_params := []; rq_timeout := 10;
                            rq_body := NoBody |} ;;
        raise_for_status response ;;;
        page_info <- response_json response ;;
        ret (Some page_info))
       (fun _ => ret None) ;;
   match fetched with
   | None => ret false
   | Some page_info =>
       version <- subscript (j_version page_info) ;;
       let current_version := number version in
       page_title <- subscript (j_title page_info) ;;
       page_type <- subscript (j_type page_info) ;;
       timestamp <- now_strftime "%Y-%m-%d %H:%M:%S" ;;
       let page_content := page_content project_name timestamp filename in
       let url := (cf_url confluence_config ++ "/wiki/rest/api/content/"
                   ++ str_opt page_id)%string in
       let headers := [("Content-Type", "application/json")]%string in
       let payload := {| p_version_number := current_version + 1;
                         p_title := page_title;
                         p_type := page_type;
                         p_body_value := page_content |} in
       try_except_M
         (response <- send {| rq_method := PUT; rq_url := url;
                              rq_headers := headers; rq_auth := Some auth;
                              rq_params := []; rq_timeout := 10;
                              rq_body := Json payload |} ;;
          raise_for_status response ;;;
          ret true)
         (fun e => if is_RequestException e then ret false else raise e)
   end)%M.

(** ** The orchestrator *)

Definition truthy_opt_str (o : option string) : bool :=
  match o with
  | Some s => truthy_str s
  | None => false
  end.

(** [mapping.get("name", "ClickUp")] *)
Definition project_name_of (mapping : mapping) : string :=
  match m_name mapping with
  | Some n => n
  | None => "ClickUp"%string
  end.

(** The source of a mapping and its type: the list when there is one,
    else the folder; [None] when the mapping has neither. *)
Definition mapping_source (mapping : mapping) : option (string * string) :=
  if truthy_opt_str (m_clickup_list_id mapping)
  then Some (str_opt (m_clickup_list_id mapping), "list"%string)
  else if truthy_opt_str (m_clickup_folder_id mapping)
  then Some (str_opt (m_clickup_folder_id mapping), "folder"%string)
  else None.

(** The name of the attachment, [today] being the date as [%Y%m%d]. *)
Definition gantt_filename (project_name today : string) : string :=
  ("gantt-" ++ replace_char " " "-" (lower project_name)
   ++ "-" ++ today ++ ".png")%string.

(** [mapping.get("name", "Unknown")] *)
Definition result_name_of (mapping : mapping) : string :=
  match m_name mapping with
  | Some n => n
  | None => "Unknown"%string
  end.

Section Orchestrator.

Variable fromtimestamp : Z -> result datetime.

Definition process_mapping (config : config) (mapping : mapping) : M bool :=
  let project_name := project_name_of mapping in
  let page_id := m_confluence_page_id mapping in
  match mapping_source mapping with
  | None => ret false
  | Some (source_id, source_type) =>
      ((* 1. Obtener tareas *)
       tasks <- get_all_tasks_from_source
                  (cu_api_token (clickup config)) source_id source_type ;;
       if negb (truthy_list tasks) then ret false
       else
         (* 2. Generar imagen *)
         image_buffer <-
           lift (generate_gantt_image fromtimestamp (list_of tasks)
                   project_name) ;;
         match image_buffer with
         | None => ret false
         | Some image_buffer =>
             (* 3. Subir a Confluence *)
             today <- now_strftime "%Y%m%d" ;;
             let filename := gantt_filename project_name today in
             attachment_id <- upload_attachment_to_confluence
                                (confluence config) page_id image_buffer
                                filename ;;
             if negb (truthy_opt_str attachment_id) then ret false
             else
               (* 4. Actualizar página *)
               success <- update_confluence_with_image
                            (confluence config) page_id
                            (str_opt attachment_id) filename project_name ;;
               if success then ret true else ret false
         end)%M
  end.

(** The [for mapping in config["mappings"]] loop: [results] at its end. *)
Fixpoint process_all (config : config) (mappings : list mapping)
  (results : list (string * bool)) : M (list (string * bool)) :=
  match mappings with
  | [] => ret results
  | mapping :: rest =>
      (success <- process_mapping config mapping ;;
       let results := results ++ [(result_name_of mapping, success)] in
       process_all config rest results)%M
  end.

End Orchestrator.

(** *** Loading the configuration *)

Fixpoint getenv (env : list (string * string)) (key : string) : option string :=
  match env with
  | [] => None
  | (k, v) :: rest => if String.eqb k key then Some v else getenv rest key
  end.

(** [a or b] *)
Definition py_or (a b : option string) : option string :=
  if truthy_opt_str a then a else b.

(** [str(index)] *)
Definition str_nat (n : nat) : string := NilEmpty.string_of_uint (Nat.to_uint n).

(** The test that ends the search at [index]: no list and no folder of
    that number. *)
Definition list_id_at (env : list (string * string)) (index : nat)
  : option string :=
  if (1 <? index)%nat then getenv env ("CLICKUP_LIST_ID_" ++ str_nat index)
  else py_or (getenv env "CLICKUP_LIST_ID_1") (getenv env "CLICKUP_LIST_ID").

Definition folder_id_at (env : list (string * string)) (index : nat)
  : option string :=
  if (1 <? index)%nat then getenv env ("CLICKUP_FOLDER_ID_" ++ str_nat index)
  else py_or (getenv env "CLICKUP_FOLDER_ID_1")
             (getenv env "CLICKUP_FOLDER_ID").

Definition page_id_at (env : list (string * string)) (index : nat)
  : option string :=
  if (1 <? index)%nat then getenv env ("CONFLUENCE_PAGE_ID_" ++ str_nat index)
  else py_or (getenv env "CONFLUENCE_PAGE_ID_1")
             (getenv env "CONFLUENCE_PAGE_ID").

(** The [while True] search for numbered projects, from [index] on, with
    [found] the mappings appended so far.  [fuel] bounds the number of
    turns and [None] is the search cut short; [load_config] gives enough
    fuel for the [break] to be reached (lemma [discover_mappings_ends]). *)
Fixpoint discover_mappings (fuel : nat) (env : list (string * string))
  (index : nat) (found : list mapping) : option (list mapping) :=
  match fuel with
  | O => None
  | S fuel =>
      let list_id := list_id_at env index in
      let folder_id := folder_id_at env index in
      let page_id := page_id_at env index in
      let name := match getenv env ("PROJECT_NAME_" ++ str_nat index) with
                  | Some n => n
                  | None => ("Proyecto " ++ str_nat index)%string
                  end in
      if negb (truthy_opt_str list_id) && negb (truthy_opt_str folder_id)
      then Some found
      else if negb (truthy_opt_str page_id)
      then discover_mappings fuel env (S index) found
      else
        let mapping :=
          if truthy_opt_str folder_id then
            {| m_name := Some name; m_confluence_page_id := page_id;
               m_clickup_list_id := None; m_clickup_folder_id := folder_id |}
          else
            {| m_name := Some name; m_confluence_page_id := page_id;
               m_clickup_list_id := list_id; m_clickup_folder_id := None |} in
        discover_mappings fuel env (S index) (found ++ [mapping])
  end.

Definition sys_exit {A} (code : Z) : M A := raise (SystemExit code).

Definition load_config : M config :=
  fun w =>
    match config_file w with
    | Content config => ret config w
    | Unreadable => sys_exit 1 w
    | Missing =>
        let env := environ w in
        let url := getenv env "CONFLUENCE_URL" in
        let user := getenv env "CONFLUENCE_USER" in
        let api_token := getenv env "CONFLUENCE_API_TOKEN" in
        let clickup_token := getenv env "CLICKUP_API_TOKEN" in
        match discover_mappings (S (S (List.length env))) env 1 [] with
        | None => raise OtherException w     (* not reached *)
        | Some mappings =>
            if negb (truthy_opt_str url && truthy_opt_str user
                     && truthy_opt_str api_token
                     && truthy_opt_str clickup_token)
            then sys_exit 1 w
            else if negb (truthy_list (Some mappings)) then sys_exit 1 w
            else
              ret {| confluence := {| cf_url := str_opt url;
                                      cf_user := str_opt user;
                                      cf_api_token := str_opt api_token |};
                     clickup := {| cu_api_token := str_opt clickup_token |};
                     mappings := Some mappings |} w
        end
    end.

(** *** The script's entry point *)

Section Main.

Variable fromtimestamp : Z -> result datetime.

Definition successful (results : list (string * bool)) : nat :=
  List.length (filter snd results).

Definition main : M unit :=
  (config <- load_config ;;
   if negb (truthy_list (mappings config)) then sys_exit 1
   else
     results <- process_all fromtimestamp config (list_of (mappings config))
                  [] ;;
     let successful := successful results in
     let failed := (List.length results - successful)%nat in
     sys_exit (if (failed =? 0)%nat then 0 else 1))%M.

(** The exit status of the interpreter: the argument of [sys.exit], and 1
    when another exception ends the run. *)
Definition exit_code (r : result unit) : Z :=
  match r with
  | Ok _ => 0
  | Raise (SystemExit code) => code
  | Raise _ => 1
  end.

End Main.

(** * Vocabulary of the specification *)

(** A timestamp value [int] refuses; [None] and the empty text are among
    them. *)
Definition malformed (v : value) : Prop := exists e, int_ v = Raise e.

(** The record with its start (due) timestamp absent. *)
Definition without_start (t : task) : task :=
  {| t_name := t_name t; t_start_date := VNone;
     t_due_date := t_due_date t; t_status := t_status t |}.

Definition without_due (t : task) : task :=
  {| t_name := t_name t; t_start_date := t_start_date t;
     t_due_date := VNone; t_status := t_status t |}.

(** The name a record is shown under: its name, and "Sin nombre" when it
    has none. *)
Definition task_name_of (t : task) : string :=
  match t_name t with
  | Some n => n
  | None => "Sin nombre"%string
  end.

(** The status label of a record: the label inside its status, and
    "Sin Status" when the record has no status or the status no label. *)
Definition status_of (t : task) : string :=
  match t_status t with
  | Some {| st_status := Some s |} => s
  | _ => "Sin Status"%string
  end.

(** The chart task lies at least 7 days inside the years 1 to 9999: the
    margins of the axis around it are dates. *)
Definition within_margins (ct : chart_task) : Prop :=
  in_range (start ct - timedelta_days 7) = true
  /\ in_range (end_ ct + timedelta_days 7) = true.

(** The chart task of a record with the given resolved dates. *)
Definition chart_task_of (t : task) (s e : datetime) : chart_task :=
  {| name := task_name_of t; start := s; end_ := e; status := status_of t |}.

(** An instance of [fromtimestamp]: CPython on Linux with UTC as the local
    zone.  It accepts the timestamps from 0001-01-02 00:00:00 on, since
    [fromtimestamp] looks one day back for a fold, up to the last
    millisecond of the year 9999.  The quotient [ms / 1000] is a float and
    [fromtimestamp] rounds it to a microsecond; the result is the exact
    one for whole seconds and for the timestamps of the years 1698 to
    2242, where it is used below, and is taken as exact elsewhere. *)
Definition fromtimestamp_utc (ms : Z) : result datetime :=
  if (-62135510400000 <=? ms) && (ms <=? 253402300799999)
  then Ok (ms * 1000) else Raise ValueError.

(** The three records of the end-to-end scenario: A with start Day0 and
    due Day2, B with due Day5 only, C with no date; Day0 is
    2023-11-14 22:13:20 UTC. *)
Definition task_A : task :=
  {| t_name := Some "A"%string;
     t_start_date := VStr "1700000000000";
     t_due_date := VStr "1700172800000";
     t_status := Some {| st_status := Some "in progress"%string |} |}.

Definition task_B : task :=
  {| t_name := Some "B"%string;
     t_start_date := VNone;
     t_due_date := VStr "1700432000000";
     t_status := Some {| st_status := Some "to do"%string |} |}.

Definition task_C : task :=
  {| t_name := Some "C"%string;
     t_start_date := VNone;
     t_due_date := VNone;
     t_status := Some {| st_status := Some "complete"%string |} |}.

Definition day0 : datetime := 1700000000000000.

(** A record that starts in the last second of the year 9999 and has no
    due date, and one that runs over the last four days of that year. *)
Definition task_Z : task :=
  {| t_name := Some "Z"%string;
     t_start_date := VStr "253402300799000";
     t_due_date := VNone;
     t_status := None |}.

Definition task_Y : task :=
  {| t_name := Some "Y"%string;
     t_start_date := VStr "253401955200000";
     t_due_date := VStr "253402300799000";
     t_status := None |}.

(** A record whose start is a word and not a number. *)
Definition task_D : task :=
  {| t_name := Some "D"%string;
     t_start_date := VStr "tbd";
     t_due_date := VNone;
     t_status := None |}.

(** The characters an integer literal is made of. *)
Definition numeric_char (c : ascii) : bool :=
  is_digit c || is_space c || Ascii.eqb c "+" || Ascii.eqb c "-"
  || Ascii.eqb c "_".

Section Vocabulary.

Variable fromtimestamp : Z -> result datetime.

(** The timestamp decodes to a date. *)
Definition has_date (v : value) : bool :=
  match clickup_timestamp_to_date fromtimestamp v with
  | Ok (Some _) => true
  | _ => false
  end.

(** The record carries neither a start nor a due date. *)
Definition undated (t : task) : bool :=
  negb (has_date (t_start_date t)) && negb (has_date (t_due_date t)).

(** The date a timestamp decodes to, if any. *)
Definition decoded (v : value) : option datetime :=
  match clickup_timestamp_to_date fromtimestamp v with
  | Ok o => o
  | Raise _ => None
  end.

(** Date resolution in the words of the specification: the chart task of
    a record, or nothing for a record without dates. *)
Definition resolved (t : task) : list chart_task :=
  match decoded (t_start_date t), decoded (t_due_date t) with
  | Some s, Some d => [chart_task_of t s d]
  | None, Some d => [chart_task_of t (d - timedelta_days 1) d]
  | Some s, None => [chart_task_of t s (s + timedelta_days 1)]
  | None, None => []
  end.

(** The date inferred for the record, one day before its due date or one
    day after its start date, is no date of the years 1 to 9999. *)
Definition inferred_out_of_range (t : task) : bool :=
  match decoded (t_start_date t), decoded (t_due_date t) with
  | None, Some d => negb (in_range (d - timedelta_days 1))
  | Some s, None => negb (in_range (s + timedelta_days 1))
  | _, _ => false
  end.

(** Date resolution of a record with a start and no due date, as the
    specification words it: the chart task runs from the start to one day
    after it. *)
Definition infers_due_date (t : task) : Prop :=
  forall valid s,
    clickup_timestamp_to_date fromtimestamp (t_start_date t) = Ok (Some s) ->
    clickup_timestamp_to_date fromtimestamp (t_due_date t) = Ok None ->
    filter_step fromtimestamp valid t
    = Ok (valid ++ [chart_task_of t s (s + timedelta_days 1)]).

(** The record carries a timestamp: one of its two fields is there. *)
Definition carries_timestamp (t : task) : bool :=
  match t_start_date t, t_due_date t with
  | VNone, VNone => false
  | _, _ => true
  end.

(** The failure of the renderer as the specification words it: the
    failure signal exactly for an empty input or one in which no record
    carries a timestamp, and otherwise a chart of as many tasks as there
    are records that carry one. *)
Definition fails_without_timestamps (tasks : list task)
  (project_name : string) : Prop :=
  (generate_gantt_image fromtimestamp tasks project_name = Ok None
   <-> tasks = []
       \/ forallb (fun t => negb (carries_timestamp t)) tasks = true)
  /\ (generate_gantt_image fromtimestamp tasks project_name <> Ok None ->
      exists fig,
        generate_gantt_image fromtimestamp tasks project_name = Ok (Some fig)
        /\ List.length (fig_bars fig)
           = (List.length tasks
              - List.length
                  (filter (fun t => negb (carries_timestamp t)) tasks))%nat).

End Vocabulary.

Definition is_minimum (m : Z) (l : list Z) : Prop :=
  In m l /\ Forall (fun x => m <= x) l.

Definition is_maximum (m : Z) (l : list Z) : Prop :=
  In m l /\ Forall (fun x => x <= m) l.

Definition start_le (a b : chart_task) : Prop := start a <= start b.

(** The axis as the specification words it: every non-empty set of chart
    tasks that survives date resolution is drawn on an axis from the least
    start minus 7 days to the greatest end plus 7 days. *)
Definition axis_spans (fromtimestamp : Z -> result datetime)
  (tasks : list task) (project_name : string) : Prop :=
  forall valid,
    filter_tasks fromtimestamp [] tasks = Ok valid -> valid <> [] ->
    exists fig lo hi,
      generate_gantt_image fromtimestamp tasks project_name = Ok (Some fig)
      /\ is_minimum lo (map start valid)
      /\ is_maximum hi (map end_ valid)
      /\ fig_xlim fig = (lo - timedelta_days 7, hi + timedelta_days 7).

(** [k] occurs in [s]. *)
Definition substring (k s : string) : Prop :=
  exists a b, s = (a ++ k ++ b)%string.

(** ** Runs over the network *)

(** The world after the requests [rqs] have been made. *)
Definition after (w : world) (rqs : list request) : world :=
  {| net := net w; sent := sent w ++ rqs; clock := clock w;
     config_file := config_file w; environ := environ w |}.

(** What the network answers to [rq] when it is the [k]-th request made
    from [w] on, counting from 0. *)
Definition answer (w : world) (k : nat) (rq : request) : result response :=
  outcome (net w (List.length (sent w) + k) rq).

(** A timeout or a connection failure. *)
Definition transient (a : result response) : Prop :=
  a = Raise Timeout \/ a = Raise ConnectionError.

(** Authentication rejected, resource not found, access forbidden. *)
Definition non_retryable (a : result response) : Prop :=
  exists r, a = Ok r
            /\ (status_code r = 401 \/ status_code r = 404
                \/ status_code r = 403).

(** A response that is no HTTP error. *)
Definition status_ok (r : response) : Prop :=
  ~ (400 <= status_code r < 600).

(** A successful answer carrying the JSON object [j]. *)
Definition succeeds_with (a : result response) (j : json_obj) : Prop :=
  exists r, a = Ok r /\ status_ok r /\ json_body r = Some j.

(** The retry policy of a remote call that makes the requests
    [rq timeout] and returns [payload j] for a successful answer [j]:
    at most three attempts, with timeouts 15, 20 and 25; three transient
    failures give the failure signal; a non-retryable answer gives it at
    once; a success on the third attempt is returned. *)
Definition retry_policy {A} (call : M (option A)) (rq : Z -> request)
  (payload : json_obj -> A) : Prop :=
  (forall w, exists n,
      (n <= 3)%nat
      /\ snd (call w) = after w (firstn n [rq 15; rq 20; rq 25]))
  /\ (forall w,
      transient (answer w 0 (rq 15)) ->
      transient (answer w 1 (rq 20)) ->
      transient (answer w 2 (rq 25)) ->
      call w = (Ok None, after w [rq 15; rq 20; rq 25]))
  /\ (forall w,
      non_retryable (answer w 0 (rq 15)) ->
      call w = (Ok None, after w [rq 15]))
  /\ (forall w,
      transient (answer w 0 (rq 15)) ->
      non_retryable (answer w 1 (rq 20)) ->
      call w = (Ok None, after w [rq 15; rq 20]))
  /\ (forall w,
      transient (answer w 0 (rq 15)) ->
      transient (answer w 1 (rq 20)) ->
      non_retryable (answer w 2 (rq 25)) ->
      call w = (Ok None, after w [rq 15; rq 20; rq 25]))
  /\ (forall w j,
      answer w 0 (rq 15) = Raise Timeout ->
      answer w 1 (rq 20) = Raise Timeout ->
      succeeds_with (answer w 2 (rq 25)) j ->
      call w = (Ok (Some (payload j)), after w [rq 15; rq 20; rq 25])).

(** What one attempt makes of the network's answer: the same for both
    calls, which differ in the payload they read. *)
Definition attempt_result {A} (payload : json_obj -> A) (attempt : Z)
  (a : result response) : result (flow (option A)) :=
  match a with
  | Ok r =>
      if (400 <=? status_code r) && (status_code r <? 600)
      then Ok (Return None)
      else match json_body r with
           | Some j => Ok (Return (Some (payload j)))
           | None => Ok (Return None)
           end
  | Raise Timeout | Raise ConnectionError =>
      Ok (if attempt =? 2 then Return None else Continue)
  | Raise e => if is_RequestException e then Ok (Return None) else Raise e
  end.

(** The results of fetching the lists one after the other, in order;
    [None] for a list whose fetch failed.  A list that lacks its id or
    its name is not fetched: the lookup raises [KeyError]. *)
Fixpoint fetch_each (api_token : string) (lists : list list_item)
  : M (list (option (list task))) :=
  match lists with
  | [] => ret []
  | l :: rest =>
      (list_id <- subscript (li_id l) ;;
       _ <- subscript (li_name l) ;;
       r <- get_clickup_tasks api_token list_id ;;
       rs <- fetch_each api_token rest ;;
       ret (r :: rs))%M
  end.

(** A list item with its id and its name. *)
Definition named (l : list_item) : Prop :=
  li_id l <> None /\ li_name l <> None.

(** The folder fetch as the specification words it: once the folder is
    resolved, the fetch gives the failure signal or the records of all
    the lists, none of them missing. *)
Definition complete_or_failure (api_token folder_id : string) (w : world)
  : Prop :=
  forall lists w1 fetched w2,
    get_lists_from_folder api_token folder_id w = (Ok (Some lists), w1) ->
    fetch_each api_token lists w1 = (Ok fetched, w2) ->
    fst (get_all_tasks_from_source api_token folder_id "folder" w) = Ok None
    \/ (Forall (fun r => r <> None) fetched
        /\ fst (get_all_tasks_from_source api_token folder_id "folder" w)
           = Ok (Some (List.concat (map list_of fetched)))).

(** ** The document update *)

(** The fetch of the page: a GET of the page with its body and version,
    under the credentials of the configuration. *)
Definition page_get_request (confluence_config : confluence_config)
  (page_id : option string) : request :=
  {| rq_method := GET;
     rq_url := (cf_url confluence_config ++ "/wiki/rest/api/content/"
                ++ str_opt page_id ++ "?expand=body.storage,version")%string;
     rq_headers := [];
     rq_auth := Some (cf_user confluence_config,
                      cf_api_token confluence_config);
     rq_params := []; rq_timeout := 10; rq_body := NoBody |}.

(** The content update: a PUT on the page carrying [payload] as JSON,
    under the same credentials. *)
Definition page_put_request (confluence_config : confluence_config)
  (page_id : option string) (payload : page_payload) : request :=
  {| rq_method := PUT;
     rq_url := (cf_url confluence_config ++ "/wiki/rest/api/content/"
                ++ str_opt page_id)%string;
     rq_headers := [("Content-Type", "application/json")]%string;
     rq_auth := Some (cf_user confluence_config,
                      cf_api_token confluence_config);
     rq_params := []; rq_timeout := 10; rq_body := Json payload |}.




(** ** Runs of the orchestrator *)

Section Runs.

Variable fromtimestamp : Z -> result datetime.
Variable config : config.

(** [runs ms w bs w']: from [w], the mappings [ms] are processed one after
    the other, each from the world the one before left, none of them
    raising; [bs] are their outcomes, in order, and [w'] the world at the
    end. *)
Inductive runs : list mapping -> world -> list bool -> world -> Prop :=
| runs_nil (w : world) : runs [] w [] w
| runs_cons (m : mapping) (ms : list mapping) (w w1 w2 : world)
    (b : bool) (bs : list bool) :
    process_mapping fromtimestamp config m w = (Ok b, w1) ->
    runs ms w1 bs w2 ->
    runs (m :: ms) w (b :: bs) w2.

(** The orchestrator as the specification words it: whatever the steps of
    a mapping do, every mapping of the list is attempted and gives its
    outcome. *)
Definition every_mapping_attempted (ms : list mapping) (w : world) : Prop :=
  exists bs w', runs ms w bs w'.

End Runs.

(** *** Example worlds *)

(** A world with an empty history. *)
Definition world_of (net : nat -> request -> response + request_error)
  : world :=
  {| net := net; sent := []; clock := fun _ _ => "20240101"%string;
     config_file := Missing; environ := [] |}.

Definition json_lists (l : list list_item) : json_obj :=
  {| j_lists := Some l; j_tasks := None; j_results := None;
     j_version := None; j_title := None; j_type := None |}.

Definition json_tasks (l : list task) : json_obj :=
  {| j_lists := None; j_tasks := Some l; j_results := None;
     j_version := None; j_title := None; j_type := None |}.

Definition list_1 : list_item :=
  {| li_id := Some "L1"%string; li_name := Some "Sprint 1"%string |}.
Definition list_2 : list_item :=
  {| li_id := Some "L2"%string; li_name := Some "Sprint 2"%string |}.

(** A network that times out twice and then answers with the tasks A, B
    and C. *)
Definition net_third_time_lucky (n : nat) (rq : request) : response + request_error :=
  if (n <? 2)%nat then inr TimedOut
  else inl {| status_code := 200;
             json_body := Some (json_tasks [task_A; task_B; task_C]) |}.

(** A network on which the folder holds two lists; the first list answers
    with task A, the second one times out at every attempt. *)
Definition net_second_list_down (n : nat) (rq : request) : response + request_error :=
  match n with
  | 0%nat => inl {| status_code := 200;
                   json_body := Some (json_lists [list_1; list_2]) |}
  | 1%nat => inl {| status_code := 200;
                   json_body := Some (json_tasks [task_A]) |}
  | _ => inr TimedOut
  end.

(** A network on which the folder holds two lists, the second one without
    a name; the first list answers with task A. *)
Definition net_nameless_list (n : nat) (rq : request) : response + request_error :=
  match n with
  | 0%nat => inl {| status_code := 200;
                   json_body :=
                     Some (json_lists
                             [list_1;
                              {| li_id := Some "L2"%string;
                                 li_name := None |}]) |}
  | _ => inl {| status_code := 200;
               json_body := Some (json_tasks [task_A]) |}
  end.

(** A network on which the folder holds two lists that both answer. *)
Definition net_two_lists (n : nat) (rq : request) : response + request_error :=
  match n with
  | 0%nat => inl {| status_code := 200;
                   json_body := Some (json_lists [list_1; list_2]) |}
  | 1%nat => inl {| status_code := 200;
                   json_body := Some (json_tasks [task_A]) |}
  | _ => inl {| status_code := 200;
               json_body := Some (json_tasks [task_B; task_C]) |}
  end.

(** The page at version 7; the update is answered with [put_status]. *)
Definition json_page : json_obj :=
  {| j_lists := None; j_tasks := None; j_results := None;
     j_version := Some {| number := 7 |};
     j_title := Some "Release plan"%string; j_type := Some "page"%string |}.


Definition confluence_example : confluence_config :=
  {| cf_url := "https://example.atlassian.net";
     cf_user := "qa@example.com"; cf_api_token := "secret" |}.

(** ** The search of the environment *)

(** [s] without its prefix [p], when it starts with it. *)
Fixpoint drop_prefix (p s : string) : option string :=
  match p, s with
  | EmptyString, _ => Some s
  | String a p', String b s' =>
      if Ascii.eqb a b then drop_prefix p' s' else None
  | String _ _, EmptyString => None
  end.

Definition number_of (s : string) : nat :=
  match NilEmpty.uint_of_string s with
  | Some d => Nat.of_uint d
  | None => 1
  end.

(** The project number a variable name stands for: the number after
    [CLICKUP_LIST_ID_] or [CLICKUP_FOLDER_ID_], and 1 for any other
    name. *)
Definition project_number (key : string) : nat :=
  match drop_prefix "CLICKUP_LIST_ID_" key with
  | Some r => number_of r
  | None =>
      match drop_prefix "CLICKUP_FOLDER_ID_" key with
      | Some r => number_of r
      | None => 1%nat
      end
  end.

(** The exceptions of a failed lookup in a JSON object. *)
Definition lookup_error (e : exn) : Prop := e = KeyError \/ e = IndexError.

(** The exceptions that escape the processing of a mapping: a failed
    lookup, or a date beyond the years 1 to 9999. *)
Definition escaping (e : exn) : Prop := lookup_error e \/ e = OverflowError.

(** Two mappings; on the network the first one goes through (its list
    answers with the tasks A, B and C, no attachment exists, the upload and
    the update are accepted) and the list of the second one times out at
    every attempt. *)
Definition mapping_1 : mapping :=
  {| m_name := Some "QA"%string; m_confluence_page_id := Some "4242"%string;
     m_clickup_list_id := Some "L1"%string; m_clickup_folder_id := None |}.

Definition mapping_2 : mapping :=
  {| m_name := Some "Ops"%string; m_confluence_page_id := Some "4343"%string;
     m_clickup_list_id := Some "L2"%string; m_clickup_folder_id := None |}.

Definition config_example (ms : list mapping) : config :=
  {| confluence := confluence_example;
     clickup := {| cu_api_token := "tok" |};
     mappings := Some ms |}.

Definition json_results (l : list attachment) : json_obj :=
  {| j_lists := None; j_tasks := None; j_results := Some l;
     j_version := None; j_title := None; j_type := None |}.

Definition net_first_mapping_only (n : nat) (rq : request)
  : response + request_error :=
  match n with
  | 0%nat => inl {| status_code := 200;
                    json_body := Some (json_tasks [task_A; task_B; task_C]) |}
  | 1%nat => inl {| status_code := 200;
                    json_body := Some (json_results []) |}
  | 2%nat => inl {| status_code := 200;
                    json_body :=
                      Some (json_results
                              [{| att_title := "gantt-qa-20240101.png";
                                  att_id := "att1" |}]) |}
  | 3%nat => inl {| status_code := 200; json_body := Some json_page |}
  | 4%nat => inl {| status_code := 200; json_body := None |}
  | _ => inr TimedOut
  end.

Definition world_example (ms : list mapping) : world :=
  {| net := net_first_mapping_only; sent := [];
     clock := fun _ _ => "20240101"%string;
     config_file := Content (config_example ms); environ := [] |}.

(** ** Further vocabulary *)

(** [str(n)] for an integer: its decimal text. *)
Definition str_int (n : Z) : string := NilEmpty.string_of_int (Z.to_int n).

(** The least positive integer whose decimal text has more digits than
    [int] reads. *)
Definition int_text_bound : Z := 10 ^ max_str_digits.

(** What the decoder makes of the integer [ms]. *)
Definition date_of_ms (fromtimestamp : Z -> result datetime) (ms : Z)
  : option datetime :=
  match fromtimestamp ms with
  | Ok d => Some d
  | Raise _ => None
  end.

(** The three colours of the table. *)
Definition green : string := "#8dd879".
Definition blue : string := "#a8c5f0".
Definition gray : string := "#e0e0e0".

(** The keys of the table that carry a colour. *)
Definition keys_of (color : string) : list string :=
  map fst (filter (fun kc => String.eqb (snd kc) color) status_colors).

(** One of the keys occurs in the upper-cased label. *)
Definition occurs (keys : list string) (label : string) : Prop :=
  Exists (fun k => substring k (upper label)) keys.

(** What a bar shows of its chart task. *)
Definition bar_data (b : bar) : string * datetime * Z * string :=
  (bar_label b, bar_left b, bar_width b, bar_color b).

Definition bar_of_task (t : chart_task) : string * datetime * Z * string :=
  (name t, start t, days_between (end_ t) (start t) + 1,
   color_of_status (status t)).

Section OrderVocabulary.
Variable fromtimestamp : Z -> result datetime.
(** A record that has both dates has its start no later than its due
    date. *)
Definition dates_in_order (t : task) : Prop :=
  forall s d,
    decoded fromtimestamp (t_start_date t) = Some s ->
    decoded fromtimestamp (t_due_date t) = Some d ->
    s <= d.
End OrderVocabulary.

(** A read of the ClickUp API with the token: a GET without body, with one
    of the three timeouts. *)
Definition clickup_read (api_token : string) (rq : request) : Prop :=
  rq_method rq = GET /\ rq_body rq = NoBody /\ rq_auth rq = None
  /\ rq_headers rq = [("Authorization", api_token)]%string
  /\ String.prefix "https://api.clickup.com/api/v2/" (rq_url rq) = true
  /\ In (rq_timeout rq) [15; 20; 25].

(** The three requests of [upload_attachment_to_confluence]. *)
Definition attachments_request (confluence_config : confluence_config)
  (page_id : option string) : request :=
  let url := (cf_url confluence_config ++ "/wiki/rest/api/content/"
              ++ str_opt page_id ++ "/child/attachment")%string in
  let auth := (cf_user confluence_config, cf_api_token confluence_config) in
  {| rq_method := GET; rq_url := url; rq_headers := []; rq_auth := Some auth;
     rq_params := []; rq_timeout := 10; rq_body := NoBody |}.

Definition delete_request (confluence_config : confluence_config)
  (att_id : string) : request :=
  let delete_url :=
    (cf_url confluence_config ++ "/wiki/rest/api/content/" ++ att_id)%string in
  let auth := (cf_user confluence_config, cf_api_token confluence_config) in
  {| rq_method := DELETE; rq_url := delete_url; rq_headers := [];
     rq_auth := Some auth; rq_params := []; rq_timeout := 10;
     rq_body := NoBody |}.

Definition upload_request (confluence_config : confluence_config)
  (page_id : option string) (filename : string) (image : figure) : request :=
  let url := (cf_url confluence_config ++ "/wiki/rest/api/content/"
              ++ str_opt page_id ++ "/child/attachment")%string in
  let auth := (cf_user confluence_config, cf_api_token confluence_config) in
  {| rq_method := POST; rq_url := url;
     rq_headers := [("X-Atlassian-Token", "no-check")]%string;
     rq_auth := Some auth; rq_params := []; rq_timeout := 30;
     rq_body := Files filename image |}.

(** The first attachment of the listing that bears the file name. *)
Definition previous_attachment (filename : string) (atts : list attachment)
  : option attachment :=
  find (fun att => String.eqb (att_title att) filename) atts.

(** The attachments a listing shows: those of a JSON answer that is no
    HTTP error, none otherwise. *)
Definition listed (a : result response) : list attachment :=
  match a with
  | Ok r =>
      if (400 <=? status_code r) && (status_code r <? 600) then []
      else match json_body r with
           | Some j => list_of (j_results j)
           | None => []
           end
  | Raise _ => []
  end.

(** The deletion that precedes the upload, given the answer to the
    listing. *)
Definition deletions (confluence_config : confluence_config)
  (filename : string) (a : result response) : list request :=
  match previous_attachment filename (listed a) with
  | Some att => [delete_request confluence_config (att_id att)]
  | None => []
  end.

(** What the upload returns, given the answer to its POST. *)
Definition upload_outcome (a : result response) : result (option string) :=
  match a with
  | Raise e => if is_RequestException e then Ok None else Raise e
  | Ok r =>
      if (400 <=? status_code r) && (status_code r <? 600) then Ok None
      else match json_body r with
           | None => Ok None
           | Some j =>
               match j_results j with
               | None => Raise KeyError
               | Some [] => Raise IndexError
               | Some (first :: _) => Ok (Some (att_id first))
               end
           end
  end.
(** A page that already holds the chart: the listing shows it after another
    file, its deletion cannot be reached, and the upload is accepted. *)
Definition figure_example : figure :=
  {| fig_bars := []; fig_xlim := (0, 0); fig_yticks := [];
     fig_ylim := (0%Q, 0%Q); fig_title := "" |}.

Definition net_replace_attachment (n : nat) (rq : request)
  : response + request_error :=
  match n with
  | 0%nat =>
      inl {| status_code := 200;
             json_body :=
               Some (json_results
                       [{| att_title := "notes.txt"; att_id := "a1" |};
                        {| att_title := "gantt-qa-20240101.png";
                           att_id := "a2" |}]) |}
  | 1%nat => inr Unreachable
  | _ =>
      inl {| status_code := 200;
             json_body :=
               Some (json_results
                       [{| att_title := "gantt-qa-20240101.png";
                           att_id := "a3" |}]) |}
  end.

(** A request that changes nothing on the page: a read or a deletion. *)
Definition no_write (rq : request) : Prop :=
  rq_method rq = GET \/ rq_method rq = DELETE.

(** A mapping as the search of the environment builds it: a name, a page
    and one source, a folder or else a list. *)
Definition well_formed_mapping (m : mapping) : Prop :=
  m_name m <> None
  /\ truthy_opt_str (m_confluence_page_id m) = true
  /\ ((truthy_opt_str (m_clickup_folder_id m) = true
       /\ m_clickup_list_id m = None)
      \/ (truthy_opt_str (m_clickup_list_id m) = true
          /\ m_clickup_folder_id m = None)).

(** The test that ends the search holds at [index]. *)
Definition search_ends_at (env : list (string * string)) (index : nat)
  : Prop :=
  truthy_opt_str (list_id_at env index) = false
  /\ truthy_opt_str (folder_id_at env index) = false.

(** What the project numbered [index] adds to the mappings: nothing when
    it has no page, and else one mapping with its name, or "Proyecto"
    and its number for want of a name, its page and its folder or, for
    want of a folder, its list. *)
Definition project_at (env : list (string * string)) (index : nat)
  : list mapping :=
  if truthy_opt_str (page_id_at env index) then
    [{| m_name :=
          Some (match getenv env ("PROJECT_NAME_" ++ str_nat index) with
                | Some n => n
                | None => ("Proyecto " ++ str_nat index)%string
                end);
        m_confluence_page_id := page_id_at env index;
        m_clickup_list_id :=
          if truthy_opt_str (folder_id_at env index) then None
          else list_id_at env index;
        m_clickup_folder_id :=
          if truthy_opt_str (folder_id_at env index)
          then folder_id_at env index else None |}]
  else [].

(** Every number from [index] up to [k], [k] left out, has a list or a
    folder. *)
Definition no_gap (env : list (string * string)) (index k : nat) : Prop :=
  forall i, (index <= i < k)%nat -> ~ search_ends_at env i.

(** Projects 1 and 3 are defined, project 2 is not. *)
Definition environ_with_gap : list (string * string) :=
  [ ("CONFLUENCE_URL", "https://example.atlassian.net");
    ("CONFLUENCE_USER", "qa@example.com");
    ("CONFLUENCE_API_TOKEN", "secret");
    ("CLICKUP_API_TOKEN", "tok");
    ("CLICKUP_LIST_ID", "L1"); ("CLICKUP_FOLDER_ID_1", "F1");
    ("CONFLUENCE_PAGE_ID", "4242");
    ("CLICKUP_LIST_ID_3", "L3"); ("CONFLUENCE_PAGE_ID_3", "4444") ]%string.

(** Projects 1, 2 and 3 have a list; project 2 has no page. *)
Definition environ_with_pageless : list (string * string) :=
  [ ("CONFLUENCE_URL", "https://example.atlassian.net");
    ("CONFLUENCE_USER", "qa@example.com");
    ("CONFLUENCE_API_TOKEN", "secret");
    ("CLICKUP_API_TOKEN", "tok");
    ("CLICKUP_LIST_ID_1", "L1"); ("CONFLUENCE_PAGE_ID_1", "4242");
    ("CLICKUP_LIST_ID_2", "L2");
    ("CLICKUP_LIST_ID_3", "L3"); ("CONFLUENCE_PAGE_ID_3", "4444");
    ("PROJECT_NAME_3", "Ops") ]%string.

Definition world_of_environ (env : list (string * string)) : world :=
  {| net := fun _ _ => inr Unreachable; sent := [];
     clock := fun _ _ => "20240101"%string;
     config_file := Missing; environ := env |}.

(** An answer that ends a remote call at once, without being a success:
    an HTTP error of any status, a body that is no JSON, or an error of
    [requests] other than a timeout or a connection failure. *)
Definition fails_at_once (a : result response) : Prop :=
  (exists r, a = Ok r
             /\ (400 <= status_code r < 600 \/ json_body r = None))
  \/ a = Raise RequestException.

(** A server that answers every request with the status 503. *)
Definition net_unavailable (n : nat) (rq : request)
  : response + request_error :=
  inl {| status_code := 503; json_body := None |}.

(** A JSON object with none of the keys the script reads. *)
Definition json_empty : json_obj :=
  {| j_lists := None; j_tasks := None; j_results := None;
     j_version := None; j_title := None; j_type := None |}.

(** A folder whose answer carries no list. *)
Definition net_empty_folder (n : nat) (rq : request)
  : response + request_error :=
  inl {| status_code := 200; json_body := Some json_empty |}.

(** The two mappings again; the list of the first answers with the tasks
    A, B and C, no attachment exists, and the upload is answered 200 with
    a JSON object that has no [results]. *)
Definition net_upload_without_id (n : nat) (rq : request)
  : response + request_error :=
  match n with
  | 0%nat => inl {| status_code := 200;
                    json_body := Some (json_tasks [task_A; task_B; task_C]) |}
  | 1%nat => inl {| status_code := 200;
                    json_body := Some (json_results []) |}
  | 2%nat => inl {| status_code := 200; json_body := Some json_empty |}
  | _ => inr TimedOut
  end.

Definition world_upload_without_id : world :=
  {| net := net_upload_without_id; sent := [];
     clock := fun _ _ => "20240101"%string;
     config_file := Content (config_example [mapping_1; mapping_2]);
     environ := [] |}.

(** * The timestamp decoder *)

Section DecoderFacts.

Variable fromtimestamp : Z -> result datetime.
Local Abbreviation decode := (clickup_timestamp_to_date fromtimestamp).

Lemma decode_total (v : value) : exists o, decode v = Ok o.
Proof.
  unfold clickup_timestamp_to_date.
  destruct (truthy v); simpl; [|now exists None].
  destruct (int_ v) as [n|e]; simpl; [|now exists None].
  destruct (true_div_1000 n) as [ms|e]; simpl; [|now exists None].
  destruct (fromtimestamp ms) as [d|e]; simpl;
    [now exists (Some d) | now exists None].
Qed.

Lemma decode_malformed (v : value) : malformed v -> decode v = Ok None.
Proof.
  intros [e He]. unfold clickup_timestamp_to_date.
  destruct (truthy v); simpl; [|reflexivity].
  now rewrite He.
Qed.

Lemma decode_cases (v : value) :
  decode v = Ok None \/ exists d, decode v = Ok (Some d).
Proof.
  destruct (decode_total v) as [[d|] H]; [right; now exists d | now left].
Qed.

End DecoderFacts.

(** A text holding a character that belongs to no integer literal is
    refused by [int]. *)

Lemma numeric_char_false (c : ascii) :
  numeric_char c = false ->
  is_digit c = false /\ is_space c = false /\ Ascii.eqb c "+" = false
  /\ Ascii.eqb c "-" = false /\ Ascii.eqb c "_" = false.
Proof.
  unfold numeric_char. intros H.
  repeat (apply orb_false_iff in H; destruct H as [H ?]). tauto.
Qed.

Lemma parse_digits_bad (c : ascii) (s : string) :
  numeric_char c = false ->
  In c (list_ascii_of_string s) ->
  forall acc b, parse_digits acc b s = None.
Proof.
  intros Hc. apply numeric_char_false in Hc.
  destruct Hc as (Hd & _ & _ & _ & Hu).
  induction s as [|a s IH]; simpl; [tauto|].
  intros [->|Hin] acc b.
  - now rewrite Hd, Hu.
  - destruct (is_digit a); [now apply IH|].
    destruct (Ascii.eqb a "_"); [|reflexivity].
    destruct b; [now apply IH | reflexivity].
Qed.

Lemma lstrip_keeps (c : ascii) (s : string) :
  is_space c = false ->
  In c (list_ascii_of_string s) -> In c (list_ascii_of_string (lstrip s)).
Proof.
  intros Hc. induction s as [|a s IH]; simpl; [tauto|].
  intros [->|Hin].
  - rewrite Hc. now left.
  - destruct (is_space a); [now apply IH | now right].
Qed.

Lemma rstrip_keeps (c : ascii) (s : string) :
  is_space c = false ->
  In c (list_ascii_of_string s) -> In c (list_ascii_of_string (rstrip s)).
Proof.
  intros Hc. induction s as [|a s IH]; simpl; [tauto|].
  intros [->|Hin].
  - destruct (rstrip s); [rewrite Hc|]; now left.
  - specialize (IH Hin). destruct (rstrip s); [destruct IH | now right].
Qed.

Lemma int_of_str_bad (c : ascii) (s : string) :
  numeric_char c = false ->
  In c (list_ascii_of_string s) ->
  int_of_str s = Raise ValueError.
Proof.
  intros Hc Hin.
  destruct (numeric_char_false c Hc) as (_ & Hsp & Hplus & Hminus & _).
  assert (Hin' : In c (list_ascii_of_string (strip s)))
    by (apply rstrip_keeps, lstrip_keeps; assumption).
  unfold int_of_str.
  destruct (strip s) as [|a r] eqn:E; [destruct Hin'|].
  assert (Hall : forall acc b, parse_digits acc b (String a r) = None)
    by (intros; now apply parse_digits_bad with c).
  assert (Hr : Ascii.eqb a "+" || Ascii.eqb a "-" = true ->
               forall acc b, parse_digits acc b r = None).
  { intros Ha acc b. apply parse_digits_bad with c; [assumption|].
    destruct Hin' as [->|Hin']; [|assumption].
    apply orb_true_iff in Ha. destruct Ha; congruence. }
  destruct a as [[] [] [] [] [] [] [] []];
    try (rewrite Hall; reflexivity);
    rewrite Hr by reflexivity; reflexivity.
Qed.

(** * Date resolution *)

Section ResolutionFacts.

Variable fromtimestamp : Z -> result datetime.
Local Abbreviation decode := (clickup_timestamp_to_date fromtimestamp).
Local Abbreviation fstep := (filter_step fromtimestamp).
Local Abbreviation ftasks := (filter_tasks fromtimestamp).

Lemma decoded_eq (v : value) : decode v = Ok (decoded fromtimestamp v).
Proof.
  unfold decoded. destruct (decode_total fromtimestamp v) as [o ->].
  reflexivity.
Qed.

(** The defaults of the two [.get] of the loop are those of the record's
    name and status label. *)
Lemma task_defaults (t : task) (s e : datetime) :
  {| name := get_default (t_name t) "Sin nombre"%string;
     start := s; end_ := e;
     status := get_default (st_status (get_default (t_status t) empty_status))
                 "Sin Status"%string |}
  = chart_task_of t s e.
Proof.
  unfold chart_task_of, task_name_of, status_of, get_default, empty_status.
  destruct (t_name t), (t_status t) as [[[l|]]|]; reflexivity.
Qed.

Lemma filter_step_resolved (valid : list chart_task) (t : task) :
  fstep valid t
  = if inferred_out_of_range fromtimestamp t then Raise OverflowError
    else Ok (valid ++ resolved fromtimestamp t).
Proof.
  unfold filter_step, resolved, inferred_out_of_range. rewrite !decoded_eq.
  cbn [rbind].
  destruct (decoded fromtimestamp (t_start_date t)) as [s|],
           (decoded fromtimestamp (t_due_date t)) as [d|];
    cbn [truthy_opt negb andb]; unfold resolve_dates;
    cbn [truthy_opt negb andb rbind date_of].
  - now rewrite task_defaults.
  - unfold datetime_add. destruct (in_range (s + timedelta_days 1));
      cbn [rbind negb]; [now rewrite task_defaults | reflexivity].
  - unfold datetime_sub. destruct (in_range (d - timedelta_days 1));
      cbn [rbind negb truthy_opt andb]; [now rewrite task_defaults | reflexivity].
  - now rewrite app_nil_r.
Qed.

Lemma filter_tasks_resolved (tasks : list task) :
  forall valid,
    ftasks valid tasks
    = if existsb (inferred_out_of_range fromtimestamp) tasks
      then Raise OverflowError
      else Ok (valid ++ flat_map (resolved fromtimestamp) tasks).
Proof.
  induction tasks as [|t tasks IH]; intros valid; cbn [filter_tasks existsb flat_map].
  - now rewrite app_nil_r.
  - rewrite filter_step_resolved.
    destruct (inferred_out_of_range fromtimestamp t); cbn [rbind orb];
      [reflexivity|].
    rewrite IH, app_assoc. reflexivity.
Qed.

(** C1, amended.  For every task record, one turn of the filtering loop
    appends the chart task whose dates are: the two decoded timestamps when
    both are present; due - 1 day and due when only the due timestamp is
    present and due - 1 day is a date of the years 1 to 9999; start and
    start + 1 day when only the start timestamp is present and
    start + 1 day is such a date; and appends nothing when neither is
    present.  When the inferred date is no such date the loop raises
    [OverflowError].  The chart task set of a list of records is made of
    these chart tasks, record by record, unless a record makes the loop
    raise. *)
Theorem date_resolution (t : task) (valid : list chart_task) :
  (forall s d,
      decode (t_start_date t) = Ok (Some s) ->
      decode (t_due_date t) = Ok (Some d) ->
      fstep valid t = Ok (valid ++ [chart_task_of t s d]))
  /\ (forall d,
      decode (t_start_date t) = Ok None ->
      decode (t_due_date t) = Ok (Some d) ->
      (in_range (d - timedelta_days 1) = true ->
       fstep valid t
       = Ok (valid ++ [chart_task_of t (d - timedelta_days 1) d]))
      /\ (in_range (d - timedelta_days 1) = false ->
          fstep valid t = Raise OverflowError))
  /\ (forall s,
      decode (t_start_date t) = Ok (Some s) ->
      decode (t_due_date t) = Ok None ->
      (in_range (s + timedelta_days 1) = true ->
       fstep valid t
       = Ok (valid ++ [chart_task_of t s (s + timedelta_days 1)]))
      /\ (in_range (s + timedelta_days 1) = false ->
          fstep valid t = Raise OverflowError))
  /\ (decode (t_start_date t) = Ok None ->
      decode (t_due_date t) = Ok None ->
      fstep valid t = Ok valid)
  /\ (forall tasks,
      existsb (inferred_out_of_range fromtimestamp) tasks = false ->
      ftasks [] tasks = Ok (flat_map (resolved fromtimestamp) tasks))
  /\ (forall tasks,
      existsb (inferred_out_of_range fromtimestamp) tasks = true ->
      ftasks [] tasks = Raise OverflowError).
Proof.
  assert (Hl : forall tasks b,
             existsb (inferred_out_of_range fromtimestamp) tasks = b ->
             ftasks [] tasks
             = if b then Raise OverflowError
               else Ok (flat_map (resolved fromtimestamp) tasks))
    by (intros tasks b <-; apply filter_tasks_resolved).
  rewrite filter_step_resolved.
  unfold inferred_out_of_range, resolved, decoded.
  split; [|split; [|split; [|split; [|split]]]].
  - intros s d -> ->. reflexivity.
  - intros d -> ->. split; intros ->; reflexivity.
  - intros s -> ->. split; intros ->; reflexivity.
  - intros -> ->. now rewrite app_nil_r.
  - intros tasks H. exact (Hl tasks false H).
  - intros tasks H. exact (Hl tasks true H).
Qed.

(** C10.  The decoder returns a date or [None] on every value and never
    raises.  A value [int] refuses, among them [None], the empty text and
    any text holding a character that belongs to no integer literal,
    decodes to [None]; a record with such a value in a timestamp field goes
    through the filtering loop as the record without that field does, and
    is dropped when both fields hold such values. *)
Theorem timestamp_decoder_total :
  (forall v, exists o, decode v = Ok o)
  /\ (forall v, malformed v -> decode v = Ok None)
  /\ malformed VNone
  /\ malformed (VStr "")
  /\ (forall s c,
      In c (list_ascii_of_string s) -> numeric_char c = false ->
      malformed (VStr s))
  /\ (forall t valid,
      malformed (t_start_date t) ->
      fstep valid t = fstep valid (without_start t))
  /\ (forall t valid,
      malformed (t_due_date t) ->
      fstep valid t = fstep valid (without_due t))
  /\ (forall t valid,
      malformed (t_start_date t) -> malformed (t_due_date t) ->
      fstep valid t = Ok valid).
Proof.
  split; [apply decode_total|].
  split; [apply decode_malformed|].
  split; [now exists TypeError|].
  split; [now exists ValueError|].
  split.
  { intros s c Hin Hc. exists ValueError. simpl.
    now apply int_of_str_bad with c. }
  split.
  { intros t valid H. unfold filter_step. cbn [without_start t_start_date
      t_due_date t_name t_status].
    rewrite (decode_malformed fromtimestamp _ H). reflexivity. }
  split.
  { intros t valid H. unfold filter_step. cbn [without_due t_start_date
      t_due_date t_name t_status].
    rewrite (decode_malformed fromtimestamp _ H). reflexivity. }
  intros t valid Hs Hd. unfold filter_step.
  rewrite (decode_malformed fromtimestamp _ Hs),
          (decode_malformed fromtimestamp _ Hd).
  reflexivity.
Qed.

End ResolutionFacts.

(** C1, as stated, fails: a record whose only timestamp is a start in the
    last second of the year 9999 has no day after it, and the filtering
    loop raises [OverflowError] where the claim has it append a chart task
    ending one day later. *)
Lemma date_resolution_overflow :
  ~ infers_due_date fromtimestamp_utc task_Z.
Proof.
  intros H.
  specialize (H [] 253402300799000000 eq_refl eq_refl).
  vm_compute in H. discriminate H.
Qed.

Lemma date_resolution_witness :
  filter_step fromtimestamp_utc [] task_A
  = Ok [chart_task_of task_A day0 (day0 + timedelta_days 2)]
  /\ filter_step fromtimestamp_utc [] task_B
     = Ok [chart_task_of task_B (day0 + timedelta_days 5 - timedelta_days 1)
             (day0 + timedelta_days 5)]
  /\ filter_step fromtimestamp_utc [] (without_due task_A)
     = Ok [chart_task_of task_A day0 (day0 + timedelta_days 1)]
  /\ filter_step fromtimestamp_utc [] task_Z = Raise OverflowError
  /\ filter_step fromtimestamp_utc [] task_C = Ok [].
Proof.
  split; [|split; [|split; [|split]]].
  - apply (proj1 (date_resolution fromtimestamp_utc task_A [])
             day0 (day0 + timedelta_days 2));
      vm_compute; reflexivity.
  - apply (proj1 (proj2 (date_resolution fromtimestamp_utc task_B []))
             (day0 + timedelta_days 5));
      vm_compute; reflexivity.
  - apply (proj1 (proj2 (proj2
             (date_resolution fromtimestamp_utc (without_due task_A) [])))
             day0);
      vm_compute; reflexivity.
  - apply (proj1 (proj2 (proj2
             (date_resolution fromtimestamp_utc task_Z [])))
             253402300799000000);
      vm_compute; reflexivity.
  - apply (proj1 (proj2 (proj2 (proj2
             (date_resolution fromtimestamp_utc task_C [])))));
      vm_compute; reflexivity.
Defined.

Lemma timestamp_decoder_total_witness :
  clickup_timestamp_to_date fromtimestamp_utc (VStr "next week") = Ok None
  /\ filter_step fromtimestamp_utc []
       {| t_name := Some "D"%string; t_start_date := VStr "tbd";
          t_due_date := VList []; t_status := None |}
     = Ok [].
Proof.
  destruct (timestamp_decoder_total fromtimestamp_utc)
    as (_ & Hnone & _ & _ & Htext & _ & _ & Hdrop).
  split.
  - apply Hnone, (Htext _ "n"%char); [simpl; tauto | reflexivity].
  - apply Hdrop; simpl.
    + apply (Htext _ "t"%char); [simpl; tauto | reflexivity].
    + now exists TypeError.
Defined.

(** * The chart: sorting, extent and bars *)

Lemma insert_by_start_perm (t : chart_task) (l : list chart_task) :
  Permutation (insert_by_start t l) (t :: l).
Proof.
  induction l as [|h r IH]; simpl; [reflexivity|].
  destruct (start t <=? start h); [reflexivity|].
  rewrite IH. apply perm_swap.
Qed.

Lemma sort_by_start_perm (l : list chart_task) :
  Permutation (sort_by_start l) l.
Proof.
  induction l as [|t r IH]; simpl; [reflexivity|].
  rewrite insert_by_start_perm. now constructor.
Qed.

Lemma insert_by_start_sorted (t : chart_task) (l : list chart_task) :
  StronglySorted start_le l -> StronglySorted start_le (insert_by_start t l).
Proof.
  induction 1 as [|h r Hs IH Hall]; simpl.
  - repeat constructor.
  - destruct (start t <=? start h) eqn:E.
    + apply Z.leb_le in E. constructor; [now constructor|].
      constructor; [exact E|].
      eapply Forall_impl; [|exact Hall].
      unfold start_le. intros; lia.
    + apply Z.leb_gt in E. constructor; [exact IH|].
      apply (Permutation_Forall (Permutation_sym (insert_by_start_perm t r))).
      constructor; [unfold start_le; lia | exact Hall].
Qed.

Lemma sort_by_start_sorted (l : list chart_task) :
  StronglySorted start_le (sort_by_start l).
Proof.
  induction l as [|t r IH]; simpl; [constructor|].
  now apply insert_by_start_sorted.
Qed.

(** The sort is stable: the tasks of one start date keep their order. *)
Lemma insert_by_start_stable (k : datetime) (t : chart_task)
  (l : list chart_task) :
  filter (fun x => start x =? k) (insert_by_start t l)
  = filter (fun x => start x =? k) (t :: l).
Proof.
  induction l as [|h r IH]; [reflexivity|].
  simpl insert_by_start. destruct (start t <=? start h) eqn:E; [reflexivity|].
  apply Z.leb_gt in E. simpl in *. rewrite IH.
  destruct (start t =? k) eqn:Et, (start h =? k) eqn:Eh; try reflexivity.
  apply Z.eqb_eq in Et, Eh. lia.
Qed.

Lemma sort_by_start_stable (k : datetime) (l : list chart_task) :
  filter (fun x => start x =? k) (sort_by_start l)
  = filter (fun x => start x =? k) l.
Proof.
  induction l as [|t r IH]; [reflexivity|].
  simpl sort_by_start. rewrite insert_by_start_stable. simpl. now rewrite IH.
Qed.

Lemma fold_min_spec (r : list Z) :
  forall d, is_minimum (fold_left Z.min r d) (d :: r).
Proof.
  induction r as [|x r IH]; intros d; simpl.
  - split; [now left | constructor; [lia | constructor]].
  - destruct (IH (Z.min d x)) as [Hin Hall]. split.
    + destruct Hin as [H|H]; [|now right; right].
      rewrite <- H. destruct (Z.min_spec d x) as [[_ ->]|[_ ->]]; simpl; tauto.
    + inversion Hall as [|? ? Hd Hr]; subst.
      constructor; [lia|]. constructor; [lia | exact Hr].
Qed.

Lemma fold_max_spec (r : list Z) :
  forall d, is_maximum (fold_left Z.max r d) (d :: r).
Proof.
  induction r as [|x r IH]; intros d; simpl.
  - split; [now left | constructor; [lia | constructor]].
  - destruct (IH (Z.max d x)) as [Hin Hall]. split.
    + destruct Hin as [H|H]; [|now right; right].
      rewrite <- H. destruct (Z.max_spec d x) as [[_ ->]|[_ ->]]; simpl; tauto.
    + inversion Hall as [|? ? Hd Hr]; subst.
      constructor; [lia|]. constructor; [lia | exact Hr].
Qed.

Lemma is_minimum_perm (m : Z) (l l' : list Z) :
  Permutation l l' -> is_minimum m l -> is_minimum m l'.
Proof.
  intros P [Hin Hall]. split.
  - now apply (Permutation_in _ P).
  - now apply (Permutation_Forall P).
Qed.

Lemma is_maximum_perm (m : Z) (l l' : list Z) :
  Permutation l l' -> is_maximum m l -> is_maximum m l'.
Proof.
  intros P [Hin Hall]. split.
  - now apply (Permutation_in _ P).
  - now apply (Permutation_Forall P).
Qed.

Lemma enumerate_from_length {A} (l : list A) :
  forall i, List.length (enumerate_from i l) = List.length l.
Proof. induction l; intros; simpl; auto. Qed.

Lemma enumerate_from_nth {A} (l : list A) :
  forall i k,
    nth_error (enumerate_from i l) k
    = option_map (fun a => ((i + k)%nat, a)) (nth_error l k).
Proof.
  induction l as [|a l IH]; intros i [|k]; simpl; try reflexivity.
  - now rewrite Nat.add_0_r.
  - rewrite IH. now rewrite Nat.add_succ_r.
Qed.

Section RendererFacts.

Variable fromtimestamp : Z -> result datetime.
Local Abbreviation ftasks := (filter_tasks fromtimestamp).
Local Abbreviation render := (generate_gantt_image fromtimestamp).

(** What the renderer returns, from the chart task set on. *)
Lemma render_none (tasks : list task) (project_name : string) :
  ftasks [] tasks = Ok [] -> render tasks project_name = Ok None.
Proof.
  intros H. unfold generate_gantt_image. now rewrite H.
Qed.

Lemma render_some (tasks : list task) (valid : list chart_task)
  (project_name : string) :
  ftasks [] tasks = Ok valid -> valid <> [] ->
  exists lo hi,
    is_minimum lo (map start valid) /\ is_maximum hi (map end_ valid)
    /\ render tasks project_name
       = if in_range (lo - timedelta_days 7)
            && in_range (hi + timedelta_days 7)
         then
           Ok (Some
             {| fig_bars :=
                  map draw_bar (enumerate_from 0 (rev (sort_by_start valid)));
                fig_xlim := (lo - timedelta_days 7, hi + timedelta_days 7);
                fig_yticks := seq 0 (List.length (sort_by_start valid));
                fig_ylim :=
                  ((- (1 # 2))%Q,
                   (inject_Z (Z.of_nat (List.length (sort_by_start valid)))
                    - (1 # 2))%Q);
                fig_title := ("Diagrama de Gantt - " ++ project_name)%string
             |})
         else Raise OverflowError.
Proof.
  intros H Hne. unfold generate_gantt_image. rewrite H. cbn [rbind].
  destruct valid as [|v valid]; [contradiction|].
  cbn [List.length Nat.eqb].
  pose proof (sort_by_start_perm (v :: valid)) as P.
  destruct (sort_by_start (v :: valid)) as [|s sorted] eqn:E.
  { apply Permutation_nil in P. discriminate. }
  cbn [map py_min py_max rbind].
  exists (fold_left Z.min (map start sorted) (start s)),
         (fold_left Z.max (map end_ sorted) (end_ s)).
  split; [|split].
  - apply is_minimum_perm with (map start (s :: sorted)).
    + exact (Permutation_map start P).
    + apply fold_min_spec.
  - apply is_maximum_perm with (map end_ (s :: sorted)).
    + exact (Permutation_map end_ P).
    + apply fold_max_spec.
  - unfold datetime_sub, datetime_add.
    destruct (in_range (_ - timedelta_days 7)); cbn [rbind andb];
      [|reflexivity].
    destruct (in_range (_ + timedelta_days 7)); reflexivity.
Qed.

(** A figure, when one is returned, is the one drawn for the chart
    tasks. *)
Lemma render_figure (tasks : list task) (valid : list chart_task)
  (project_name : string) (fig : figure) :
  ftasks [] tasks = Ok valid ->
  render tasks project_name = Ok (Some fig) ->
  valid <> []
  /\ exists lo hi,
      is_minimum lo (map start valid) /\ is_maximum hi (map end_ valid)
      /\ in_range (lo - timedelta_days 7) = true
      /\ in_range (hi + timedelta_days 7) = true
      /\ fig
         = {| fig_bars :=
                map draw_bar (enumerate_from 0 (rev (sort_by_start valid)));
              fig_xlim := (lo - timedelta_days 7, hi + timedelta_days 7);
              fig_yticks := seq 0 (List.length (sort_by_start valid));
              fig_ylim :=
                ((- (1 # 2))%Q,
                 (inject_Z (Z.of_nat (List.length (sort_by_start valid)))
                  - (1 # 2))%Q);
              fig_title := ("Diagrama de Gantt - " ++ project_name)%string
           |}.
Proof.
  intros Hf R.
  assert (Hne : valid <> []).
  { intros ->. rewrite (render_none _ _ Hf) in R. discriminate. }
  split; [exact Hne|].
  destruct (render_some tasks valid project_name Hf Hne)
    as (lo & hi & Hlo & Hhi & R').
  exists lo, hi. rewrite R' in R.
  destruct (in_range (lo - timedelta_days 7)); [|discriminate].
  destruct (in_range (hi + timedelta_days 7)); [|discriminate].
  injection R as <-.
  split; [exact Hlo|]. split; [exact Hhi|]. repeat split.
Qed.

(** The renderer raises nothing but [OverflowError]. *)
Lemma render_raise (tasks : list task) (project_name : string) (e : exn) :
  render tasks project_name = Raise e ->
  e = OverflowError
  /\ (existsb (inferred_out_of_range fromtimestamp) tasks = true
      \/ ~ Forall within_margins (flat_map (resolved fromtimestamp) tasks)).
Proof.
  pose proof (filter_tasks_resolved fromtimestamp tasks []) as Hf.
  cbn [app] in Hf.
  destruct (existsb (inferred_out_of_range fromtimestamp) tasks).
  - unfold generate_gantt_image. rewrite Hf. cbn [rbind].
    intros [= <-]. split; [reflexivity | now left].
  - destruct (flat_map (resolved fromtimestamp) tasks) as [|v valid] eqn:E.
    + rewrite (render_none _ _ Hf). discriminate.
    + destruct (render_some tasks (v :: valid) project_name Hf)
        as (lo & hi & [Hlo _] & [Hhi _] & R); [discriminate|].
      rewrite R.
      destruct (in_range (lo - timedelta_days 7)) eqn:E1;
        [destruct (in_range (hi + timedelta_days 7)) eqn:E2|];
        cbn [andb]; [discriminate| |]; intros [= <-];
        (split; [reflexivity|]); right; intros F;
        rewrite Forall_forall in F.
      * apply in_map_iff in Hhi. destruct Hhi as (ct & <- & Hct).
        destruct (F ct Hct) as [_ F2]. congruence.
      * apply in_map_iff in Hlo. destruct Hlo as (ct & <- & Hct).
        destruct (F ct Hct) as [F1 _]. congruence.
Qed.

(** It returns a figure when no inferred date and no axis limit leaves the
    years 1 to 9999. *)
Lemma render_within_margins (tasks : list task) (project_name : string) :
  existsb (inferred_out_of_range fromtimestamp) tasks = false ->
  Forall within_margins (flat_map (resolved fromtimestamp) tasks) ->
  exists o, render tasks project_name = Ok o.
Proof.
  intros Hi Hm.
  destruct (render tasks project_name) as [o|e] eqn:R; [now exists o|].
  apply render_raise in R. destruct R as [_ [R|R]]; [congruence|].
  contradiction.
Qed.

Lemma has_date_decoded (v : value) :
  has_date fromtimestamp v = truthy_opt (decoded fromtimestamp v).
Proof.
  unfold has_date. rewrite decoded_eq. now destruct (decoded fromtimestamp v).
Qed.

Lemma resolved_length (t : task) :
  List.length (resolved fromtimestamp t)
  = if undated fromtimestamp t then 0%nat else 1%nat.
Proof.
  unfold resolved, undated. rewrite !has_date_decoded.
  destruct (decoded fromtimestamp (t_start_date t)),
           (decoded fromtimestamp (t_due_date t)); reflexivity.
Qed.

Lemma resolved_count (tasks : list task) :
  (List.length (flat_map (resolved fromtimestamp) tasks)
   + List.length (filter (undated fromtimestamp) tasks)
   = List.length tasks)%nat.
Proof.
  induction tasks as [|t tasks IH]; [reflexivity|].
  simpl. rewrite length_app, resolved_length.
  destruct (undated fromtimestamp t); simpl; lia.
Qed.

Lemma resolved_nil_iff (tasks : list task) :
  flat_map (resolved fromtimestamp) tasks = []
  <-> forallb (undated fromtimestamp) tasks = true.
Proof.
  induction tasks as [|t tasks IH]; simpl; [tauto|].
  pose proof (resolved_length t) as L.
  destruct (undated fromtimestamp t); simpl.
  - destruct (resolved fromtimestamp t); [simpl; exact IH | discriminate].
  - destruct (resolved fromtimestamp t); [discriminate|].
    split; discriminate.
Qed.

Lemma undated_not_inferred (tasks : list task) :
  forallb (undated fromtimestamp) tasks = true ->
  existsb (inferred_out_of_range fromtimestamp) tasks = false.
Proof.
  induction tasks as [|t tasks IH]; cbn [forallb existsb]; [reflexivity|].
  intros H. apply andb_true_iff in H. destruct H as [Ht H].
  rewrite (IH H), orb_false_r. revert Ht.
  unfold undated, inferred_out_of_range. rewrite !has_date_decoded.
  now destruct (decoded fromtimestamp (t_start_date t)),
               (decoded fromtimestamp (t_due_date t)).
Qed.

(** When the renderer returns, the filtering loop has returned the chart
    tasks of the records. *)
Lemma render_filter (tasks : list task) (project_name : string)
  (o : option figure) :
  render tasks project_name = Ok o ->
  ftasks [] tasks = Ok (flat_map (resolved fromtimestamp) tasks).
Proof.
  pose proof (filter_tasks_resolved fromtimestamp tasks []) as Hf.
  cbn [app] in Hf.
  destruct (existsb (inferred_out_of_range fromtimestamp) tasks);
    [|intros _; exact Hf].
  unfold generate_gantt_image. rewrite Hf. discriminate.
Qed.

(** Chart tasks that lie 7 days inside the years 1 to 9999 are drawn. *)
Lemma render_within (tasks : list task) (valid : list chart_task)
  (project_name : string) :
  ftasks [] tasks = Ok valid -> valid <> [] ->
  Forall within_margins valid ->
  exists fig, render tasks project_name = Ok (Some fig).
Proof.
  intros Hf Hne Hm. rewrite Forall_forall in Hm.
  destruct (render_some tasks valid project_name Hf Hne)
    as (lo & hi & [Hlo _] & [Hhi _] & R).
  apply in_map_iff in Hlo. destruct Hlo as (a & <- & Ha).
  apply in_map_iff in Hhi. destruct Hhi as (b & <- & Hb).
  rewrite (proj1 (Hm a Ha)), (proj2 (Hm b Hb)) in R. eexists. exact R.
Qed.

End RendererFacts.

Section RendererClaims.

Variable fromtimestamp : Z -> result datetime.
Local Abbreviation ftasks := (filter_tasks fromtimestamp).
Local Abbreviation render := (generate_gantt_image fromtimestamp).

(** C5, amended.  For every list of task records the renderer returns the
    failure signal [None] exactly when the list is empty or no record
    carries a timestamp that decodes to a date.  When it returns a figure,
    the number of bars drawn is the number of records minus the number of
    records without such a timestamp.  Otherwise it raises
    [OverflowError]: a date inferred for a record, or a limit of the axis,
    is no date of the years 1 to 9999; it does not raise when no inferred
    date is out of range and every chart task lies 7 days inside those
    years. *)
Theorem renderer_failure_and_count (tasks : list task)
  (project_name : string) :
  (render tasks project_name = Ok None
   <-> tasks = [] \/ forallb (undated fromtimestamp) tasks = true)
  /\ (forall fig,
         render tasks project_name = Ok (Some fig) ->
         List.length (fig_bars fig)
         = (List.length tasks
            - List.length (filter (undated fromtimestamp) tasks))%nat)
  /\ (forall e,
         render tasks project_name = Raise e ->
         e = OverflowError
         /\ (existsb (inferred_out_of_range fromtimestamp) tasks = true
             \/ ~ Forall within_margins
                    (flat_map (resolved fromtimestamp) tasks)))
  /\ (existsb (inferred_out_of_range fromtimestamp) tasks = false ->
      Forall within_margins (flat_map (resolved fromtimestamp) tasks) ->
      exists o, render tasks project_name = Ok o).
Proof.
  pose proof (resolved_count fromtimestamp tasks) as Hc.
  pose proof (resolved_nil_iff fromtimestamp tasks) as Hn.
  split; [|split; [|split]].
  - split.
    + intros R. right. apply Hn.
      pose proof (render_filter fromtimestamp _ _ _ R) as Hf.
      destruct (flat_map (resolved fromtimestamp) tasks) as [|v valid];
        [reflexivity|].
      destruct (render_some fromtimestamp tasks (v :: valid) project_name Hf)
        as (lo & hi & _ & _ & R'); [discriminate|].
      rewrite R' in R. destruct (_ && _); discriminate.
    + intros H.
      assert (Hu : forallb (undated fromtimestamp) tasks = true)
        by (destruct H as [->|H]; [reflexivity | exact H]).
      apply render_none.
      rewrite filter_tasks_resolved, (undated_not_inferred _ _ Hu).
      cbn [app]. f_equal. now apply Hn.
  - intros fig R.
    pose proof (render_filter fromtimestamp _ _ _ R) as Hf.
    destruct (render_figure fromtimestamp _ _ _ _ Hf R)
      as (_ & lo & hi & _ & _ & _ & _ & ->).
    cbn [fig_bars]. rewrite length_map, enumerate_from_length, length_rev.
    rewrite (Permutation_length (sort_by_start_perm _)). lia.
  - intros e. apply render_raise.
  - apply render_within_margins.
Qed.

(** C7, amended.  For every non-empty set of chart tasks that survives
    date resolution, with [lo] its least resolved start and [hi] its
    greatest resolved end: when [lo] - 7 days and [hi] + 7 days are dates
    of the years 1 to 9999, a figure is returned whose horizontal axis
    runs from the one to the other; when one of them is no such date, the
    renderer raises [OverflowError] and returns no figure. *)
Theorem axis_range (tasks : list task) (valid : list chart_task)
  (project_name : string) :
  ftasks [] tasks = Ok valid -> valid <> [] ->
  exists lo hi,
    is_minimum lo (map start valid)
    /\ is_maximum hi (map end_ valid)
    /\ (in_range (lo - timedelta_days 7) = true ->
        in_range (hi + timedelta_days 7) = true ->
        exists fig,
          render tasks project_name = Ok (Some fig)
          /\ fig_xlim fig = (lo - timedelta_days 7, hi + timedelta_days 7))
    /\ (in_range (lo - timedelta_days 7) = false
        \/ in_range (hi + timedelta_days 7) = false ->
        render tasks project_name = Raise OverflowError).
Proof.
  intros Hf Hne.
  destruct (render_some fromtimestamp tasks valid project_name Hf Hne)
    as (lo & hi & Hlo & Hhi & R).
  exists lo, hi.
  split; [exact Hlo|]. split; [exact Hhi|]. rewrite R. split.
  - intros -> ->. eexists. split; reflexivity.
  - intros [-> | ->]; [reflexivity|]. now rewrite andb_false_r.
Qed.

End RendererClaims.

(** C5, as stated, fails twice.  A record that carries a timestamp no date
    can be read from makes the renderer return the failure signal, and a
    record that starts in the last second of the year 9999 makes it raise:
    neither a failure signal nor a chart. *)
Lemma renderer_failure_wording :
  ~ fails_without_timestamps fromtimestamp_utc [task_D] "QA"
  /\ ~ fails_without_timestamps fromtimestamp_utc [task_Z] "QA".
Proof.
  split; intros [H1 H2].
  - destruct (proj1 H1 eq_refl) as [H|H]; discriminate H.
  - destruct H2 as (fig & H & _); [|vm_compute in H; discriminate H].
    vm_compute. discriminate.
Qed.

Lemma renderer_failure_and_count_witness :
  (exists fig,
      generate_gantt_image fromtimestamp_utc [task_A; task_B; task_C] "QA"
      = Ok (Some fig)
      /\ List.length (fig_bars fig) = 2%nat)
  /\ generate_gantt_image fromtimestamp_utc [task_D; task_C] "QA" = Ok None
  /\ generate_gantt_image fromtimestamp_utc [task_A; task_Z] "QA"
     = Raise OverflowError.
Proof.
  split; [|split].
  - destruct (generate_gantt_image fromtimestamp_utc
                [task_A; task_B; task_C] "QA") as [[fig|]|e] eqn:R;
      [|vm_compute in R; discriminate R | vm_compute in R; discriminate R].
    exists fig. split; [reflexivity|].
    apply (proj1 (proj2 (renderer_failure_and_count fromtimestamp_utc
                           [task_A; task_B; task_C] "QA")) fig R).
  - apply (proj1 (renderer_failure_and_count fromtimestamp_utc
                    [task_D; task_C] "QA")).
    right. reflexivity.
  - destruct (generate_gantt_image fromtimestamp_utc [task_A; task_Z] "QA")
      as [o|e] eqn:R; [vm_compute in R; discriminate R|].
    f_equal.
    apply (proj1 (proj2 (proj2 (renderer_failure_and_count fromtimestamp_utc
                                  [task_A; task_Z] "QA"))) e R).
Defined.

(** C7, as stated, fails: the record Y runs over the last four days of
    the year 9999, it survives date resolution, and no figure is returned,
    since no date lies 7 days after its end. *)
Lemma axis_range_overflow :
  ~ axis_spans fromtimestamp_utc [task_Y] "QA".
Proof.
  intros H.
  destruct (H [chart_task_of task_Y 253401955200000000 253402300799000000]
              eq_refl ltac:(discriminate)) as (fig & lo & hi & R & _).
  vm_compute in R. discriminate R.
Qed.

Lemma axis_range_witness :
  (exists fig,
      generate_gantt_image fromtimestamp_utc [task_A; task_B; task_C] "QA"
      = Ok (Some fig)
      /\ fig_xlim fig
         = (day0 - timedelta_days 7,
            day0 + timedelta_days 5 + timedelta_days 7))
  /\ generate_gantt_image fromtimestamp_utc [task_Y] "QA"
     = Raise OverflowError.
Proof.
  split.
  - destruct (axis_range fromtimestamp_utc [task_A; task_B; task_C]
                [chart_task_of task_A day0 (day0 + timedelta_days 2);
                 chart_task_of task_B (day0 + timedelta_days 4)
                   (day0 + timedelta_days 5)] "QA")
      as (lo & hi & [Hlo Hlo'] & [Hhi Hhi'] & X & _).
    + reflexivity.
    + discriminate.
    + assert (lo = day0).
      { inversion Hlo' as [|? ? H1 H2]; subst.
        destruct Hlo as [<-|[<-|[]]]; [reflexivity|].
        vm_compute in H1. now contradiction H1. }
      assert (hi = day0 + timedelta_days 5).
      { inversion Hhi' as [|? ? H1 H2]; subst.
        inversion H2 as [|? ? H3 H4]; subst.
        destruct Hhi as [<-|[<-|[]]]; [|reflexivity].
        vm_compute in H3. now contradiction H3. }
      subst. destruct X as (fig & R & X); [reflexivity | reflexivity |].
      exists fig. split; [exact R | exact X].
  - destruct (axis_range fromtimestamp_utc [task_Y]
                [chart_task_of task_Y 253401955200000000 253402300799000000]
                "QA")
      as (lo & hi & _ & [Hhi _] & _ & X).
    + reflexivity.
    + discriminate.
    + apply X. right. destruct Hhi as [<-|[]]. reflexivity.
Defined.

(** C8.  The chart tasks are sorted by ascending resolved start, tasks of
    one start date keeping their order, and drawn in the reverse of that
    order on an upward vertical axis: in every figure returned, the [k]-th
    task of the sorted list is the bar at height [n - 1 - k], so the
    earliest one is the topmost bar, and a figure is returned whenever
    the chart tasks are not empty and lie 7 days inside the years 1 to
    9999.  In the scenario A (start Day0, due
    Day2), B (due Day5 only), C (no date), C is dropped, B starts on Day4,
    and A comes before B in the sorted order, whatever the order of the
    input. *)
Theorem chart_ordering :
  (forall fromtimestamp tasks valid project_name fig,
      filter_tasks fromtimestamp [] tasks = Ok valid ->
      generate_gantt_image fromtimestamp tasks project_name = Ok (Some fig) ->
      exists sorted,
        Permutation sorted valid
        /\ StronglySorted start_le sorted
        /\ (forall d, filter (fun x => start x =? d) sorted
                      = filter (fun x => start x =? d) valid)
        /\ fig_bars fig = map draw_bar (enumerate_from 0 (rev sorted))
        /\ (forall k t,
               nth_error sorted k = Some t ->
               nth_error (fig_bars fig) (List.length sorted - 1 - k)
               = Some (draw_bar ((List.length sorted - 1 - k)%nat, t)))
        /\ (fst (fig_ylim fig) < snd (fig_ylim fig))%Q)
  /\ (forall fromtimestamp tasks valid project_name,
      filter_tasks fromtimestamp [] tasks = Ok valid -> valid <> [] ->
      Forall within_margins valid ->
      exists fig,
        generate_gantt_image fromtimestamp tasks project_name
        = Ok (Some fig))
  /\ filter_tasks fromtimestamp_utc [] [task_A; task_B; task_C]
     = Ok [chart_task_of task_A day0 (day0 + timedelta_days 2);
           chart_task_of task_B (day0 + timedelta_days 4)
             (day0 + timedelta_days 5)]
  /\ (forall tasks,
         tasks = [task_A; task_B; task_C] \/ tasks = [task_C; task_B; task_A] ->
         exists valid fig,
           filter_tasks fromtimestamp_utc [] tasks = Ok valid
           /\ sort_by_start valid
              = [chart_task_of task_A day0 (day0 + timedelta_days 2);
                 chart_task_of task_B (day0 + timedelta_days 4)
                   (day0 + timedelta_days 5)]
           /\ generate_gantt_image fromtimestamp_utc tasks "QA" = Ok (Some fig)
           /\ map (fun b => (bar_y b, bar_label b)) (fig_bars fig)
              = [(0%nat, "B"%string); (1%nat, "A"%string)]).
Proof.
  split; [|split; [|split]].
  - intros fromtimestamp tasks valid project_name fig Hf R.
    destruct (render_figure fromtimestamp _ _ _ _ Hf R)
      as (Hne & lo & hi & _ & _ & _ & _ & ->).
    exists (sort_by_start valid).
    split; [apply sort_by_start_perm|].
    split; [apply sort_by_start_sorted|].
    split; [intros d; apply sort_by_start_stable|].
    split; [reflexivity|].
    pose proof (Permutation_length (sort_by_start_perm valid)) as L.
    split.
    + intros k t Hk. cbn [fig_bars].
      assert (Hlt : (k < List.length (sort_by_start valid))%nat)
        by (apply nth_error_Some; congruence).
      rewrite nth_error_map, enumerate_from_nth, nth_error_rev.
      destruct (Nat.ltb_spec (List.length (sort_by_start valid) - 1 - k)
                  (List.length (sort_by_start valid))); [|lia].
      replace (List.length (sort_by_start valid)
               - S (List.length (sort_by_start valid) - 1 - k))%nat
        with k by lia.
      rewrite Hk. reflexivity.
    + cbn [fig_ylim fst snd]. rewrite L.
      destruct valid; [contradiction|].
      unfold Qlt, Qminus, Qplus, Qopp, inject_Z. cbn [Qnum Qden List.length].
      lia.
  - intros fromtimestamp tasks valid project_name.
    apply render_within.
  - vm_compute. reflexivity.
  - intros tasks [->| ->].
    + exists [chart_task_of task_A day0 (day0 + timedelta_days 2);
              chart_task_of task_B (day0 + timedelta_days 4)
                (day0 + timedelta_days 5)].
      eexists. split; [vm_compute; reflexivity|].
      split; [vm_compute; reflexivity|].
      split; [vm_compute; reflexivity|]. vm_compute. reflexivity.
    + exists [chart_task_of task_B (day0 + timedelta_days 4)
                (day0 + timedelta_days 5);
              chart_task_of task_A day0 (day0 + timedelta_days 2)].
      eexists. split; [vm_compute; reflexivity|].
      split; [vm_compute; reflexivity|].
      split; [vm_compute; reflexivity|]. vm_compute. reflexivity.
Qed.

Lemma chart_ordering_witness :
  exists fig,
    generate_gantt_image fromtimestamp_utc [task_B; task_A] "QA"
    = Ok (Some fig)
    /\ nth_error (fig_bars fig) 1
       = Some (draw_bar (1%nat,
                         chart_task_of task_A day0 (day0 + timedelta_days 2))).
Proof.
  destruct (generate_gantt_image fromtimestamp_utc [task_B; task_A] "QA")
    as [[fig|]|e] eqn:R;
    [|vm_compute in R; discriminate R | vm_compute in R; discriminate R].
  exists fig. split; [reflexivity|].
  destruct (proj1 chart_ordering fromtimestamp_utc [task_B; task_A]
              [chart_task_of task_B (day0 + timedelta_days 4)
                 (day0 + timedelta_days 5);
               chart_task_of task_A day0 (day0 + timedelta_days 2)]
              "QA"%string fig eq_refl R)
    as (sorted & P & S & _ & _ & Hnth & _).
  assert (Hs : sorted
               = [chart_task_of task_A day0 (day0 + timedelta_days 2);
                  chart_task_of task_B (day0 + timedelta_days 4)
                    (day0 + timedelta_days 5)]).
  { pose proof (Permutation_length P) as L.
    destruct sorted as [|x [|y [|z r]]]; try discriminate L.
    inversion S as [|? ? _ Hall]; subst. inversion Hall as [|? ? Hxy _]; subst.
    apply Permutation_length_2 in P.
    destruct P as [[-> ->]|[-> ->]]; [|reflexivity].
    vm_compute in Hxy. now contradiction Hxy. }
  subst sorted. exact (Hnth 0%nat _ eq_refl).
Defined.

(** * Status colours *)

Lemma prefix_spec (k s : string) :
  String.prefix k s = true <-> exists b, s = (k ++ b)%string.
Proof.
  revert s. induction k as [|c k IH]; intros s.
  - split; [intros _; now exists s | intros _; now destruct s].
  - destruct s as [|d s]; simpl.
    + split; [discriminate | intros [b H]; discriminate].
    + destruct (ascii_dec c d) as [->|Hne].
      * rewrite IH. split; intros [b H]; exists b; congruence.
      * split; [discriminate | intros [b H]; congruence].
Qed.

Lemma contains_spec (k s : string) :
  contains k s = true <-> substring k s.
Proof.
  unfold substring. induction s as [|d s IH]; cbn [contains].
  - destruct (String.prefix k "") eqn:E.
    + split; [intros _|reflexivity].
      apply prefix_spec in E. destruct E as [b E]. now exists ""%string, b.
    + split; [discriminate|]. intros ([|? a] & b & H).
      * assert (String.prefix k "" = true)
          by (apply prefix_spec; now exists b).
        congruence.
      * discriminate.
  - destruct (String.prefix k (String d s)) eqn:E.
    + split; [intros _|reflexivity].
      apply prefix_spec in E. destruct E as [b E]. now exists ""%string, b.
    + rewrite IH. split.
      * intros (a & b & ->). now exists (String d a), b.
      * intros ([|c a] & b & H).
        -- assert (String.prefix k (String d s) = true)
             by (apply prefix_spec; now exists b).
           congruence.
        -- simpl in H. injection H as _ ->. now exists a, b.
Qed.

Lemma contains_false (k s : string) :
  contains k s = false <-> ~ substring k s.
Proof.
  rewrite <- contains_spec. destruct (contains k s); split; congruence.
Qed.

Lemma first_color_spec (label default : string) (table : list (string * string)) :
  (exists pre key col post,
      table = pre ++ (key, col) :: post
      /\ Forall (fun kc => ~ substring (fst kc) label) pre
      /\ substring key label
      /\ first_color table label default = col)
  \/ (Forall (fun kc => ~ substring (fst kc) label) table
      /\ first_color table label default = default).
Proof.
  induction table as [|[key col] table IH]; simpl.
  - right. split; [constructor | reflexivity].
  - destruct (contains key label) eqn:E.
    + left. exists [], key, col, table.
      split; [reflexivity|]. split; [constructor|].
      split; [now apply contains_spec | reflexivity].
    + apply contains_false in E.
      destruct IH as [(pre & k & c & post & -> & Hpre & Hk & Hc)|[Hall Hc]].
      * left. exists ((key, col) :: pre), k, c, post.
        split; [reflexivity|]. split; [now constructor|]. now split.
      * right. split; [now constructor | exact Hc].
Qed.

Lemma upper_char_idem (c : ascii) : upper_char (upper_char c) = upper_char c.
Proof. destruct c as [[] [] [] [] [] [] [] []]; reflexivity. Qed.

Lemma upper_lower_char (c : ascii) : upper_char (lower_char c) = upper_char c.
Proof. destruct c as [[] [] [] [] [] [] [] []]; reflexivity. Qed.

Lemma upper_idem (s : string) : upper (upper s) = upper s.
Proof.
  unfold upper. induction s as [|c s IH]; cbn [map_string]; [reflexivity|].
  now rewrite upper_char_idem, IH.
Qed.

Lemma upper_lower (s : string) : upper (lower s) = upper s.
Proof.
  unfold upper, lower. induction s as [|c s IH]; cbn [map_string];
    [reflexivity|].
  now rewrite upper_lower_char, IH.
Qed.

(** C6.  The colour of a status label is the colour of the first entry of
    the fixed table whose key occurs in the upper-cased label, and the
    default light gray when no key occurs in it; the case of the label does
    not matter.  "COMPLETED" and "complete" get the same green, a label the
    table does not know gets light gray. *)
Theorem status_color_classification (label : string) :
  ((exists pre key col post,
       status_colors = pre ++ (key, col) :: post
       /\ Forall (fun kc => ~ substring (fst kc) (upper label)) pre
       /\ substring key (upper label)
       /\ color_of_status label = col)
   \/ (Forall (fun kc => ~ substring (fst kc) (upper label)) status_colors
       /\ color_of_status label = "#e0e0e0"%string))
  /\ color_of_status (upper label) = color_of_status label
  /\ color_of_status (lower label) = color_of_status label
  /\ color_of_status "COMPLETED" = "#8dd879"%string
  /\ color_of_status "complete" = "#8dd879"%string
  /\ color_of_status "Completed" = "#8dd879"%string
  /\ color_of_status "blocked" = "#e0e0e0"%string.
Proof.
  split; [apply first_color_spec|].
  split; [unfold color_of_status; now rewrite upper_idem|].
  split; [unfold color_of_status; now rewrite upper_lower|].
  repeat split.
Qed.

(** * The task fetcher *)

#[local] Arguments Z.add : simpl never.
#[local] Arguments Z.mul : simpl never.
#[local] Arguments Z.sub : simpl never.

Lemma after_after (w : world) (a b : list request) :
  after (after w a) b = after w (a ++ b).
Proof. unfold after; simpl. now rewrite app_assoc. Qed.

Lemma send_run (rq : request) (w : world) :
  send rq w = (answer w 0 rq, after w [rq]).
Proof. unfold send, answer, after. now rewrite Nat.add_0_r. Qed.

Lemma answer_after (w : world) (rqs : list request) (k : nat) (rq : request) :
  answer (after w rqs) k rq = answer w (List.length rqs + k) rq.
Proof.
  unfold answer, after; simpl. rewrite length_app.
  now rewrite Nat.add_assoc.
Qed.

Lemma get_lists_attempt_run (tok id : string) (k : Z) (w : world) :
  get_lists_attempt tok id k w
  = (attempt_result (fun j => list_of (j_lists j)) k
       (answer w 0 (folder_request tok id (15 + k * 5))),
     after w [folder_request tok id (15 + k * 5)]).
Proof.
  unfold get_lists_attempt, try_except_M, bind. rewrite send_run.
  destruct (answer w 0 _) as [r|e]; simpl.
  - unfold raise_for_status, response_json, ret, raise.
    destruct (status_code r =? 404) eqn:E1.
    { apply Z.eqb_eq in E1. rewrite E1. reflexivity. }
    destruct (status_code r =? 401) eqn:E2.
    { apply Z.eqb_eq in E2. rewrite E2. reflexivity. }
    destruct (status_code r =? 403) eqn:E3.
    { apply Z.eqb_eq in E3. rewrite E3. reflexivity. }
    destruct ((400 <=? status_code r) && (status_code r <? 600)); simpl;
      [reflexivity|].
    destruct (json_body r) as [j|]; reflexivity.
  - destruct e; try reflexivity;
      change (3 - 1) with 2; destruct (k =? 2); reflexivity.
Qed.

Lemma get_tasks_attempt_run (tok id : string) (k : Z) (w : world) :
  get_tasks_attempt tok id k w
  = (attempt_result (fun j => list_of (j_tasks j)) k
       (answer w 0 (tasks_request tok id (15 + k * 5))),
     after w [tasks_request tok id (15 + k * 5)]).
Proof.
  unfold get_tasks_attempt, try_except_M, bind. rewrite send_run.
  destruct (answer w 0 _) as [r|e]; simpl.
  - unfold raise_for_status, response_json, ret, raise.
    destruct (status_code r =? 404) eqn:E1.
    { apply Z.eqb_eq in E1. rewrite E1. reflexivity. }
    destruct (status_code r =? 401) eqn:E2.
    { apply Z.eqb_eq in E2. rewrite E2. reflexivity. }
    destruct ((400 <=? status_code r) && (status_code r <? 600)); simpl;
      [reflexivity|].
    destruct (json_body r) as [j|]; reflexivity.
  - destruct e; try reflexivity;
      change (3 - 1) with 2; destruct (k =? 2); reflexivity.
Qed.

(** The loop of three attempts, for a body that makes one request a turn
    and treats the answer as [attempt_result] says. *)
Section Retry.

Context {A : Type}.
Variable body : Z -> M (flow (option A)).
Variable rq : Z -> request.
Variable payload : json_obj -> A.
Hypothesis body_run : forall k w,
  body k w = (attempt_result payload k (answer w 0 (rq (15 + k * 5))),
              after w [rq (15 + k * 5)]).

Local Abbreviation call := (for_range (py_range max_retries) body (ret None)).

Lemma call_run (w : world) :
  call w =
  match attempt_result payload 0 (answer w 0 (rq 15)) with
  | Raise e => (Raise e, after w [rq 15])
  | Ok (Return a) => (Ok a, after w [rq 15])
  | Ok Continue =>
    match attempt_result payload 1 (answer w 1 (rq 20)) with
    | Raise e => (Raise e, after w [rq 15; rq 20])
    | Ok (Return a) => (Ok a, after w [rq 15; rq 20])
    | Ok Continue =>
      match attempt_result payload 2 (answer w 2 (rq 25)) with
      | Raise e => (Raise e, after w [rq 15; rq 20; rq 25])
      | Ok (Return a) => (Ok a, after w [rq 15; rq 20; rq 25])
      | Ok Continue => (Ok None, after w [rq 15; rq 20; rq 25])
      end
    end
  end.
Proof.
  unfold py_range, max_retries. cbn [seq map for_range Z.of_nat].
  unfold bind. rewrite body_run. change (15 + 0 * 5) with 15.
  destruct (attempt_result payload 0 _) as [[a|]|e]; try reflexivity.
  rewrite body_run, answer_after, after_after.
  change (15 + Z.pos (Pos.of_succ_nat 0) * 5) with 20.
  change (Z.pos (Pos.of_succ_nat 0)) with 1. cbn [List.length Nat.add app].
  destruct (attempt_result payload 1 _) as [[a|]|e]; try reflexivity.
  rewrite body_run, answer_after, after_after.
  change (15 + Z.pos (Pos.of_succ_nat 1) * 5) with 25.
  change (Z.pos (Pos.of_succ_nat 1)) with 2. cbn [List.length Nat.add app].
  destruct (attempt_result payload 2 _) as [[a|]|e]; reflexivity.
Qed.

Lemma transient_result (k : Z) (a : result response) :
  transient a ->
  attempt_result payload k a = Ok (if k =? 2 then Return None else Continue).
Proof. intros [->| ->]; reflexivity. Qed.

Lemma non_retryable_result (k : Z) (a : result response) :
  non_retryable a -> attempt_result payload k a = Ok (Return None).
Proof.
  intros (r & -> & H). simpl.
  destruct H as [-> | [-> | ->]]; reflexivity.
Qed.

Lemma succeeds_result (k : Z) (a : result response) (j : json_obj) :
  succeeds_with a j ->
  attempt_result payload k a = Ok (Return (Some (payload j))).
Proof.
  intros (r & -> & Hs & Hj). simpl. rewrite Hj.
  unfold status_ok in Hs.
  destruct (Z.leb_spec 400 (status_code r)),
           (Z.ltb_spec (status_code r) 600); simpl; try reflexivity.
  lia.
Qed.

Lemma call_policy : retry_policy call rq payload.
Proof.
  unfold retry_policy.
  split; [|split; [|split; [|split; [|split]]]].
  - intros w. rewrite call_run.
    destruct (attempt_result payload 0 _) as [[a|]|e];
      [exists 1%nat; split; [lia|reflexivity] |
      | exists 1%nat; split; [lia|reflexivity]].
    destruct (attempt_result payload 1 _) as [[a|]|e];
      [exists 2%nat; split; [lia|reflexivity] |
      | exists 2%nat; split; [lia|reflexivity]].
    destruct (attempt_result payload 2 _) as [[a|]|e];
      exists 3%nat; split; try lia; reflexivity.
  - intros w H0 H1 H2. rewrite call_run.
    rewrite (transient_result 0 _ H0), (transient_result 1 _ H1),
            (transient_result 2 _ H2).
    reflexivity.
  - intros w H0. rewrite call_run. now rewrite (non_retryable_result 0 _ H0).
  - intros w H0 H1. rewrite call_run.
    now rewrite (transient_result 0 _ H0), (non_retryable_result 1 _ H1).
  - intros w H0 H1 H2. rewrite call_run.
    now rewrite (transient_result 0 _ H0), (transient_result 1 _ H1),
                (non_retryable_result 2 _ H2).
  - intros w j H0 H1 H2. rewrite call_run, H0, H1. simpl.
    now rewrite (succeeds_result 2 _ _ H2).
Qed.

End Retry.

(** C3.  Folder resolution and the fetch of a list's tasks each make at
    most three attempts, with timeouts 15, 20 and 25; a timeout or a
    connection failure at the third attempt gives the failure signal
    [None], returned and not raised; an answer that rejects the
    authentication, does not find the resource or forbids the access gives
    it at once, with no further attempt; two timeouts followed by a
    success return the successful result. *)
Theorem remote_call_retry_policy (api_token id : string) :
  retry_policy (get_lists_from_folder api_token id)
    (folder_request api_token id) (fun j => list_of (j_lists j))
  /\ retry_policy (get_clickup_tasks api_token id)
       (tasks_request api_token id) (fun j => list_of (j_tasks j))
  /\ (forall timeout,
         rq_timeout (folder_request api_token id timeout) = timeout
         /\ rq_timeout (tasks_request api_token id timeout) = timeout).
Proof.
  split; [|split].
  - apply call_policy, get_lists_attempt_run.
  - apply call_policy, get_tasks_attempt_run.
  - intros timeout. split; reflexivity.
Qed.

Lemma remote_call_retry_policy_witness :
  get_clickup_tasks "tok" "L1" (world_of net_third_time_lucky)
  = (Ok (Some [task_A; task_B; task_C]),
     after (world_of net_third_time_lucky)
       [tasks_request "tok" "L1" 15; tasks_request "tok" "L1" 20;
        tasks_request "tok" "L1" 25]).
Proof.
  destruct (remote_call_retry_policy "tok" "L1")
    as (_ & (_ & _ & _ & _ & _ & H) & _).
  apply (H (world_of net_third_time_lucky)
           (json_tasks [task_A; task_B; task_C])).
  - reflexivity.
  - reflexivity.
  - eexists. split; [reflexivity|]. split; [|reflexivity].
    unfold status_ok. simpl. lia.
Defined.

Lemma bind_subscript {A B} (o : option A) (k : A -> M B) (w : world) :
  bind (subscript o) k w
  = match o with
    | Some a => k a w
    | None => (Raise KeyError, w)
    end.
Proof. now destruct o. Qed.

Lemma extend_from_lists_run (tok : string) (lists : list list_item) :
  forall acc w,
    extend_from_lists tok lists acc w =
    match fetch_each tok lists w with
    | (Ok rs, w') => (Ok (acc ++ List.concat (map list_of rs)), w')
    | (Raise e, w') => (Raise e, w')
    end.
Proof.
  induction lists as [|l rest IH]; intros acc w;
    cbn [extend_from_lists fetch_each].
  - unfold ret. cbn. now rewrite app_nil_r.
  - rewrite !bind_subscript.
    destruct (li_id l) as [id|]; [|reflexivity]. rewrite !bind_subscript.
    destruct (li_name l) as [nm|]; [|reflexivity].
    unfold bind.
    destruct (get_clickup_tasks tok id w) as [[r|e] w1]; [|reflexivity].
    rewrite IH. destruct (fetch_each tok rest w1) as [[rs|e] w2]; [|reflexivity].
    unfold ret. cbn [map List.concat]. f_equal. f_equal.
    destruct r as [[|t r]|]; cbn [truthy_list list_of app];
      rewrite <- ?app_assoc; reflexivity.
Qed.

Lemma fetch_each_app (tok : string) (a b : list list_item) :
  forall w,
    fetch_each tok (a ++ b) w =
    match fetch_each tok a w with
    | (Ok ra, w1) =>
        match fetch_each tok b w1 with
        | (Ok rb, w2) => (Ok (ra ++ rb), w2)
        | (Raise e, w2) => (Raise e, w2)
        end
    | (Raise e, w1) => (Raise e, w1)
    end.
Proof.
  induction a as [|l a IH]; intros w; cbn [app fetch_each].
  - unfold ret. now destruct (fetch_each tok b w) as [[rb|e] w2].
  - rewrite !bind_subscript.
    destruct (li_id l) as [id|]; [|reflexivity]. rewrite !bind_subscript.
    destruct (li_name l) as [nm|]; [|reflexivity].
    unfold bind.
    destruct (get_clickup_tasks tok id w) as [[r|e] w1]; [|reflexivity].
    rewrite IH. destruct (fetch_each tok a w1) as [[ra|e] w2]; [|reflexivity].
    unfold ret.
    now destruct (fetch_each tok b w2) as [[rb|e] w3].
Qed.

Lemma fetch_each_unnamed (tok : string) (l : list_item)
  (rest : list list_item) (w : world) :
  li_id l = None \/ li_name l = None ->
  fetch_each tok (l :: rest) w = (Raise KeyError, w).
Proof.
  cbn [fetch_each]. rewrite bind_subscript.
  intros [H|H]; rewrite H; [reflexivity|].
  destruct (li_id l); [|reflexivity]. now rewrite bind_subscript.
Qed.

(** C2, as stated, fails: the folder holds two lists, the second one
    cannot be fetched, and the fetch returns the records of the first
    list alone. *)
Lemma folder_fetch_partial :
  ~ complete_or_failure "tok" "F" (world_of net_second_list_down).
Proof.
  intros H.
  destruct (H [list_1; list_2]
              (after (world_of net_second_list_down)
                 [folder_request "tok" "F" 15])
              [Some [task_A]; None]
              (after (world_of net_second_list_down)
                 [folder_request "tok" "F" 15; tasks_request "tok" "L1" 15;
                  tasks_request "tok" "L2" 15; tasks_request "tok" "L2" 20;
                  tasks_request "tok" "L2" 25]) eq_refl eq_refl)
    as [F|[F _]].
  - discriminate F.
  - inversion F as [|? ? _ F']. inversion F' as [|? ? F'' _]. now apply F''.
Qed.

(** C2, amended.  The fetch of a folder first resolves the folder to its
    lists and fails as a whole when the resolution fails or gives no list.
    Otherwise it fetches the lists in order and returns the concatenation
    of the records of the lists whose fetch succeeded, a list whose fetch
    failed being skipped, or the failure signal when that concatenation is
    empty.  A list that lacks its id or its name cannot be fetched: the
    fetch raises [KeyError] on reaching it. *)
Theorem folder_fetch (api_token folder_id : string) (w : world) :
  (forall w1 lists,
      get_lists_from_folder api_token folder_id w = (Ok lists, w1) ->
      truthy_list lists = false ->
      get_all_tasks_from_source api_token folder_id "folder" w = (Ok None, w1))
  /\ (forall lists w1 fetched w2,
      get_lists_from_folder api_token folder_id w = (Ok (Some lists), w1) ->
      lists <> [] ->
      fetch_each api_token lists w1 = (Ok fetched, w2) ->
      get_all_tasks_from_source api_token folder_id "folder" w
      = (match List.concat (map list_of fetched) with
         | [] => Ok None
         | tasks => Ok (Some tasks)
         end, w2))
  /\ (forall before l rest w1 fetched w2,
      get_lists_from_folder api_token folder_id w
      = (Ok (Some (before ++ l :: rest)), w1) ->
      fetch_each api_token before w1 = (Ok fetched, w2) ->
      li_id l = None \/ li_name l = None ->
      get_all_tasks_from_source api_token folder_id "folder" w
      = (Raise KeyError, w2)).
Proof.
  unfold get_all_tasks_from_source.
  change (String.eqb "folder" "folder") with true. cbv iota.
  unfold bind. split; [|split].
  - intros w1 lists -> H. now rewrite H.
  - intros lists w1 fetched w2 -> Hne Hf.
    destruct lists as [|l lists]; [contradiction|].
    cbn [truthy_list negb list_of]. rewrite extend_from_lists_run, Hf.
    cbn [app]. unfold return_all_tasks.
    destruct (List.concat (map list_of fetched)); reflexivity.
  - intros before l rest w1 fetched w2 -> Hf Hl.
    assert (Ht : truthy_list (Some (before ++ l :: rest)) = true)
      by now destruct before.
    rewrite Ht. cbn [negb list_of].
    rewrite extend_from_lists_run, fetch_each_app, Hf.
    now rewrite (fetch_each_unnamed _ _ _ _ Hl).
Qed.

Lemma folder_fetch_witness :
  fst (get_all_tasks_from_source "tok" "F" "folder" (world_of net_two_lists))
  = Ok (Some [task_A; task_B; task_C])
  /\ fst (get_all_tasks_from_source "tok" "F" "folder"
            (world_of (fun _ _ => inr Unreachable)))
     = Ok None
  /\ fst (get_all_tasks_from_source "tok" "F" "folder"
            (world_of net_nameless_list))
     = Raise KeyError.
Proof.
  split; [|split].
  - rewrite (proj1 (proj2 (folder_fetch "tok" "F" (world_of net_two_lists)))
               [list_1; list_2]
               (after (world_of net_two_lists) [folder_request "tok" "F" 15])
               [Some [task_A]; Some [task_B; task_C]]
               (after (world_of net_two_lists)
                  [folder_request "tok" "F" 15; tasks_request "tok" "L1" 15;
                   tasks_request "tok" "L2" 15]));
      [reflexivity | reflexivity | discriminate | reflexivity].
  - rewrite (proj1 (folder_fetch "tok" "F"
                      (world_of (fun _ _ => inr Unreachable)))
               (after (world_of (fun _ _ => inr Unreachable))
                  [folder_request "tok" "F" 15; folder_request "tok" "F" 20;
                   folder_request "tok" "F" 25])
               None);
      reflexivity.
  - rewrite (proj2 (proj2 (folder_fetch "tok" "F"
                             (world_of net_nameless_list)))
               [list_1] {| li_id := Some "L2"%string; li_name := None |} []
               (after (world_of net_nameless_list)
                  [folder_request "tok" "F" 15])
               [Some [task_A]]
               (after (world_of net_nameless_list)
                  [folder_request "tok" "F" 15; tasks_request "tok" "L1" 15]));
      [reflexivity | reflexivity | reflexivity | right; reflexivity].
Defined.

(** * The document update *)

Lemma raise_for_status_run r w :
  raise_for_status r w
  = (if (400 <=? status_code r) && (status_code r <? 600) then Raise HTTPError else Ok tt, w).
Proof. unfold raise_for_status. destruct (_ && _); reflexivity. Qed.

Lemma status_ok_test r :
  status_ok r -> (400 <=? status_code r) && (status_code r <? 600) = false.
Proof.
  unfold status_ok. intros H.
  destruct (Z.leb_spec 400 (status_code r)), (Z.ltb_spec (status_code r) 600); simpl; try reflexivity. lia.
Qed.

Lemma status_error_test r :
  400 <= status_code r < 600 -> (400 <=? status_code r) && (status_code r <? 600) = true.
Proof.
  intros H.
  destruct (Z.leb_spec 400 (status_code r)), (Z.ltb_spec (status_code r) 600); simpl; try reflexivity; lia.
Qed.


Lemma update_run (cc : confluence_config) (page_id : option string)
  (attachment_id filename project_name : string) (w : world) :
  let get := page_get_request cc page_id in
  update_confluence_with_image cc page_id attachment_id filename project_name w
  = match answer w 0 get with
    | Raise _ => (Ok false, after w [get])
    | Ok r =>
        if (400 <=? status_code r) && (status_code r <? 600)
        then (Ok false, after w [get])
        else
          match json_body r with
          | None => (Ok false, after w [get])
          | Some info =>
              match j_version info, j_title info, j_type info with
              | Some v, Some title, Some type_ =>
                  let put :=
                    page_put_request cc page_id
                      {| p_version_number := number v + 1;
                         p_title := title;
                         p_type := type_;
                         p_body_value :=
                           page_content project_name
                             (clock w (List.length (sent w) + 1)
                                "%Y-%m-%d %H:%M:%S")
                             filename |} in
                  (match answer w 1 put with
                   | Ok r' =>
                       if (400 <=? status_code r') && (status_code r' <? 600)
                       then Ok false else Ok true
                   | Raise e =>
                       if is_RequestException e then Ok false else Raise e
                   end, after w [get; put])
              | _, _, _ => (Raise KeyError, after w [get])
              end
          end
    end.
Proof.
  intros get.
  unfold update_confluence_with_image, try_except_M, bind.
  change (send _ w) with (send get w).
  rewrite send_run.
  destruct (answer w 0 get) as [r|e]; [|reflexivity].
  rewrite raise_for_status_run.
  destruct ((400 <=? status_code r) && (status_code r <? 600)); [reflexivity|].
  unfold response_json.
  destruct (json_body r) as [info|]; [|reflexivity].
  unfold ret at 1 2. unfold subscript.
  destruct (j_version info) as [v|]; [|reflexivity].
  destruct (j_title info) as [title|];
    [|destruct (j_type info); reflexivity].
  destruct (j_type info) as [type_|]; [|reflexivity].
  unfold ret at 1 2 3. unfold now_strftime.
  match goal with
  | |- context [send ?rq (after w [get])] =>
      change rq with
        (page_put_request cc page_id
           {| p_version_number := number v + 1;
              p_title := title;
              p_type := type_;
              p_body_value :=
                page_content project_name
                  (clock (after w [get]) (List.length (sent (after w [get])))
                     "%Y-%m-%d %H:%M:%S")
                  filename |})
  end.
  rewrite send_run, after_after, answer_after.
  cbn [app List.length Nat.add].
  replace (List.length (sent (after w [get])))
    with (List.length (sent w) + 1)%nat
    by (unfold after; cbn [sent]; now rewrite length_app).
  change (clock (after w [get])) with (clock w).
  destruct (answer w 1 _) as [r'|e].
  - rewrite raise_for_status_run. destruct (_ && _); reflexivity.
  - destruct (is_RequestException e); reflexivity.
Qed.



(** * The search of the environment ends *)

Lemma drop_prefix_app (p s : string) : drop_prefix p (p ++ s) = Some s.
Proof.
  induction p as [|a p IH]; simpl; [now destruct s|].
  now rewrite Ascii.eqb_refl.
Qed.

Lemma number_of_str_nat (n : nat) : number_of (str_nat n) = n.
Proof.
  unfold number_of, str_nat. rewrite NilEmpty.usu. apply Unsigned.of_to.
Qed.

Lemma project_number_list (n : nat) :
  project_number ("CLICKUP_LIST_ID_" ++ str_nat n) = n.
Proof.
  unfold project_number. rewrite drop_prefix_app. apply number_of_str_nat.
Qed.

Lemma project_number_folder (n : nat) :
  project_number ("CLICKUP_FOLDER_ID_" ++ str_nat n) = n.
Proof.
  unfold project_number.
  change (drop_prefix "CLICKUP_LIST_ID_" ("CLICKUP_FOLDER_ID_" ++ str_nat n))
    with (@None string).
  rewrite drop_prefix_app. apply number_of_str_nat.
Qed.

Lemma getenv_in (env : list (string * string)) (key : string) :
  truthy_opt_str (getenv env key) = true -> In key (map fst env).
Proof.
  induction env as [|[k v] env IH]; simpl; [discriminate|].
  destruct (String.eqb_spec k key) as [->|_]; [now left|].
  intros H. right. now apply IH.
Qed.

Lemma py_or_truthy a b :
  truthy_opt_str (py_or a b) = true ->
  truthy_opt_str a = true \/ truthy_opt_str b = true.
Proof.
  unfold py_or. destruct (truthy_opt_str a) eqn:E; [now left | now right].
Qed.

(** A turn that does not end the search has its number among those of
    the variables of the environment. *)
Lemma continues_in (env : list (string * string)) (index : nat) :
  (1 <= index)%nat ->
  negb (truthy_opt_str (list_id_at env index))
  && negb (truthy_opt_str (folder_id_at env index)) = false ->
  In index (map project_number (map fst env)).
Proof.
  intros Hi H. apply andb_false_iff in H.
  unfold list_id_at, folder_id_at in H.
  destruct (Nat.ltb_spec 1 index) as [Hlt|Hle].
  - destruct H as [H|H]; apply negb_false_iff, getenv_in in H;
      apply (in_map project_number) in H.
    + now rewrite project_number_list in H.
    + now rewrite project_number_folder in H.
  - assert (index = 1)%nat as -> by lia.
    destruct H as [H|H]; apply negb_false_iff, py_or_truthy in H;
      destruct H as [H|H]; apply getenv_in, (in_map project_number) in H;
      exact H.
Qed.

Lemma discover_none (env : list (string * string)) (fuel : nat) :
  forall index found,
    (1 <= index)%nat ->
    discover_mappings fuel env index found = None ->
    incl (seq index fuel) (map project_number (map fst env)).
Proof.
  induction fuel as [|fuel IH]; intros index found Hi; simpl.
  - intros _ x [].
  - destruct (negb _ && negb _) eqn:E; [discriminate|].
    pose proof (continues_in env index Hi E) as Hin.
    intros H x [<-|Hx]; [exact Hin|].
    destruct (negb (truthy_opt_str (page_id_at env index)));
      eapply IH in H; try lia; now apply H.
Qed.

Lemma discover_mappings_ends (env : list (string * string)) :
  exists ms, discover_mappings (S (S (List.length env))) env 1 [] = Some ms.
Proof.
  destruct (discover_mappings _ env 1 []) as [ms|] eqn:E; [now exists ms|].
  apply discover_none in E; [|lia].
  apply NoDup_incl_length in E; [|apply seq_NoDup].
  rewrite length_seq, !length_map in E. lia.
Qed.

(** * The orchestrator *)

(** What escapes *)

Lemma answer_request_exception w k rq e :
  answer w k rq = Raise e -> is_RequestException e = true.
Proof.
  unfold answer, outcome. destruct (net w _ rq) as [r|[]]; [discriminate| | |];
    intros [= <-]; reflexivity.
Qed.

Lemma attempt_result_ok {A} (payload : json_obj -> A) k w n rq :
  exists f, attempt_result payload k (answer w n rq) = Ok f.
Proof.
  destruct (answer w n rq) as [r|e] eqn:E; simpl.
  - destruct (_ && _); [eauto|]. destruct (json_body r); eauto.
  - apply answer_request_exception in E.
    destruct e; try discriminate E; simpl; eauto.
Qed.

Lemma call_no_raise {A} (body : Z -> M (flow (option A))) rq payload :
  (forall k w,
      body k w = (attempt_result payload k (answer w 0 (rq (15 + k * 5))),
                  after w [rq (15 + k * 5)])) ->
  forall w, exists o, fst (for_range (py_range max_retries) body (ret None) w) = Ok o.
Proof.
  intros Hb w. rewrite (call_run body rq payload Hb).
  destruct (attempt_result_ok payload 0 w 0 (rq 15)) as [[x|] Hx]; rewrite Hx;
    cbv beta iota; [eexists; reflexivity|].
  destruct (attempt_result_ok payload 1 w 1 (rq 20)) as [[y|] Hy]; rewrite Hy;
    cbv beta iota; [eexists; reflexivity|].
  destruct (attempt_result_ok payload 2 w 2 (rq 25)) as [[z|] Hz]; rewrite Hz;
    cbv beta iota; eexists; reflexivity.
Qed.

Lemma get_lists_no_raise tok id w :
  exists o, fst (get_lists_from_folder tok id w) = Ok o.
Proof. apply (call_no_raise _ _ _ (get_lists_attempt_run tok id)). Qed.

Lemma get_tasks_no_raise tok id w :
  exists o, fst (get_clickup_tasks tok id w) = Ok o.
Proof. apply (call_no_raise _ _ _ (get_tasks_attempt_run tok id)). Qed.

Lemma extend_raise tok lists : forall acc w e,
  fst (extend_from_lists tok lists acc w) = Raise e -> e = KeyError.
Proof.
  induction lists as [|l lists IH]; intros acc w e; cbn [extend_from_lists].
  - discriminate.
  - rewrite bind_subscript.
    destruct (li_id l) as [id|]; [|now intros [= <-]].
    rewrite bind_subscript.
    destruct (li_name l) as [nm|]; [|now intros [= <-]].
    unfold bind. destruct (get_tasks_no_raise tok id w) as [o Ho].
    destruct (get_clickup_tasks tok id w) as [r w1]. cbn [fst] in Ho. subst r.
    apply IH.
Qed.

Lemma fetch_raise tok id ty w e :
  fst (get_all_tasks_from_source tok id ty w) = Raise e -> e = KeyError.
Proof.
  unfold get_all_tasks_from_source, bind, return_all_tasks.
  destruct (String.eqb ty "folder").
  - destruct (get_lists_no_raise tok id w) as [o Ho].
    destruct (get_lists_from_folder tok id w) as [r w1]. cbn [fst] in Ho. subst r.
    destruct (negb (truthy_list o)); [discriminate|].
    pose proof (extend_raise tok (list_of o) [] w1) as He.
    destruct (extend_from_lists tok (list_of o) [] w1) as [[l|e'] w2].
    + destruct (negb _); discriminate.
    + intros [= <-]. now apply He.
  - destruct (get_tasks_no_raise tok id w) as [o Ho].
    destruct (get_clickup_tasks tok id w) as [r w1]. cbn [fst] in Ho. subst r.
    destruct (negb _); discriminate.
Qed.

Lemma try_pass (body : M unit) (w : world) :
  try_except_M body (fun _ => ret tt) w = (Ok tt, snd (body w)).
Proof.
  unfold try_except_M. destruct (body w) as [[[]|e] w']; reflexivity.
Qed.

Lemma upload_raise cc page_id img filename w e w' :
  upload_attachment_to_confluence cc page_id img filename w = (Raise e, w') ->
  lookup_error e.
Proof.
  unfold upload_attachment_to_confluence, bind at 1.
  rewrite try_pass. set (w1 := snd _). clearbody w1.
  unfold try_except_M, bind. rewrite send_run.
  destruct (answer w1 0 _) as [r|e0] eqn:E.
  - rewrite raise_for_status_run. destruct (_ && _); [discriminate|].
    unfold response_json. destruct (json_body r) as [j|]; [|discriminate].
    unfold ret at 1. destruct (j_results j) as [[|a l]|]; try discriminate.
    + intros [= <- _]. now right.
    + intros [= <- _]. now left.
  - apply answer_request_exception in E. rewrite E. discriminate.
Qed.

Lemma update_raise cc page_id att filename pn w e w' :
  update_confluence_with_image cc page_id att filename pn w = (Raise e, w') ->
  lookup_error e.
Proof.
  rewrite update_run.
  destruct (answer w 0 _) as [r|e0]; [|discriminate].
  destruct (_ && _); [discriminate|].
  destruct (json_body r) as [j|]; [|discriminate].
  destruct (j_version j); [|intros [= <- _]; now left].
  destruct (j_title j); [|intros [= <- _]; now left].
  destruct (j_type j); [|intros [= <- _]; now left].
  cbv zeta.
  match goal with
  | |- context [answer w 1 ?rq] => destruct (answer w 1 rq) as [r'|e1] eqn:E
  end.
  - destruct (_ && _); discriminate.
  - apply answer_request_exception in E. rewrite E. discriminate.
Qed.

Section OrchestratorFacts.

Variable fromtimestamp : Z -> result datetime.
Local Abbreviation pm := (process_mapping fromtimestamp).
Local Abbreviation pall := (process_all fromtimestamp).
Local Abbreviation run := (runs fromtimestamp).
Local Abbreviation render := (generate_gantt_image fromtimestamp).

(** The steps of one mapping. *)
Lemma process_mapping_run (cfg : config) (m : mapping) (w : world) :
  pm cfg m w =
  match mapping_source m with
  | None => (Ok false, w)
  | Some (source_id, source_type) =>
      match get_all_tasks_from_source (cu_api_token (clickup cfg))
              source_id source_type w with
      | (Raise e, w1) => (Raise e, w1)
      | (Ok tasks, w1) =>
          if negb (truthy_list tasks) then (Ok false, w1)
          else
            match render (list_of tasks) (project_name_of m) with
            | Raise e => (Raise e, w1)
            | Ok None => (Ok false, w1)
            | Ok (Some image) =>
                let filename :=
                  gantt_filename (project_name_of m)
                    (clock w1 (List.length (sent w1)) "%Y%m%d") in
                match upload_attachment_to_confluence (confluence cfg)
                        (m_confluence_page_id m) image filename w1 with
                | (Raise e, w2) => (Raise e, w2)
                | (Ok attachment_id, w2) =>
                    if negb (truthy_opt_str attachment_id) then (Ok false, w2)
                    else
                      match update_confluence_with_image (confluence cfg)
                              (m_confluence_page_id m)
                              (str_opt attachment_id) filename
                              (project_name_of m) w2 with
                      | (Raise e, w3) => (Raise e, w3)
                      | (Ok success, w3) => (Ok success, w3)
                      end
                end
            end
      end
  end.
Proof.
  unfold process_mapping.
  destruct (mapping_source m) as [[source_id source_type]|]; [|reflexivity].
  unfold bind at 1.
  destruct (get_all_tasks_from_source _ _ _ w) as [[tasks|e] w1];
    [|reflexivity].
  destruct (negb (truthy_list tasks)); [reflexivity|].
  unfold bind at 1, lift.
  destruct (render _ _) as [[image|]|e]; try reflexivity.
  unfold bind at 1, now_strftime. cbv zeta.
  unfold bind at 1.
  destruct (upload_attachment_to_confluence _ _ _ _ w1) as [[att|e] w2];
    [|reflexivity].
  destruct (negb (truthy_opt_str att)); [reflexivity|].
  unfold bind.
  destruct (update_confluence_with_image _ _ _ _ _ w2) as [[[]|e] w3];
    reflexivity.
Qed.

Lemma process_mapping_raise (cfg : config) (m : mapping) (w w' : world)
  (e : exn) :
  pm cfg m w = (Raise e, w') -> escaping e.
Proof.
  rewrite process_mapping_run.
  destruct (mapping_source m) as [[source_id source_type]|]; [|discriminate].
  pose proof (fetch_raise (cu_api_token (clickup cfg)) source_id source_type w)
    as Ht.
  destruct (get_all_tasks_from_source _ _ _ w) as [[tasks|e0] w1];
    [|intros [= <- _]; left; left; now apply Ht].
  destruct (negb (truthy_list tasks)); [discriminate|].
  destruct (render (list_of tasks) (project_name_of m)) as [[image|]|e0] eqn:R;
    [|discriminate|intros [= <- _]; right;
                   exact (proj1 (render_raise fromtimestamp _ _ _ R))].
  cbv zeta.
  destruct (upload_attachment_to_confluence _ _ _ _ w1) as [[att|e1] w2] eqn:Hu.
  - destruct (negb (truthy_opt_str att)); [discriminate|].
    destruct (update_confluence_with_image _ _ _ _ _ w2) as [[b|e2] w3] eqn:Hp;
      [discriminate|].
    intros [= <- _]. left. eapply update_raise, Hp.
  - intros [= <- _]. left. eapply upload_raise, Hu.
Qed.

Lemma process_all_raise (cfg : config) (ms : list mapping) :
  forall results w e w',
    pall cfg ms results w = (Raise e, w') -> escaping e.
Proof.
  induction ms as [|m ms IH]; intros results w e w'; simpl.
  - discriminate.
  - unfold bind. destruct (pm cfg m w) as [[b|e1] w1] eqn:Hm.
    + apply IH.
    + intros [= <- _]. eapply process_mapping_raise, Hm.
Qed.
Lemma runs_process_all (cfg : config) (ms : list mapping) (w w' : world)
  (bs : list bool) :
  run cfg ms w bs w' ->
  forall results,
    pall cfg ms results w
    = (Ok (results ++ combine (map result_name_of ms) bs), w').
Proof.
  induction 1 as [w|m ms w w1 w2 b bs Hm Hr IH]; intros results; simpl.
  - unfold ret. now rewrite app_nil_r.
  - unfold bind. rewrite Hm, IH, <- app_assoc. reflexivity.
Qed.

Lemma process_all_runs (cfg : config) (ms : list mapping) :
  forall results w rs w',
    pall cfg ms results w = (Ok rs, w') ->
    exists bs,
      run cfg ms w bs w' /\ List.length bs = List.length ms
      /\ rs = results ++ combine (map result_name_of ms) bs.
Proof.
  induction ms as [|m ms IH]; intros results w rs w'; simpl.
  - unfold ret. intros [= <- <-]. exists []. split; [constructor|].
    split; [reflexivity|]. now rewrite app_nil_r.
  - unfold bind. destruct (pm cfg m w) as [[b|e] w1] eqn:Hm; [|discriminate].
    intros H. destruct (IH _ _ _ _ H) as (bs & Hr & Hl & ->).
    exists (b :: bs). split; [econstructor; eassumption|].
    split; [simpl; congruence|]. now rewrite <- app_assoc.
Qed.

Lemma runs_length cfg ms w bs w' : run cfg ms w bs w' -> List.length bs = List.length ms.
Proof. induction 1; simpl; congruence. Qed.

Lemma successful_all (names : list string) : forall bs,
  List.length bs = List.length names ->
  ((List.length (combine names bs) - successful (combine names bs) =? 0)%nat
   = true
   <-> Forall (fun b => b = true) bs).
Proof.
  unfold successful.
  induction names as [|n names IH]; intros [|b bs] Hl; try discriminate Hl.
  - split; [constructor | reflexivity].
  - injection Hl as Hl. specialize (IH bs Hl).
    pose proof (filter_length_le snd (combine names bs)) as Hle.
    cbn [combine filter snd List.length].
    destruct b; cbn [List.length].
    + rewrite Nat.sub_succ, IH. split; [now constructor | now inversion 1].
    + split.
      * intros H. apply Nat.eqb_eq in H. lia.
      * inversion 1. discriminate.
Qed.

Lemma load_config_raise (w w' : world) (e : exn) :
  load_config w = (Raise e, w') -> e = SystemExit 1 /\ w' = w.
Proof.
  unfold load_config, sys_exit, raise, ret.
  destruct (config_file w); try (now intros [= <- <-]); try discriminate.
  destruct (discover_mappings_ends (environ w)) as [ms ->].
  destruct (negb _); [now intros [= <- <-]|].
  destruct (negb _); [now intros [= <- <-]|discriminate].
Qed.

Lemma main_run (w : world) :
  main fromtimestamp w =
  match load_config w with
  | (Raise e, w1) => (Raise e, w1)
  | (Ok cfg, w1) =>
      if negb (truthy_list (mappings cfg)) then (Raise (SystemExit 1), w1)
      else
        match pall cfg (list_of (mappings cfg)) [] w1 with
        | (Raise e, w2) => (Raise e, w2)
        | (Ok rs, w2) =>
            (Raise (SystemExit
                      (if (List.length rs - successful rs =? 0)%nat
                       then 0 else 1)), w2)
        end
  end.
Proof.
  unfold main, bind. destruct (load_config w) as [[cfg|e] w1]; [|reflexivity].
  destruct (negb _); [reflexivity|].
  destruct (pall cfg _ [] w1) as [[rs|e] w2]; reflexivity.
Qed.


Lemma exit_code_zero (w : world) :
  exit_code (fst (main fromtimestamp w)) = 0
  <-> exists cfg w1 ms bs w2,
      load_config w = (Ok cfg, w1) /\ mappings cfg = Some ms /\ ms <> []
      /\ run cfg ms w1 bs w2 /\ Forall (fun b => b = true) bs.
Proof.
  rewrite main_run. split.
  - destruct (load_config w) as [[cfg|e] w1] eqn:Hl.
    + destruct (mappings cfg) as [[|m ms]|] eqn:Hm;
        cbn [negb truthy_list list_of fst exit_code]; try discriminate.
      destruct (pall cfg (m :: ms) [] w1) as [[rs|e] w2] eqn:Hp.
      * destruct (process_all_runs _ _ _ _ _ _ Hp) as (bs & Hr & Hlen & ->).
        simpl app. cbn [fst exit_code].
        match goal with
        | |- context [if ?c then _ else _] => destruct c eqn:E
        end; [|discriminate]. intros _.
        exists cfg, w1, (m :: ms), bs, w2.
        split; [reflexivity|]. split; [assumption|]. split; [discriminate|].
        split; [assumption|].
        apply (successful_all (map result_name_of (m :: ms))); [|exact E].
        now rewrite length_map.
      * apply process_all_raise in Hp.
        destruct Hp as [[-> | ->] | ->]; discriminate.
    + apply load_config_raise in Hl. destruct Hl as [-> ->]. discriminate.
  - intros (cfg & w1 & ms & bs & w2 & Hl & Hm & Hne & Hr & Hall).
    rewrite Hl, Hm. destruct ms as [|m ms]; [contradiction|]. simpl negb. cbv iota.
    cbn [list_of]. rewrite (runs_process_all _ _ _ _ _ Hr). cbn [app fst exit_code].
    match goal with
    | |- context [if ?c then _ else _] => replace c with true
    end; [reflexivity|].
    symmetry. apply (successful_all (map result_name_of (m :: ms))); [|exact Hall].
    rewrite length_map. now apply runs_length in Hr.
Qed.

Lemma exit_code_one (w : world) :
  exit_code (fst (main fromtimestamp w)) <> 0 ->
  exit_code (fst (main fromtimestamp w)) = 1.
Proof.
  rewrite main_run.
  destruct (load_config w) as [[cfg|e] w1] eqn:Hl.
  - destruct (negb _); [reflexivity|].
    destruct (pall cfg _ [] w1) as [[rs|e] w2] eqn:Hp.
    + cbn [fst exit_code].
      match goal with
      | |- context [if ?c then _ else _] => destruct c
      end; [contradiction|reflexivity].
    + apply process_all_raise in Hp.
      destruct Hp as [[-> | ->] | ->]; reflexivity.
  - apply load_config_raise in Hl. destruct Hl as [-> ->]. reflexivity.
Qed.

Lemma runs_then (cfg : config) (done : list mapping) (w w0 : world)
  (bs : list bool) :
  run cfg done w bs w0 ->
  forall rest results,
    pall cfg (done ++ rest) results w
    = pall cfg rest (results ++ combine (map result_name_of done) bs) w0.
Proof.
  induction 1 as [w|m ms w w1 w2 b bs Hm Hr IH]; intros rest results.
  - cbn [app map combine]. now rewrite app_nil_r.
  - cbn [app process_all]. unfold bind at 1. rewrite Hm, IH.
    cbn [map combine]. now rewrite <- app_assoc.
Qed.

Lemma process_all_stops (cfg : config) (ms : list mapping) :
  forall results w e w',
    pall cfg ms results w = (Raise e, w') ->
    exists done m rest bs w0,
      ms = done ++ m :: rest /\ run cfg done w bs w0
      /\ pm cfg m w0 = (Raise e, w').
Proof.
  induction ms as [|m ms IH]; intros results w e w'; cbn [process_all].
  - discriminate.
  - unfold bind at 1. destruct (pm cfg m w) as [[b|e1] w1] eqn:Hm.
    + intros H. destruct (IH _ _ _ _ H) as (done & m' & rest & bs & w0
                                            & -> & Hr & Hp).
      exists (m :: done), m', rest, (b :: bs), w0.
      split; [reflexivity|]. split; [econstructor; eassumption | exact Hp].
    + intros [= <- <-]. exists [], m, ms, [], w.
      split; [reflexivity|]. split; [constructor | exact Hm].
Qed.

(** C4.  The mappings are processed one after the other, in their order.
    A mapping whose fetch, rendering, upload or page update reports a
    failure ends there with the outcome false, none of its later steps
    being run, and the mappings after it are still processed.  A step
    that raises, which only a [KeyError], an [IndexError] or an
    [OverflowError] does, ends the whole run there: the mappings after it
    are not attempted.  The exit code is 0 exactly when the configuration
    was loaded with at least one mapping and every mapping succeeded; it
    is 1 otherwise, in particular when the configuration could not be
    loaded and when a step raised. *)
Theorem orchestration :
  (forall cfg m ms results w b w1,
      pm cfg m w = (Ok b, w1) ->
      pall cfg (m :: ms) results w
      = pall cfg ms (results ++ [(result_name_of m, b)]) w1)
  /\ (forall cfg ms w rs w',
      pall cfg ms [] w = (Ok rs, w')
      <-> exists bs,
          run cfg ms w bs w' /\ rs = combine (map result_name_of ms) bs)
  /\ (forall cfg ms results w e w',
      pall cfg ms results w = (Raise e, w')
      <-> exists done m rest bs w0,
          ms = done ++ m :: rest /\ run cfg done w bs w0
          /\ pm cfg m w0 = (Raise e, w'))
  /\ (forall cfg m w, mapping_source m = None -> pm cfg m w = (Ok false, w))
  /\ (forall cfg m source_id source_type w tasks w1,
      mapping_source m = Some (source_id, source_type) ->
      get_all_tasks_from_source (cu_api_token (clickup cfg)) source_id
        source_type w = (Ok tasks, w1) ->
      (truthy_list tasks = false -> pm cfg m w = (Ok false, w1))
      /\ (truthy_list tasks = true ->
          render (list_of tasks) (project_name_of m) = Ok None ->
          pm cfg m w = (Ok false, w1))
      /\ (forall image attachment_id w2,
             truthy_list tasks = true ->
             render (list_of tasks) (project_name_of m) = Ok (Some image) ->
             let filename :=
               gantt_filename (project_name_of m)
                 (clock w1 (List.length (sent w1)) "%Y%m%d") in
             upload_attachment_to_confluence (confluence cfg)
               (m_confluence_page_id m) image filename w1
             = (Ok attachment_id, w2) ->
             (truthy_opt_str attachment_id = false ->
              pm cfg m w = (Ok false, w2))
             /\ (forall success w3,
                    truthy_opt_str attachment_id = true ->
                    update_confluence_with_image (confluence cfg)
                      (m_confluence_page_id m) (str_opt attachment_id)
                      filename (project_name_of m) w2
                    = (Ok success, w3) ->
                    pm cfg m w = (Ok success, w3))))
  /\ (forall cfg m source_id source_type w e w',
      mapping_source m = Some (source_id, source_type) ->
      let fetch :=
        get_all_tasks_from_source (cu_api_token (clickup cfg)) source_id
          source_type w in
      pm cfg m w = (Raise e, w')
      <-> fetch = (Raise e, w')
          \/ (exists tasks,
                 fetch = (Ok tasks, w') /\ truthy_list tasks = true
                 /\ render (list_of tasks) (project_name_of m) = Raise e)
          \/ (exists tasks w1 image,
                 fetch = (Ok tasks, w1) /\ truthy_list tasks = true
                 /\ render (list_of tasks) (project_name_of m)
                    = Ok (Some image)
                 /\ let filename :=
                      gantt_filename (project_name_of m)
                        (clock w1 (List.length (sent w1)) "%Y%m%d") in
                    upload_attachment_to_confluence (confluence cfg)
                      (m_confluence_page_id m) image filename w1
                    = (Raise e, w')
                    \/ exists attachment_id w2,
                        upload_attachment_to_confluence (confluence cfg)
                          (m_confluence_page_id m) image filename w1
                        = (Ok attachment_id, w2)
                        /\ truthy_opt_str attachment_id = true
                        /\ update_confluence_with_image (confluence cfg)
                             (m_confluence_page_id m) (str_opt attachment_id)
                             filename (project_name_of m) w2
                           = (Raise e, w')))
  /\ (forall cfg m w e w', pm cfg m w = (Raise e, w') -> escaping e)
  /\ (forall w,
      exit_code (fst (main fromtimestamp w)) = 0
      <-> exists cfg w1 ms bs w2,
          load_config w = (Ok cfg, w1) /\ mappings cfg = Some ms /\ ms <> []
          /\ run cfg ms w1 bs w2 /\ Forall (fun b => b = true) bs)
  /\ (forall w,
      exit_code (fst (main fromtimestamp w)) <> 0 ->
      exit_code (fst (main fromtimestamp w)) = 1)
  /\ (forall w e w1,
      load_config w = (Raise e, w1) ->
      main fromtimestamp w = (Raise (SystemExit 1), w1))
  /\ (forall w cfg w1 ms e w2,
      load_config w = (Ok cfg, w1) -> mappings cfg = Some ms ->
      pall cfg ms [] w1 = (Raise e, w2) ->
      main fromtimestamp w = (Raise e, w2)).
Proof.
  split; [|split; [|split; [|split; [|split; [|split; [|split;
    [|split; [|split; [|split]]]]]]]]].
  - intros cfg m ms results w b w1 H. simpl. unfold bind. now rewrite H.
  - intros cfg ms w rs w'. split.
    + intros H. destruct (process_all_runs _ _ _ _ _ _ H) as (bs & Hr & _ & ->).
      now exists bs.
    + intros (bs & Hr & ->). now rewrite (runs_process_all _ _ _ _ _ Hr).
  - intros cfg ms results w e w'. split; [apply process_all_stops|].
    intros (done & m & rest & bs & w0 & -> & Hr & Hp).
    rewrite (runs_then _ _ _ _ _ Hr). cbn [process_all]. unfold bind.
    now rewrite Hp.
  - intros cfg m w H. now rewrite process_mapping_run, H.
  - intros cfg m source_id source_type w tasks w1 Hs Hf.
    rewrite process_mapping_run, Hs, Hf.
    split; [|split].
    + now intros ->.
    + now intros -> ->.
    + intros image att w2 -> -> filename Hu. cbn [negb]. cbv zeta.
      fold filename. rewrite Hu. split.
      * now intros ->.
      * intros success w3 -> Hp. cbn [negb]. now rewrite Hp.
  - intros cfg m source_id source_type w e w' Hs fetch.
    rewrite process_mapping_run, Hs. fold fetch.
    destruct fetch as [[tasks|e0] w1].
    2:{ split; [intros [= <- <-]; left; reflexivity|].
        intros [H|[(t & H & _)|(t & w2 & i & H & _)]];
          [now injection H as <- <- | discriminate H | discriminate H]. }
    destruct (truthy_list tasks) eqn:Ht; cbn [negb].
    2:{ split; [discriminate|].
        intros [H|[(t & H & Ht' & _)|(t & w2 & i & H & Ht' & _)]];
          [discriminate H | |]; injection H as <- <-; congruence. }
    destruct (render (list_of tasks) (project_name_of m))
      as [[image|]|e0] eqn:R.
    + cbv zeta.
      destruct (upload_attachment_to_confluence _ _ _ _ w1)
        as [[att|e1] w2] eqn:Hu.
      * destruct (truthy_opt_str att) eqn:Ha; cbn [negb].
        -- destruct (update_confluence_with_image _ _ _ _ _ w2)
             as [[b|e2] w3] eqn:Hp.
           ++ split; [discriminate|].
              intros [H|[(t & H & _ & R')|(t & w4 & i & H & _ & R' & H')]];
                [discriminate H | injection H as <- <-; congruence |].
              injection H as <- <-. rewrite R in R'. injection R' as <-.
              cbv zeta in H'. rewrite Hu in H'.
              destruct H' as [H'|(a & w5 & H' & _ & Hp')]; [discriminate H'|].
              injection H' as <- <-. rewrite Hp in Hp'. discriminate Hp'.
           ++ split.
              ** intros H. right. right. exists tasks, w1, image.
                 split; [reflexivity|]. split; [exact Ht|].
                 split; [exact R|]. cbv zeta. right. exists att, w2.
                 split; [exact Hu|]. split; [exact Ha|]. now rewrite Hp.
              ** intros [H|[(t & H & _ & R')|(t & w4 & i & H & _ & R' & H')]];
                   [discriminate H | injection H as <- <-; congruence |].
                 injection H as <- <-. rewrite R in R'. injection R' as <-.
                 cbv zeta in H'. rewrite Hu in H'.
                 destruct H' as [H'|(a & w5 & H' & _ & Hp')];
                   [discriminate H'|].
                 injection H' as <- <-. now rewrite Hp in Hp'.
        -- split; [discriminate|].
           intros [H|[(t & H & _ & R')|(t & w4 & i & H & _ & R' & H')]];
             [discriminate H | injection H as <- <-; congruence |].
           injection H as <- <-. rewrite R in R'. injection R' as <-.
           cbv zeta in H'. rewrite Hu in H'.
           destruct H' as [H'|(a & w5 & H' & Ha' & _)]; [discriminate H'|].
           injection H' as <- <-. congruence.
      * split.
        -- intros [= <- <-]. right. right. exists tasks, w1, image.
           split; [reflexivity|]. split; [exact Ht|].
           split; [exact R|]. cbv zeta. left. exact Hu.
        -- intros [H|[(t & H & _ & R')|(t & w4 & i & H & _ & R' & H')]];
             [discriminate H | injection H as <- <-; congruence |].
           injection H as <- <-. rewrite R in R'. injection R' as <-.
           cbv zeta in H'. rewrite Hu in H'.
           destruct H' as [H'|(a & w5 & H' & _)]; [|discriminate H'].
           now injection H' as <- <-.
    + split; [discriminate|].
      intros [H|[(t & H & _ & R')|(t & w4 & i & H & _ & R' & _)]];
        [discriminate H | |]; injection H as <- <-; congruence.
    + split.
      * intros [= <- <-]. right. left. exists tasks.
        split; [reflexivity|]. split; [exact Ht | exact R].
      * intros [H|[(t & H & _ & R')|(t & w4 & i & H & _ & R' & _)]];
          [discriminate H | |]; injection H as <- <-; congruence.
  - intros cfg m w e w'. apply process_mapping_raise.
  - apply exit_code_zero.
  - apply exit_code_one.
  - intros w e w1 H. rewrite main_run, H.
    apply load_config_raise in H. now destruct H as [-> _].
  - intros w cfg w1 ms e w2 Hl Hm Hp. rewrite main_run, Hl, Hm.
    destruct ms as [|m ms]; [discriminate Hp|].
    cbn [truthy_list negb list_of]. now rewrite Hp.
Qed.

End OrchestratorFacts.

(** C4, as stated, fails: of two mappings, the upload of the first is
    answered 200 with a JSON object without [results]; the lookup raises
    [KeyError], which nothing catches, and the second mapping is never
    attempted. *)
Lemma orchestration_aborts :
  ~ every_mapping_attempted fromtimestamp_utc
      (config_example [mapping_1; mapping_2]) [mapping_1; mapping_2]
      world_upload_without_id.
Proof.
  intros (bs & w' & H). inversion H as [|m ms w w1 w2 b bs' Hm Hr]. subst.
  vm_compute in Hm. discriminate Hm.
Qed.

Lemma orchestration_witness :
  exit_code (fst (main fromtimestamp_utc (world_example [mapping_1]))) = 0
  /\ exit_code
       (fst (main fromtimestamp_utc (world_example [mapping_1; mapping_2])))
     = 1
  /\ main fromtimestamp_utc world_upload_without_id
     = (Raise KeyError,
        snd (process_mapping fromtimestamp_utc
               (config_example [mapping_1; mapping_2]) mapping_1
               world_upload_without_id)).
Proof.
  destruct (orchestration fromtimestamp_utc)
    as (_ & _ & Hstop & _ & _ & _ & _ & Hzero & Hone & _ & Hraise).
  split; [|split].
  - apply Hzero.
    exists (config_example [mapping_1]), (world_example [mapping_1]),
      [mapping_1], [true].
    eexists. split; [reflexivity|]. split; [reflexivity|].
    split; [discriminate|]. split.
    + econstructor; [vm_compute; reflexivity | constructor].
    + repeat constructor.
  - apply Hone. vm_compute. discriminate.
  - apply (Hraise world_upload_without_id
             (config_example [mapping_1; mapping_2]) world_upload_without_id
             [mapping_1; mapping_2]); [reflexivity | reflexivity |].
    apply Hstop. exists [], mapping_1, [mapping_2], [], world_upload_without_id.
    split; [reflexivity|]. split; [constructor|].
    rewrite (surjective_pairing (process_mapping _ _ _ _)). f_equal;
      vm_compute; reflexivity.
Defined.

(** * Further properties of the code *)

(** * The decoder on decimal texts *)

Lemma nzhead_no_zero (d d' : Decimal.uint) : Decimal.nzhead d <> Decimal.D0 d'.
Proof. induction d; cbn [Decimal.nzhead]; try discriminate. exact IHd. Qed.

Lemma to_uint_head (p : positive) :
  match Pos.to_uint p with
  | Decimal.Nil | Decimal.D0 _ => False
  | _ => True
  end.
Proof.
  pose proof (DecimalPos.Unsigned.to_of (Pos.to_uint p)) as H.
  rewrite DecimalPos.Unsigned.of_to in H. cbn [N.to_uint] in H.
  pose proof (DecimalPos.Unsigned.to_uint_nonzero p) as Hz.
  destruct (Pos.to_uint p) as [|d| | | | | | | | |]; try exact I.
  - discriminate H.
  - unfold Decimal.unorm in H. cbn [Decimal.nzhead] in H.
    destruct (Decimal.nzhead d) eqn:E; try discriminate H.
    + injection H as H. subst d. now apply Hz.
    + exact (nzhead_no_zero d _ E).
Qed.

Lemma of_uint_acc_bounds (l : Decimal.uint) :
  forall acc,
    Z.pos acc * 10 ^ Z.of_nat (Decimal.nb_digits l)
    <= Z.pos (Pos.of_uint_acc l acc)
    < (Z.pos acc + 1) * 10 ^ Z.of_nat (Decimal.nb_digits l).
Proof.
  induction l; intros acc; cbn [Pos.of_uint_acc Decimal.nb_digits];
    [rewrite Z.pow_0_r; lia | ..];
    rewrite Nat2Z.inj_succ, Z.pow_succ_r by lia;
    match goal with
    | |- context [Pos.of_uint_acc l ?a] => specialize (IHl a)
    end;
    pose proof (Z.pow_pos_nonneg 10 (Z.of_nat (Decimal.nb_digits l))
                  ltac:(lia) ltac:(lia));
    nia.
Qed.

(** A positive number of [k] digits lies between 10^(k-1) and 10^k. *)
Lemma pos_digits (p : positive) :
  10 ^ (Z.of_nat (Decimal.nb_digits (Pos.to_uint p)) - 1) <= Z.pos p
  < 10 ^ Z.of_nat (Decimal.nb_digits (Pos.to_uint p)).
Proof.
  pose proof (to_uint_head p) as Hh.
  pose proof (DecimalPos.Unsigned.of_to p) as Hp.
  destruct (Pos.to_uint p) as [|l|l|l|l|l|l|l|l|l|l]; try contradiction;
    cbn [Pos.of_uint] in Hp; injection Hp as <-;
    cbn [Decimal.nb_digits]; rewrite Nat2Z.inj_succ;
    replace (Z.succ (Z.of_nat (Decimal.nb_digits l)) - 1)
      with (Z.of_nat (Decimal.nb_digits l)) by lia;
    rewrite Z.pow_succ_r by lia;
    match goal with
    | |- context [Pos.of_uint_acc l ?a] =>
        pose proof (of_uint_acc_bounds l a)
    end;
    pose proof (Z.pow_pos_nonneg 10 (Z.of_nat (Decimal.nb_digits l))
                  ltac:(lia) ltac:(lia));
    nia.
Qed.

Lemma too_many_digits (p : positive) :
  (max_str_digits <? Z.of_nat (Decimal.nb_digits (Pos.to_uint p)))
  = (int_text_bound <=? Z.pos p).
Proof.
  pose proof (pos_digits p) as [Hlo Hhi].
  assert (Hm : 0 <= max_str_digits) by discriminate.
  unfold int_text_bound.
  set (k := Z.of_nat (Decimal.nb_digits (Pos.to_uint p))) in *.
  destruct (Z.ltb_spec max_str_digits k) as [Hk|Hk];
    destruct (Z.leb_spec (10 ^ max_str_digits) (Z.pos p)) as [Hp|Hp];
    try reflexivity; exfalso.
  - assert (10 ^ max_str_digits <= 10 ^ (k - 1))
      by (apply Z.pow_le_mono_r; lia).
    lia.
  - assert (10 ^ k <= 10 ^ max_str_digits)
      by (apply Z.pow_le_mono_r; lia).
    lia.
Qed.

Lemma parse_digits_acc (d : Decimal.uint) :
  forall acc,
    parse_digits (Z.pos acc) true (NilEmpty.string_of_uint d)
    = Some (Z.pos (Pos.of_uint_acc d acc)).
Proof.
  induction d; intros acc; cbn [NilEmpty.string_of_uint parse_digits Pos.of_uint_acc];
    try reflexivity;
    match goal with
    | |- context [is_digit ?c] => change (is_digit c) with true
    end; cbv iota;
    match goal with
    | |- parse_digits ?a true _ = Some (Z.pos (Pos.of_uint_acc _ ?b)) =>
        replace a with (Z.pos b)
          by (match goal with
              | |- context [digit_value ?c] =>
                  let v := eval vm_compute in (digit_value c) in
                  change (digit_value c) with v
              end; lia)
    end; apply IHd.
Qed.

Lemma parse_digits_zero (d : Decimal.uint) :
  parse_digits 0 true (NilEmpty.string_of_uint d) = Some (Z.of_uint d).
Proof.
  unfold Z.of_uint.
  induction d; cbn [NilEmpty.string_of_uint parse_digits Pos.of_uint];
    try reflexivity;
    match goal with
    | |- context [is_digit ?c] => change (is_digit c) with true
    end; cbv iota;
    try (match goal with
         | |- parse_digits ?a true _ = Some (Z.of_N (N.pos (Pos.of_uint_acc _ ?b))) =>
             change a with (Z.pos b)
         end; apply parse_digits_acc).
  exact IHd.
Qed.

Lemma parse_digits_start (d : Decimal.uint) :
  d <> Decimal.Nil ->
  parse_digits 0 false (NilEmpty.string_of_uint d) = Some (Z.of_uint d).
Proof.
  intros Hd. rewrite <- parse_digits_zero.
  destruct d; [contradiction| | | | | | | | | |]; reflexivity.
Qed.

Lemma lstrip_id (s : string) :
  match s with
  | String c _ => is_space c = false
  | EmptyString => True
  end -> lstrip s = s.
Proof. destruct s as [|c s]; simpl; [reflexivity|]. now intros ->. Qed.

Lemma rstrip_digits (d : Decimal.uint) :
  rstrip (NilEmpty.string_of_uint d) = NilEmpty.string_of_uint d.
Proof.
  induction d; cbn [NilEmpty.string_of_uint rstrip]; try reflexivity;
    rewrite IHd; destruct (NilEmpty.string_of_uint d); reflexivity.
Qed.

Lemma count_digits_uint (d : Decimal.uint) :
  count_digits (NilEmpty.string_of_uint d) = Z.of_nat (Decimal.nb_digits d).
Proof.
  induction d; cbn [NilEmpty.string_of_uint count_digits Decimal.nb_digits];
    [reflexivity | ..];
    match goal with
    | |- context [is_digit ?c] => change (is_digit c) with true
    end; cbv iota; rewrite IHd; lia.
Qed.

Lemma int_of_str_uint (d : Decimal.uint) :
  d <> Decimal.Nil ->
  int_of_str (NilEmpty.string_of_uint d)
  = (if max_str_digits <? Z.of_nat (Decimal.nb_digits d)
     then Raise ValueError else Ok (Z.of_uint d))
  /\ int_of_str (String "-" (NilEmpty.string_of_uint d))
     = (if max_str_digits <? Z.of_nat (Decimal.nb_digits d)
        then Raise ValueError else Ok (- Z.of_uint d)).
Proof.
  intros Hd. pose proof (parse_digits_start d Hd) as P.
  pose proof (count_digits_uint d) as C.
  unfold int_of_str, strip.
  split.
  - rewrite lstrip_id, rstrip_digits
      by (destruct d; [exact I| | | | | | | | | |]; reflexivity).
    rewrite C.
    destruct d; [contradiction| | | | | | | | | |];
      cbn [NilEmpty.string_of_uint] in *; now rewrite P.
  - rewrite lstrip_id by reflexivity.
    cbn [rstrip]. rewrite rstrip_digits.
    cbn [count_digits]. change (is_digit "-") with false. cbv iota.
    rewrite Z.add_0_l, C.
    destruct d; [contradiction| | | | | | | | | |];
      cbn [NilEmpty.string_of_uint] in *; rewrite P; reflexivity.
Qed.

(** [int] reads the text of an integer back, unless the text has more than
    4300 digits. *)
Lemma int_of_str_str_int (n : Z) :
  int_of_str (str_int n)
  = if int_text_bound <=? Z.abs n then Raise ValueError else Ok n.
Proof.
  unfold str_int. destruct n as [|p|p]; [reflexivity| |];
    cbn [Z.to_int NilEmpty.string_of_int Z.abs].
  - rewrite (proj1 (int_of_str_uint _ (DecimalPos.Unsigned.to_uint_nonnil p))).
    rewrite too_many_digits.
    unfold Z.of_uint. now rewrite DecimalPos.Unsigned.of_to.
  - rewrite (proj2 (int_of_str_uint _ (DecimalPos.Unsigned.to_uint_nonnil p))).
    rewrite too_many_digits.
    unfold Z.of_uint. now rewrite DecimalPos.Unsigned.of_to.
Qed.

Lemma str_int_truthy (n : Z) : truthy (VStr (str_int n)) = true.
Proof.
  unfold str_int. destruct n as [|p|p]; try reflexivity.
  cbn [Z.to_int NilEmpty.string_of_int].
  pose proof (DecimalPos.Unsigned.to_uint_nonnil p) as H.
  destruct (Pos.to_uint p); [contradiction| | | | | | | | | |]; reflexivity.
Qed.

(** A text of more than 4300 digits stands for a number that is too large
    for a float once divided by 1000. *)
Lemma float_overflow_below_bound : float_overflow < int_text_bound.
Proof. vm_compute. reflexivity. Qed.

Lemma decode_decimal (fromtimestamp : Z -> result datetime) (n : Z) :
  clickup_timestamp_to_date fromtimestamp (VStr (str_int n))
  = if float_overflow <=? Z.abs n then Ok None
    else Ok (date_of_ms fromtimestamp n).
Proof.
  unfold clickup_timestamp_to_date, date_of_ms. rewrite str_int_truthy.
  cbn [negb int_]. rewrite int_of_str_str_int.
  pose proof float_overflow_below_bound as B.
  destruct (Z.leb_spec int_text_bound (Z.abs n)) as [H|H];
    cbn [rbind try_except].
  - destruct (Z.leb_spec float_overflow (Z.abs n)); [reflexivity | lia].
  - unfold true_div_1000.
    destruct (float_overflow <=? Z.abs n); cbn [rbind try_except];
      [reflexivity|].
    destruct (fromtimestamp n); reflexivity.
Qed.

Lemma decode_integer (fromtimestamp : Z -> result datetime) (n : Z) :
  n <> 0 ->
  clickup_timestamp_to_date fromtimestamp (VInt n)
  = if float_overflow <=? Z.abs n then Ok None
    else Ok (date_of_ms fromtimestamp n).
Proof.
  intros Hn. unfold clickup_timestamp_to_date, date_of_ms, true_div_1000.
  cbn [truthy int_].
  destruct (Z.eqb_spec n 0) as [->|_]; [contradiction|].
  cbn [negb rbind].
  destruct (float_overflow <=? Z.abs n); cbn [rbind try_except];
    [reflexivity|].
  destruct (fromtimestamp n); reflexivity.
Qed.

(** X1.  [int] reads the decimal text of an integer back when the text has
    at most 4300 digits, negative numbers included, and refuses it with
    [ValueError] when it has more.  The text of an integer below the
    range of a float times 1000 decodes to the date [fromtimestamp] makes
    of it, or to [None] when [fromtimestamp] refuses it; the text of a
    larger one decodes to [None]. *)
Theorem decoder_reads_decimal_text (fromtimestamp : Z -> result datetime)
  (n : Z) :
  (Z.abs n < int_text_bound -> int_ (VStr (str_int n)) = Ok n)
  /\ (int_text_bound <= Z.abs n ->
      int_ (VStr (str_int n)) = Raise ValueError)
  /\ (Z.abs n < float_overflow ->
      clickup_timestamp_to_date fromtimestamp (VStr (str_int n))
      = Ok (date_of_ms fromtimestamp n))
  /\ (float_overflow <= Z.abs n ->
      clickup_timestamp_to_date fromtimestamp (VStr (str_int n)) = Ok None).
Proof.
  cbn [int_]. rewrite int_of_str_str_int, decode_decimal.
  destruct (Z.leb_spec int_text_bound (Z.abs n));
    destruct (Z.leb_spec float_overflow (Z.abs n));
    repeat split; intros; try reflexivity; lia.
Qed.

Lemma decoder_reads_decimal_text_witness :
  int_ (VStr "-1700000000000") = Ok (-1700000000000)
  /\ clickup_timestamp_to_date fromtimestamp_utc (VStr "1700000000000")
     = Ok (Some day0).
Proof.
  split.
  - apply (proj1 (decoder_reads_decimal_text fromtimestamp_utc
                    (-1700000000000))).
    vm_compute. reflexivity.
  - apply (proj1 (proj2 (proj2 (decoder_reads_decimal_text fromtimestamp_utc
                                  1700000000000)))).
    vm_compute. reflexivity.
Defined.

(** X2.  A value that tests false is taken as absent before any
    conversion: the number 0 decodes to [None] although the text of 0
    decodes to what [fromtimestamp] makes of 0, and every other integer
    decodes as its decimal text does. *)
Theorem decoder_zero_is_absent (fromtimestamp : Z -> result datetime) :
  (forall v, truthy v = false ->
             clickup_timestamp_to_date fromtimestamp v = Ok None)
  /\ (forall n, n <> 0 ->
                clickup_timestamp_to_date fromtimestamp (VInt n)
                = clickup_timestamp_to_date fromtimestamp (VStr (str_int n)))
  /\ clickup_timestamp_to_date fromtimestamp (VInt 0) = Ok None
  /\ clickup_timestamp_to_date fromtimestamp (VStr (str_int 0))
     = Ok (date_of_ms fromtimestamp 0).
Proof.
  split; [|split; [|split]].
  - intros v H. unfold clickup_timestamp_to_date. now rewrite H.
  - intros n Hn. now rewrite decode_decimal, decode_integer.
  - reflexivity.
  - now rewrite decode_decimal.
Qed.

Lemma decoder_zero_is_absent_witness :
  clickup_timestamp_to_date fromtimestamp_utc (VFloat (Finite 0)) = Ok None
  /\ clickup_timestamp_to_date fromtimestamp_utc (VInt 1700000000000)
     = clickup_timestamp_to_date fromtimestamp_utc (VStr "1700000000000").
Proof.
  destruct (decoder_zero_is_absent fromtimestamp_utc) as (Hf & Hn & _).
  split.
  - apply Hf. reflexivity.
  - apply (Hn 1700000000000). discriminate.
Defined.

(** * The colour families *)

Lemma existsb_occurs (keys : list string) (label : string) :
  existsb (fun k => contains k (upper label)) keys = true <-> occurs keys label.
Proof.
  unfold occurs. rewrite existsb_exists, Exists_exists.
  split; intros (k & Hin & H); exists k; (split; [exact Hin|]);
    now apply contains_spec.
Qed.

Lemma color_by_family (label : string) :
  color_of_status label
  = if existsb (fun k => contains k (upper label)) (keys_of green) then green
    else if existsb (fun k => contains k (upper label)) (keys_of blue)
         then blue else gray.
Proof.
  change (keys_of green)
    with ["ACHIEVED"; "COMPLETE"; "COMPLETED"; "APPROVED"; "FINALIZED";
          "DONE"; "CLOSED"]%string.
  change (keys_of blue)
    with ["MONITORING"; "IMPLEMENTING"; "PROGRESS"; "REVIEWING";
          "IN PROGRESS"]%string.
  unfold color_of_status, status_colors, default_color.
  cbn [first_color existsb].
  repeat match goal with
         | |- context [contains ?k (upper label)] =>
             destruct (contains k (upper label)); cbn [orb]; try reflexivity
         end.
Qed.

(** X3.  The three families are ranked: a label in which a key of a green
    entry occurs is green whatever else occurs in it; without one, a label
    in which a key of a blue entry occurs is blue; any other label is
    light gray. *)
Theorem color_families (label : string) :
  (occurs (keys_of green) label -> color_of_status label = green)
  /\ (~ occurs (keys_of green) label -> occurs (keys_of blue) label ->
      color_of_status label = blue)
  /\ (~ occurs (keys_of green) label -> ~ occurs (keys_of blue) label ->
      color_of_status label = gray).
Proof.
  rewrite (color_by_family label).
  pose proof (existsb_occurs (keys_of green) label) as Hg.
  pose proof (existsb_occurs (keys_of blue) label) as Hb.
  destruct (existsb (fun k => contains k (upper label)) (keys_of green)),
           (existsb (fun k => contains k (upper label)) (keys_of blue));
    cbv iota; (split; [|split]); try (intros; reflexivity);
    intros; exfalso.
  all: try (apply Hg in H; discriminate H).
  all: try (apply Hb in H0; discriminate H0).
  all: try (apply H; apply Hg; reflexivity).
  all: try (apply H0; apply Hb; reflexivity).
Qed.

Lemma color_families_witness :
  color_of_status "Not done yet" = green
  /\ color_of_status "Work in progress" = blue.
Proof.
  split.
  - apply (proj1 (color_families "Not done yet")).
    apply existsb_occurs. reflexivity.
  - apply (proj1 (proj2 (color_families "Work in progress")));
      [rewrite <- existsb_occurs; discriminate
      | apply existsb_occurs; reflexivity].
Defined.

(** * The figure *)

Lemma enumerate_bar_y (l : list chart_task) :
  forall i, map bar_y (map draw_bar (enumerate_from i l)) = seq i (List.length l).
Proof. induction l as [|t l IH]; intros i; simpl; [reflexivity|]. now rewrite IH. Qed.

Lemma enumerate_bar_data (l : list chart_task) :
  forall i, map bar_data (map draw_bar (enumerate_from i l)) = map bar_of_task l.
Proof. induction l as [|t l IH]; intros i; simpl; [reflexivity|]. now rewrite IH. Qed.

(** The bars drawn for the sorted tasks show the chart tasks. *)
Lemma drawn_bars_data (valid : list chart_task) :
  Permutation
    (map bar_data
       (map draw_bar (enumerate_from 0 (rev (sort_by_start valid)))))
    (map bar_of_task valid).
Proof.
  rewrite enumerate_bar_data. apply Permutation_map.
  apply Permutation_trans with (sort_by_start valid);
    [symmetry; apply Permutation_rev | apply sort_by_start_perm].
Qed.

Section FigureFacts.

Variable fromtimestamp : Z -> result datetime.
Local Abbreviation ftasks := (filter_tasks fromtimestamp).
Local Abbreviation render := (generate_gantt_image fromtimestamp).

(** X4.  Every figure returned has one bar per chart task and one tick per
    bar: the bars sit at the heights 0 to n - 1, which are the ticks, and
    their labels, left edges, widths and colours are those of the chart
    tasks.  A figure is returned for every non-empty set of chart tasks
    that lie 7 days inside the years 1 to 9999. *)
Theorem one_bar_per_task (tasks : list task) (valid : list chart_task)
  (project_name : string) :
  ftasks [] tasks = Ok valid ->
  (valid <> [] -> Forall within_margins valid ->
   exists fig, render tasks project_name = Ok (Some fig))
  /\ (forall fig,
         render tasks project_name = Ok (Some fig) ->
         map bar_y (fig_bars fig) = seq 0 (List.length valid)
         /\ fig_yticks fig = seq 0 (List.length valid)
         /\ Permutation (map bar_data (fig_bars fig))
              (map bar_of_task valid)).
Proof.
  intros Hf. split; [now apply render_within|].
  intros fig R.
  destruct (render_figure fromtimestamp _ _ _ _ Hf R)
    as (_ & lo & hi & _ & _ & _ & _ & ->).
  pose proof (sort_by_start_perm valid) as P.
  cbn [fig_bars fig_yticks].
  rewrite enumerate_bar_y, length_rev, (Permutation_length P).
  split; [reflexivity|]. split; [reflexivity|].
  apply drawn_bars_data.
Qed.

End FigureFacts.

Lemma one_bar_per_task_witness :
  exists fig,
    generate_gantt_image fromtimestamp_utc [task_C; task_B; task_A] "QA"
    = Ok (Some fig)
    /\ map bar_y (fig_bars fig) = [0%nat; 1%nat].
Proof.
  destruct (one_bar_per_task fromtimestamp_utc [task_C; task_B; task_A]
              [chart_task_of task_B (day0 + timedelta_days 4)
                 (day0 + timedelta_days 5);
               chart_task_of task_A day0 (day0 + timedelta_days 2)]
              "QA"%string) as [He Hb].
  - vm_compute. reflexivity.
  - destruct He as [fig R].
    + discriminate.
    + repeat constructor.
    + exists fig. split; [exact R|]. exact (proj1 (Hb fig R)).
Defined.

Lemma enumerate_from_in {A} (l : list A) :
  forall i k a, In (k, a) (enumerate_from i l) -> In a l.
Proof.
  induction l as [|x l IH]; intros i k a; simpl; [tauto|].
  intros [[= _ <-]|H]; [now left | right; eapply IH, H].
Qed.




Section OrderFacts.

Variable fromtimestamp : Z -> result datetime.
Local Abbreviation ftasks := (filter_tasks fromtimestamp).
Local Abbreviation render := (generate_gantt_image fromtimestamp).

Lemma resolved_in_order (t : task) (ct : chart_task) :
  dates_in_order fromtimestamp t -> In ct (resolved fromtimestamp t) ->
  start ct <= end_ ct.
Proof.
  unfold dates_in_order, resolved. intros H.
  destruct (decoded fromtimestamp (t_start_date t)) as [s|],
           (decoded fromtimestamp (t_due_date t)) as [d|];
    simpl; intros Hin; try contradiction; destruct Hin as [<-|[]];
    simpl; unfold timedelta_days; try lia.
  now apply H.
Qed.

(** X5.  When no record has its due date before its start date, the axis
    of every figure returned spans at least 14 days and holds every bar
    with its margins: a bar starts at least 7 days after the left limit,
    is at least one day wide and ends at least 6 days before the right
    limit. *)
Theorem bars_inside_axis (tasks : list task) (project_name : string)
  (fig : figure) :
  Forall (dates_in_order fromtimestamp) tasks ->
  render tasks project_name = Ok (Some fig) ->
  fst (fig_xlim fig) + timedelta_days 14 <= snd (fig_xlim fig)
  /\ Forall (fun b =>
               fst (fig_xlim fig) + timedelta_days 7 <= bar_left b
               /\ 1 <= bar_width b
               /\ bar_left b + timedelta_days (bar_width b)
                  <= snd (fig_xlim fig) - timedelta_days 6)
       (fig_bars fig).
Proof.
  intros Hord R.
  pose proof (render_filter fromtimestamp _ _ _ R) as Hf.
  set (valid := flat_map (resolved fromtimestamp) tasks) in *.
  assert (Hv : Forall (fun ct => start ct <= end_ ct) valid).
  { subst valid. rewrite Forall_forall in *. intros ct Hin.
    apply in_flat_map in Hin. destruct Hin as (t & Ht & Hct).
    eapply resolved_in_order; [apply Hord, Ht | exact Hct]. }
  destruct (render_figure fromtimestamp _ _ _ _ Hf R)
    as (_ & lo & hi & [Hlo Hlo'] & [Hhi Hhi'] & _ & _ & ->).
  rewrite Forall_forall in Hv, Hlo', Hhi'.
  cbn [fig_xlim fig_bars fst snd].
  split.
  - apply in_map_iff in Hlo. destruct Hlo as (t0 & <- & Ht0).
    specialize (Hv t0 Ht0).
    assert (end_ t0 <= hi) by (apply Hhi'; now apply in_map).
    unfold timedelta_days. lia.
  - rewrite Forall_forall. intros b Hb.
    apply in_map_iff in Hb. destruct Hb as ([i t] & <- & Hit).
    apply enumerate_from_in in Hit. apply in_rev in Hit.
    apply (Permutation_in _ (sort_by_start_perm valid)) in Hit.
    specialize (Hv t Hit).
    assert (lo <= start t) by (apply Hlo'; now apply in_map).
    assert (end_ t <= hi) by (apply Hhi'; now apply in_map).
    cbn [draw_bar bar_left bar_width]. unfold days_between, timedelta_days.
    pose proof (Z.mul_div_le (end_ t - start t) 86400000000 ltac:(lia)).
    assert (0 <= (end_ t - start t) / 86400000000)
      by (apply Z.div_pos; lia).
    lia.
Qed.

(** X6.  The width of a bar is the whole number of days from start to end
    plus one: 2 for a record with a single date, at least 1 when the due
    date is not before the start date, and 0 or less when it is, such a
    record being drawn all the same. *)
Theorem bar_widths (t : task) (ct : chart_task) (idx : nat) :
  In ct (resolved fromtimestamp t) ->
  (decoded fromtimestamp (t_start_date t) = None
   \/ decoded fromtimestamp (t_due_date t) = None ->
   bar_width (draw_bar (idx, ct)) = 2)
  /\ (forall s d,
         decoded fromtimestamp (t_start_date t) = Some s ->
         decoded fromtimestamp (t_due_date t) = Some d ->
         bar_width (draw_bar (idx, ct)) = (d - s) / 86400000000 + 1
         /\ (s <= d -> 1 <= bar_width (draw_bar (idx, ct)))
         /\ (d < s -> bar_width (draw_bar (idx, ct)) <= 0)).
Proof.
  unfold resolved.
  destruct (decoded fromtimestamp (t_start_date t)) as [s|],
           (decoded fromtimestamp (t_due_date t)) as [d|];
    simpl; intros Hin; try contradiction; destruct Hin as [<-|[]];
    cbn [draw_bar bar_width chart_task_of start end_];
    unfold days_between, timedelta_days.
  - split; [intros [H|H]; discriminate|].
    intros s' d' [= <-] [= <-]. split; [reflexivity|]. split; intros H.
    + assert (0 <= (d - s) / 86400000000) by (apply Z.div_pos; lia). lia.
    + assert ((d - s) / 86400000000 < 0) by (apply Z.div_lt_upper_bound; lia).
      lia.
  - split; [intros _|intros s' d' _ [=]].
    match goal with
    | |- ?x / _ + 1 = 2 => replace x with 86400000000 by lia
    end.
    reflexivity.
  - split; [intros _|intros s' d' [=]].
    match goal with
    | |- ?x / _ + 1 = 2 => replace x with 86400000000 by lia
    end.
    reflexivity.
Qed.




End OrderFacts.

Lemma bars_inside_axis_witness :
  exists fig,
    generate_gantt_image fromtimestamp_utc [task_A; task_B; task_C] "QA"
    = Ok (Some fig)
    /\ fst (fig_xlim fig) + timedelta_days 14 <= snd (fig_xlim fig).
Proof.
  destruct (generate_gantt_image fromtimestamp_utc [task_A; task_B; task_C]
              "QA") as [[fig|]|e] eqn:R;
    [|vm_compute in R; discriminate R | vm_compute in R; discriminate R].
  exists fig. split; [reflexivity|].
  apply (bars_inside_axis fromtimestamp_utc [task_A; task_B; task_C]
           "QA"%string fig); [|exact R].
  apply Forall_cons; [|apply Forall_cons; [|apply Forall_cons;
                                             [|apply Forall_nil]]];
    intros s d Hs Hd; vm_compute in Hs, Hd;
    try discriminate Hs; try discriminate Hd.
  injection Hs as <-. injection Hd as <-. vm_compute. discriminate.
Defined.

Lemma bar_widths_witness :
  bar_width (draw_bar (0%nat, chart_task_of task_B (day0 + timedelta_days 4)
                                (day0 + timedelta_days 5))) = 2.
Proof.
  apply (proj1 (bar_widths fromtimestamp_utc task_B
                  (chart_task_of task_B (day0 + timedelta_days 4)
                     (day0 + timedelta_days 5)) 0%nat
                  ltac:(vm_compute; left; reflexivity))).
  left. reflexivity.
Defined.


(** * The requests of the task fetcher *)

Lemma firstn_three {A} (P : A -> Prop) (n : nat) (a b c : A) :
  P a -> P b -> P c ->
  Forall P (firstn n [a; b; c]) /\ (List.length (firstn n [a; b; c]) <= 3)%nat.
Proof.
  intros Ha Hb Hc.
  destruct n as [|[|[|[|n]]]]; simpl; split; repeat constructor; assumption.
Qed.

Lemma folder_request_read (tok id : string) (t : Z) :
  In t [15; 20; 25] -> clickup_read tok (folder_request tok id t).
Proof. intros H. repeat split; try reflexivity. exact H. Qed.

Lemma tasks_request_read (tok id : string) (t : Z) :
  In t [15; 20; 25] -> clickup_read tok (tasks_request tok id t).
Proof. intros H. repeat split; try reflexivity. exact H. Qed.

Lemma get_lists_requests (tok id : string) (w : world) :
  exists rqs,
    snd (get_lists_from_folder tok id w) = after w rqs
    /\ Forall (clickup_read tok) rqs /\ (List.length rqs <= 3)%nat.
Proof.
  destruct (proj1 (call_policy _ _ _ (get_lists_attempt_run tok id)) w)
    as (n & _ & H).
  eexists. split; [exact H|].
  apply firstn_three; apply folder_request_read; simpl; tauto.
Qed.

Lemma get_tasks_requests (tok id : string) (w : world) :
  exists rqs,
    snd (get_clickup_tasks tok id w) = after w rqs
    /\ Forall (clickup_read tok) rqs /\ (List.length rqs <= 3)%nat.
Proof.
  destruct (proj1 (call_policy _ _ _ (get_tasks_attempt_run tok id)) w)
    as (n & _ & H).
  eexists. split; [exact H|].
  apply firstn_three; apply tasks_request_read; simpl; tauto.
Qed.

Lemma after_nil (w : world) : after w [] = w.
Proof. destruct w. unfold after. cbn. now rewrite app_nil_r. Qed.

Lemma extend_requests (tok : string) (lists : list list_item) :
  forall acc w,
  exists rqs,
    snd (extend_from_lists tok lists acc w) = after w rqs
    /\ Forall (clickup_read tok) rqs
    /\ (List.length rqs <= 3 * List.length lists)%nat.
Proof.
  induction lists as [|l lists IH]; intros acc w.
  - exists []. cbn. rewrite after_nil. repeat split; [constructor | lia].
  - cbn [extend_from_lists]. rewrite bind_subscript.
    destruct (li_id l) as [id|];
      [|exists []; cbn [snd]; rewrite after_nil;
        repeat split; [constructor | cbn; lia]].
    rewrite bind_subscript.
    destruct (li_name l) as [nm|];
      [|exists []; cbn [snd]; rewrite after_nil;
        repeat split; [constructor | cbn; lia]].
    unfold bind.
    destruct (get_tasks_requests tok id w) as (r1 & H1 & F1 & L1).
    destruct (get_tasks_no_raise tok id w) as [o Ho].
    destruct (get_clickup_tasks tok id w) as [r w1].
    cbn [fst snd] in *. subst r w1.
    match goal with
    | |- context [extend_from_lists tok lists ?a ?w'] =>
        destruct (IH a w') as (r2 & H2 & F2 & L2)
    end.
    exists (r1 ++ r2). rewrite H2, after_after.
    split; [reflexivity|]. split; [now apply Forall_app|].
    rewrite length_app. cbn [List.length]. lia.
Qed.

(** The loop over the lists raises at a list that lacks its id or its
    name, and nowhere else. *)
Lemma extend_unnamed (tok : string) (lists : list list_item) :
  forall acc w e,
    fst (extend_from_lists tok lists acc w) = Raise e ->
    ~ Forall named lists.
Proof.
  induction lists as [|l lists IH]; intros acc w e; cbn [extend_from_lists].
  - discriminate.
  - rewrite bind_subscript.
    destruct (li_id l) as [id|] eqn:Ei;
      [|intros _ F; inversion F as [|? ? [Hn _] _]; congruence].
    rewrite bind_subscript.
    destruct (li_name l) as [nm|] eqn:En;
      [|intros _ F; inversion F as [|? ? [_ Hn] _]; congruence].
    unfold bind. destruct (get_tasks_no_raise tok id w) as [o Ho].
    destruct (get_clickup_tasks tok id w) as [r w1]. cbn [fst] in Ho. subst r.
    intros H F. inversion F; subst. eapply IH; eassumption.
Qed.

(** The requests of a fetch are reads of the ClickUp API. *)
Lemma fetch_reads (api_token source_id source_type : string) (w : world) :
  exists rqs,
    snd (get_all_tasks_from_source api_token source_id source_type w)
    = after w rqs
    /\ Forall (clickup_read api_token) rqs.
Proof.
  unfold get_all_tasks_from_source, bind, return_all_tasks.
  destruct (String.eqb source_type "folder").
  - destruct (get_lists_requests api_token source_id w) as (r1 & H1 & F1 & _).
    destruct (get_lists_from_folder api_token source_id w) as [[o|e] w1];
      cbn [fst snd] in *; subst w1; [|now exists r1].
    destruct (negb (truthy_list o)); [now exists r1|].
    destruct (extend_requests api_token (list_of o) [] (after w r1))
      as (r2 & H2 & F2 & _).
    destruct (extend_from_lists api_token (list_of o) [] (after w r1))
      as [[ts|e] w2]; cbn [fst snd] in *; subst w2;
      exists (r1 ++ r2); rewrite after_after;
      (split; [now try destruct (negb _) | now apply Forall_app]).
  - destruct (get_tasks_requests api_token source_id w) as (r1 & H1 & F1 & _).
    destruct (get_clickup_tasks api_token source_id w) as [[o|e] w1];
      cbn [fst snd] in *; subst w1; exists r1;
      (split; [now try destruct (negb _) | exact F1]).
Qed.

(** X8.  A fetch only reads: every request it makes is a GET on the
    ClickUp API carrying the token, with a timeout of 15, 20 or 25.  It
    makes at most 3 requests for a list and at most 3 + 3 n for a folder
    of n lists. *)
Theorem fetch_requests (api_token source_id source_type : string) (w : world) :
  exists rqs,
    snd (get_all_tasks_from_source api_token source_id source_type w)
    = after w rqs
    /\ Forall (clickup_read api_token) rqs
    /\ (String.eqb source_type "folder" = false ->
        (List.length rqs <= 3)%nat)
    /\ (forall lists w1,
           get_lists_from_folder api_token source_id w = (Ok lists, w1) ->
           (List.length rqs <= 3 + 3 * List.length (list_of lists))%nat).
Proof.
  unfold get_all_tasks_from_source, bind, return_all_tasks.
  destruct (String.eqb source_type "folder").
  - destruct (get_lists_requests api_token source_id w) as (r1 & H1 & F1 & L1).
    destruct (get_lists_no_raise api_token source_id w) as [o Ho].
    destruct (get_lists_from_folder api_token source_id w) as [r w1].
    cbn [fst snd] in *. subst r w1.
    destruct (negb (truthy_list o)).
    + exists r1. split; [reflexivity|]. split; [exact F1|].
      split; [discriminate|]. intros lists w1 _. lia.
    + destruct (extend_requests api_token (list_of o) [] (after w r1))
        as (r2 & H2 & F2 & L2).
      destruct (extend_from_lists api_token (list_of o) [] (after w r1))
        as [[ts|e] w2];
        cbn [fst snd] in *; subst w2;
        exists (r1 ++ r2); rewrite after_after;
        (split; [now try destruct (negb _)|]);
        (split; [now apply Forall_app|]); (split; [discriminate|]);
        intros lists w1 [= <- _]; rewrite length_app; lia.
  - destruct (get_tasks_requests api_token source_id w) as (r1 & H1 & F1 & L1).
    destruct (get_tasks_no_raise api_token source_id w) as [o Ho].
    destruct (get_clickup_tasks api_token source_id w) as [r w1].
    cbn [fst snd] in *. subst r w1.
    exists r1. split; [now destruct (negb _)|]. split; [exact F1|].
    split; [intros _; exact L1|]. intros lists w1 _. lia.
Qed.

(** X9.  A fetch never returns an empty set of records: a list source
    that answers with no task gives the failure signal, as one that cannot
    be fetched does.  The fetch of a list never raises; the fetch of a
    folder raises nothing but [KeyError], and only when the folder was
    resolved to lists one of which lacks its id or its name. *)
Theorem fetch_never_empty (api_token source_id source_type : string)
  (w : world) :
  (forall o,
      fst (get_all_tasks_from_source api_token source_id source_type w) = Ok o ->
      o <> Some [])
  /\ (String.eqb source_type "folder" = false ->
      exists o,
        fst (get_all_tasks_from_source api_token source_id source_type w)
        = Ok o)
  /\ (forall o w1,
         String.eqb source_type "folder" = false ->
         get_clickup_tasks api_token source_id w = (Ok o, w1) ->
         get_all_tasks_from_source api_token source_id source_type w
         = (match o with
            | Some (t :: ts) => Ok (Some (t :: ts))
            | _ => Ok None
            end, w1))
  /\ (forall e,
         fst (get_all_tasks_from_source api_token source_id source_type w)
         = Raise e ->
         e = KeyError
         /\ String.eqb source_type "folder" = true
         /\ exists lists w1,
             get_lists_from_folder api_token source_id w
             = (Ok (Some lists), w1)
             /\ ~ Forall named lists).
Proof.
  split; [|split; [|split]].
  - intros o Ho ->. revert Ho.
    unfold get_all_tasks_from_source, bind, return_all_tasks.
    destruct (String.eqb source_type "folder").
    + destruct (get_lists_from_folder api_token source_id w) as [[o|e] w1];
        [|discriminate].
      destruct (negb (truthy_list o)); [discriminate|].
      destruct (extend_from_lists _ _ _ w1) as [[[|t ts]|e] w2]; discriminate.
    + destruct (get_clickup_tasks api_token source_id w) as [[[[|t ts]|]|e] w1];
        discriminate.
  - intros Hty.
    unfold get_all_tasks_from_source, bind, return_all_tasks. rewrite Hty.
    destruct (get_tasks_no_raise api_token source_id w) as [o Ho].
    destruct (get_clickup_tasks api_token source_id w) as [r w1].
    cbn [fst] in Ho. subst r. destruct (negb _); eexists; reflexivity.
  - intros o w1 Hty Hg.
    unfold get_all_tasks_from_source, bind, return_all_tasks.
    rewrite Hty, Hg. now destruct o as [[|t ts]|].
  - intros e He. split; [eapply fetch_raise, He|]. revert He.
    unfold get_all_tasks_from_source, bind, return_all_tasks.
    destruct (String.eqb source_type "folder").
    + intros He. split; [reflexivity|].
      destruct (get_lists_no_raise api_token source_id w) as [o Ho].
      destruct (get_lists_from_folder api_token source_id w) as [r w1].
      cbn [fst] in Ho. subst r.
      destruct o as [lists|]; cbn [truthy_list negb] in He;
        [|discriminate He].
      exists lists, w1. split; [reflexivity|].
      destruct lists as [|l lists]; [discriminate He|].
      cbn [truthy_list negb list_of] in He.
      pose proof (extend_unnamed api_token (l :: lists) [] w1) as Hu.
      destruct (extend_from_lists api_token (l :: lists) [] w1)
        as [[ts|e1] w2].
      * destruct (negb _); discriminate He.
      * now apply (Hu e1).
    + destruct (get_tasks_no_raise api_token source_id w) as [o Ho].
      destruct (get_clickup_tasks api_token source_id w) as [r w1].
      cbn [fst] in Ho. subst r. destruct (negb _); discriminate.
Qed.

Lemma fetch_never_empty_witness :
  fst (get_all_tasks_from_source "tok" "L1" "list"
         (world_of (fun _ _ =>
                      inl {| status_code := 200;
                             json_body := Some (json_tasks []) |})))
  = Ok None.
Proof.
  rewrite (proj1 (proj2 (proj2 (fetch_never_empty "tok" "L1" "list" _)))
             (Some [])
             (after (world_of (fun _ _ =>
                                 inl {| status_code := 200;
                                        json_body := Some (json_tasks []) |}))
                [tasks_request "tok" "L1" 15]));
    reflexivity.
Defined.

Lemma fetch_requests_witness :
  exists rqs,
    snd (get_all_tasks_from_source "tok" "F" "folder"
           (world_of net_second_list_down))
    = after (world_of net_second_list_down) rqs
    /\ (List.length rqs <= 9)%nat.
Proof.
  destruct (fetch_requests "tok" "F" "folder" (world_of net_second_list_down))
    as (rqs & H & _ & _ & L).
  exists rqs. split; [exact H|].
  apply (L (Some [list_1; list_2])
           (after (world_of net_second_list_down)
              [folder_request "tok" "F" 15])).
  reflexivity.
Defined.

(** * The upload *)

Lemma delete_previous_run (cc : confluence_config) (auth : string * string)
  (filename : string) (atts : list attachment) (w : world) :
  auth = (cf_user cc, cf_api_token cc) ->
  snd (delete_previous cc auth atts filename w)
  = after w match previous_attachment filename atts with
            | Some att => [delete_request cc (att_id att)]
            | None => []
            end.
Proof.
  intros ->. unfold previous_attachment.
  induction atts as [|a atts IH]; cbn [delete_previous find].
  - now rewrite after_nil.
  - destruct (String.eqb (att_title a) filename); [|exact IH].
    unfold bind. rewrite send_run.
    now destruct (answer w 0 _).
Qed.

Lemma upload_run (cc : confluence_config) (page_id : option string)
  (image : figure) (filename : string) (w : world) :
  let listing := attachments_request cc page_id in
  let post := upload_request cc page_id filename image in
  let pre := deletions cc filename (answer w 0 listing) in
  upload_attachment_to_confluence cc page_id image filename w
  = (upload_outcome (answer w (1 + List.length pre) post),
     after w (listing :: pre ++ [post])).
Proof.
  intros listing post pre.
  unfold upload_attachment_to_confluence. unfold bind at 1.
  rewrite try_pass.
  match goal with
  | |- context [snd ?c] => set (w1 := snd c)
  end.
  assert (H1 : w1 = after w (listing :: pre)).
  { subst w1. unfold bind.
    change (send _ w) with (send listing w). rewrite send_run.
    subst pre. unfold deletions, listed.
    destruct (answer w 0 listing) as [r|e]; [|reflexivity].
    rewrite raise_for_status_run.
    destruct ((400 <=? status_code r) && (status_code r <? 600));
      [reflexivity|].
    unfold response_json. destruct (json_body r) as [j|]; [|reflexivity].
    unfold ret at 1.
    rewrite (surjective_pairing (delete_previous _ _ _ _ _)).
    rewrite delete_previous_run by reflexivity.
    rewrite after_after. cbn [app]. now destruct (fst _). }
  rewrite H1. clear H1 w1.
  unfold try_except_M, bind.
  change (send _ (after w (listing :: pre)))
    with (send post (after w (listing :: pre))).
  rewrite send_run, after_after, answer_after.
  cbn [List.length app]. rewrite Nat.add_0_r.
  replace (S (List.length pre)) with (1 + List.length pre)%nat by reflexivity.
  change ((listing :: pre) ++ [post]) with (listing :: pre ++ [post]).
  destruct (answer w (1 + List.length pre) post) as [r|e]; cbn [upload_outcome].
  - rewrite raise_for_status_run.
    destruct ((400 <=? status_code r) && (status_code r <? 600));
      [reflexivity|].
    unfold response_json. destruct (json_body r) as [j|]; [|reflexivity].
    unfold ret at 1. now destruct (j_results j) as [[|a l]|].
  - now destruct (is_RequestException e).
Qed.

(** X10.  The upload always makes its POST, as its last request, whatever
    the listing and the deletion met.  Before it come the listing and at
    most one DELETE: that of the first listed attachment bearing the file
    name, and none when no listed attachment bears it. *)
Theorem upload_is_best_effort (cc : confluence_config)
  (page_id : option string) (image : figure) (filename : string)
  (w : world) :
  let listing := attachments_request cc page_id in
  let post := upload_request cc page_id filename image in
  let shown := listed (answer w 0 listing) in
  snd (upload_attachment_to_confluence cc page_id image filename w)
  = after w (listing :: deletions cc filename (answer w 0 listing) ++ [post])
  /\ (forall att,
         previous_attachment filename shown = Some att ->
         In att shown /\ att_title att = filename
         /\ deletions cc filename (answer w 0 listing)
            = [delete_request cc (att_id att)])
  /\ ((forall att, In att shown -> att_title att <> filename) ->
      deletions cc filename (answer w 0 listing) = []).
Proof.
  intros listing post shown. rewrite upload_run. cbn [snd].
  split; [reflexivity|]. unfold deletions. fold listing shown. split.
  - intros att H. rewrite H. unfold previous_attachment in H.
    apply find_some in H. destruct H as [Hin Heq].
    apply String.eqb_eq in Heq. now repeat split.
  - intros H. unfold previous_attachment.
    destruct (find _ shown) as [att|] eqn:E; [|reflexivity].
    apply find_some in E. destruct E as [Hin Heq].
    apply String.eqb_eq in Heq. now apply H in Hin.
Qed.

(** X11.  The outcome of the upload is that of its POST alone: the failure
    signal when the POST raises, is answered with an HTTP error or with no
    JSON; the identifier of the first result otherwise; and [KeyError] or
    [IndexError], which the function does not catch, when the JSON has no
    results. *)
Theorem upload_result (cc : confluence_config) (page_id : option string)
  (image : figure) (filename : string) (w : world) :
  let listing := attachments_request cc page_id in
  let post := upload_request cc page_id filename image in
  let k := (1 + List.length (deletions cc filename (answer w 0 listing)))%nat in
  let result :=
    fst (upload_attachment_to_confluence cc page_id image filename w) in
  (forall e, answer w k post = Raise e -> result = Ok None)
  /\ (forall r, answer w k post = Ok r ->
                400 <= status_code r < 600 \/ json_body r = None ->
                result = Ok None)
  /\ (forall r j, answer w k post = Ok r -> status_ok r ->
                  json_body r = Some j ->
                  match j_results j with
                  | Some (first :: _) => result = Ok (Some (att_id first))
                  | Some [] => result = Raise IndexError
                  | None => result = Raise KeyError
                  end).
Proof.
  intros listing post k result. subst result. rewrite upload_run. cbn [fst].
  fold listing post k. split; [|split].
  - intros e H. rewrite H. cbn [upload_outcome].
    now rewrite (answer_request_exception _ _ _ _ H).
  - intros r H [Hs|Hj]; rewrite H; cbn [upload_outcome].
    + now rewrite (status_error_test _ Hs).
    + rewrite Hj. now destruct (_ && _).
  - intros r j H Hs Hj. rewrite H. cbn [upload_outcome].
    rewrite (status_ok_test _ Hs), Hj. now destruct (j_results j) as [[|a l]|].
Qed.

Lemma upload_is_best_effort_witness :
  deletions confluence_example "gantt-qa-20240101.png"
    (answer (world_of net_replace_attachment) 0
       (attachments_request confluence_example (Some "4242"%string)))
  = [delete_request confluence_example "a2"].
Proof.
  apply (proj1 (proj2 (upload_is_best_effort confluence_example
                         (Some "4242"%string) figure_example
                         "gantt-qa-20240101.png"
                         (world_of net_replace_attachment)))
           {| att_title := "gantt-qa-20240101.png"; att_id := "a2" |}).
  reflexivity.
Defined.

Lemma upload_result_witness :
  fst (upload_attachment_to_confluence confluence_example
         (Some "4242"%string) figure_example "gantt-qa-20240101.png"
         (world_of net_replace_attachment))
  = Ok (Some "a3"%string).
Proof.
  apply (proj2 (proj2 (upload_result confluence_example (Some "4242"%string)
                         figure_example "gantt-qa-20240101.png"
                         (world_of net_replace_attachment)))
           {| status_code := 200;
              json_body :=
                Some (json_results
                        [{| att_title := "gantt-qa-20240101.png";
                            att_id := "a3" |}]) |}
           (json_results
              [{| att_title := "gantt-qa-20240101.png"; att_id := "a3" |}])).
  - reflexivity.
  - unfold status_ok. simpl. lia.
  - reflexivity.
Defined.

(** * What a success means *)

Lemma substring_here (k b : string) : substring k (k ++ b).
Proof. now exists ""%string, b. Qed.

Lemma substring_later (k p s : string) :
  substring k s -> substring k (p ++ s).
Proof.
  intros (a & b & ->). exists (p ++ a)%string, b.
  induction p as [|c p IH]; simpl; [reflexivity|]. now rewrite IH.
Qed.

Lemma page_content_names_file (project_name timestamp filename : string) :
  substring filename (page_content project_name timestamp filename).
Proof.
  unfold page_content.
  repeat (first [apply substring_here | apply substring_later]).
Qed.

Lemma update_success (cc : confluence_config) (page_id : option string)
  (att filename pn : string) (w w' : world) :
  update_confluence_with_image cc page_id att filename pn w = (Ok true, w') ->
  exists payload r,
    w' = after w [page_get_request cc page_id;
                  page_put_request cc page_id payload]
    /\ substring filename (p_body_value payload)
    /\ answer w 1 (page_put_request cc page_id payload) = Ok r
    /\ status_ok r.
Proof.
  rewrite update_run.
  destruct (answer w 0 _) as [r|e]; [|discriminate].
  destruct (_ && _); [discriminate|].
  destruct (json_body r) as [j|]; [|discriminate].
  destruct (j_version j) as [v|]; [|discriminate].
  destruct (j_title j) as [title|]; [|discriminate].
  destruct (j_type j) as [ty|]; [|discriminate].
  cbv zeta.
  match goal with
  | |- context [answer w 1 ?rq] => destruct (answer w 1 rq) as [r'|e1] eqn:E
  end.
  - destruct ((400 <=? status_code r') && (status_code r' <? 600)) eqn:S;
      [discriminate|].
    intros [= <-]. do 2 eexists. split; [reflexivity|].
    split; [apply page_content_names_file|]. split; [exact E|].
    unfold status_ok. intros H. now rewrite (status_error_test _ H) in S.
  - destruct (is_RequestException e1); [discriminate|]. discriminate.
Qed.

Section SuccessFacts.

Variable fromtimestamp : Z -> result datetime.
Local Abbreviation pm := (process_mapping fromtimestamp).

(** X12.  A mapping that succeeds has published: the requests it made end
    with the upload of the image, a POST of the file to the attachments
    of the page; the fetch of the page, a GET; and the update, a PUT on
    the page with a JSON body that names the uploaded file, answered
    without HTTP error.  Every request before the upload is a GET or a
    DELETE. *)
Theorem success_means_published (cfg : config) (m : mapping) (w w' : world) :
  pm cfg m w = (Ok true, w') ->
  exists before filename image upload get put payload r,
    w' = after w (before ++ [upload; get; put])
    /\ Forall no_write before
    /\ rq_method upload = POST
    /\ rq_url upload
       = (cf_url (confluence cfg) ++ "/wiki/rest/api/content/"
          ++ str_opt (m_confluence_page_id m) ++ "/child/attachment")%string
    /\ rq_body upload = Files filename image
    /\ rq_method get = GET
    /\ rq_method put = PUT
    /\ rq_url put
       = (cf_url (confluence cfg) ++ "/wiki/rest/api/content/"
          ++ str_opt (m_confluence_page_id m))%string
    /\ rq_body put = Json payload
    /\ substring filename (p_body_value payload)
    /\ answer w (List.length before + 2) put = Ok r
    /\ status_ok r.
Proof.
  rewrite process_mapping_run.
  destruct (mapping_source m) as [[source_id source_type]|]; [|discriminate].
  destruct (fetch_reads (cu_api_token (clickup cfg)) source_id source_type w)
    as (r0 & H0 & F0).
  destruct (get_all_tasks_from_source _ _ _ w) as [[tasks|e] w1];
    [|discriminate].
  cbn [snd] in H0. subst w1.
  destruct (negb (truthy_list tasks)); [discriminate|].
  destruct (generate_gantt_image _ _ _) as [[image|]|e]; try discriminate.
  cbv zeta.
  match goal with
  | |- context [upload_attachment_to_confluence ?c ?p ?i ?f ?w0] =>
      set (filename := f);
      pose proof (upload_run c p i filename w0) as Hu; cbv zeta in Hu;
      destruct (upload_attachment_to_confluence c p i filename w0)
        as [[att|e] w2]; [|discriminate]
  end.
  injection Hu as _ ->.
  destruct (negb (truthy_opt_str att)); [discriminate|].
  destruct (update_confluence_with_image _ _ _ _ _ _) as [[[]|e] w3] eqn:Hp;
    try discriminate.
  intros [= <-].
  apply update_success in Hp.
  destruct Hp as (payload & r & -> & Hsub & Ha & Hok).
  match type of Ha with
  | answer (after (after w r0) (?l :: ?pre ++ [?p])) _ ?put = _ =>
      exists (r0 ++ l :: pre), filename, image, p,
        (page_get_request (confluence cfg) (m_confluence_page_id m)),
        put, payload, r
  end.
  split.
  - rewrite !after_after. f_equal. rewrite <- !app_assoc. cbn [app].
    now rewrite <- app_assoc.
  - split.
    { apply Forall_app. split.
      - eapply Forall_impl; [|exact F0]. intros rq (Hm & _). now left.
      - constructor; [now left|]. unfold deletions.
        destruct (previous_attachment _ _);
          [constructor; [now right | constructor] | constructor]. }
    do 7 (split; [reflexivity|]).
    split; [exact Hsub|]. split; [|exact Hok].
    rewrite !answer_after in Ha. rewrite <- Ha. rewrite ?answer_after.
    f_equal.
    rewrite !length_app. cbn [List.length]. rewrite length_app.
    cbn [List.length]. lia.
Qed.

(** X13.  No error of the network escapes the script: whatever the
    answers, the run ends with [sys.exit(0)], with [sys.exit(1)], or with
    an exception that did not come from a request, the [KeyError] or
    [IndexError] of an answer that lacks a key or the [OverflowError] of
    a date beyond the years 1 to 9999. *)
Theorem main_outcomes (w : world) :
  exists e,
    fst (main fromtimestamp w) = Raise e
    /\ is_RequestException e = false
    /\ (e = SystemExit 0 \/ e = SystemExit 1
        \/ e = KeyError \/ e = IndexError \/ e = OverflowError).
Proof.
  rewrite main_run.
  destruct (load_config w) as [[cfg|e] w1] eqn:Hl.
  - destruct (negb _);
      [exists (SystemExit 1); cbn; intuition congruence|].
    destruct (process_all fromtimestamp cfg _ [] w1) as [[rs|e] w2] eqn:Hp.
    + cbn [fst]. destruct (_ =? _)%nat; eexists;
        (split; [reflexivity|]); cbn; intuition congruence.
    + apply process_all_raise in Hp. exists e. cbn [fst].
      destruct Hp as [[-> | ->] | ->]; cbn; intuition congruence.
  - apply load_config_raise in Hl. destruct Hl as [-> _].
    exists (SystemExit 1). cbn. intuition congruence.
Qed.

End SuccessFacts.

(** X14.  When the fetched page lacks its version, title or type, the
    update raises [KeyError] after the fetch and submits nothing. *)
Theorem update_missing_key (cc : confluence_config) (page_id : option string)
  (attachment_id filename project_name : string) (w : world)
  (r : response) (info : json_obj) :
  answer w 0 (page_get_request cc page_id) = Ok r ->
  status_ok r -> json_body r = Some info ->
  j_version info = None \/ j_title info = None \/ j_type info = None ->
  update_confluence_with_image cc page_id attachment_id filename project_name w
  = (Raise KeyError, after w [page_get_request cc page_id]).
Proof.
  intros Ha Hs Hj H. rewrite update_run, Ha, (status_ok_test _ Hs), Hj.
  destruct H as [->|[H|H]]; [reflexivity| |]; rewrite H;
    destruct (j_version info); try reflexivity; now destruct (j_title info).
Qed.

Lemma success_means_published_witness :
  exists before filename image upload get put payload,
    snd (process_mapping fromtimestamp_utc (config_example [mapping_1])
           mapping_1 (world_example [mapping_1]))
    = after (world_example [mapping_1]) (before ++ [upload; get; put])
    /\ rq_body upload = Files filename image
    /\ rq_method put = PUT
    /\ rq_body put = Json payload
    /\ substring filename (p_body_value payload).
Proof.
  destruct (success_means_published fromtimestamp_utc
              (config_example [mapping_1]) mapping_1
              (world_example [mapping_1])
              (snd (process_mapping fromtimestamp_utc
                      (config_example [mapping_1]) mapping_1
                      (world_example [mapping_1]))))
    as (before & filename & image & upload & get & put & payload & r
        & Hw & _ & _ & _ & Hu & _ & Hm & _ & Hb & Hs & _).
  - assert (E : fst (process_mapping fromtimestamp_utc
                       (config_example [mapping_1]) mapping_1
                       (world_example [mapping_1])) = Ok true)
      by (vm_compute; reflexivity).
    rewrite <- E. apply surjective_pairing.
  - exists before, filename, image, upload, get, put, payload.
    repeat (split; [assumption|]). assumption.
Defined.

Lemma update_missing_key_witness :
  update_confluence_with_image confluence_example (Some "4242"%string)
    "att1" "gantt-qa-20240101.png" "QA"
    (world_of (fun _ _ =>
                 inl {| status_code := 200;
                        json_body := Some (json_results []) |}))
  = (Raise KeyError,
     after (world_of (fun _ _ =>
                        inl {| status_code := 200;
                               json_body := Some (json_results []) |}))
       [page_get_request confluence_example (Some "4242"%string)]).
Proof.
  apply (update_missing_key confluence_example (Some "4242"%string) "att1"
           "gantt-qa-20240101.png" "QA" _
           {| status_code := 200; json_body := Some (json_results []) |}
           (json_results [])); try reflexivity.
  - unfold status_ok. simpl. lia.
  - left. reflexivity.
Defined.

(** * The configuration *)

Lemma discover_invariant (P : mapping -> Prop) (env : list (string * string))
  (fuel : nat) :
  (forall name page_id list_id folder_id,
      truthy_opt_str page_id = true ->
      (truthy_opt_str folder_id = true ->
       P {| m_name := Some name; m_confluence_page_id := page_id;
            m_clickup_list_id := None; m_clickup_folder_id := folder_id |})
      /\ (truthy_opt_str folder_id = false ->
          truthy_opt_str list_id = true ->
          P {| m_name := Some name; m_confluence_page_id := page_id;
               m_clickup_list_id := list_id; m_clickup_folder_id := None |})) ->
  forall index found ms,
    Forall P found ->
    discover_mappings fuel env index found = Some ms ->
    Forall P ms.
Proof.
  intros HP. induction fuel as [|fuel IH]; intros index found ms Hf;
    cbn [discover_mappings]; [discriminate|].
  destruct (negb (truthy_opt_str (list_id_at env index))
            && negb (truthy_opt_str (folder_id_at env index))) eqn:E.
  - now intros [= <-].
  - destruct (negb (truthy_opt_str (page_id_at env index))) eqn:Ep;
      [now apply IH|].
    apply IH. apply Forall_app. split; [exact Hf|].
    constructor; [|constructor].
    apply negb_false_iff in Ep.
    destruct (truthy_opt_str (folder_id_at env index)) eqn:Efo.
    + exact (proj1 (HP _ _ (list_id_at env index) _ Ep) Efo).
    + apply (proj2 (HP _ _ _ (folder_id_at env index) Ep) Efo).
      rewrite andb_true_r in E. now apply negb_false_iff in E.
Qed.

Lemma load_config_cases (w : world) :
  (exists cfg, load_config w = (Ok cfg, w))
  \/ load_config w = (Raise (SystemExit 1), w).
Proof.
  destruct (load_config w) as [[cfg|e] w'] eqn:H.
  - left. exists cfg. f_equal. revert H.
    unfold load_config, sys_exit, raise, ret.
    destruct (config_file w); try discriminate; try (now intros [= _ <-]).
    destruct (discover_mappings _ _ _ _); [|discriminate].
    destruct (negb _); [discriminate|].
    destruct (negb _); [discriminate|]. now intros [= _ <-].
  - right. apply load_config_raise in H. now destruct H as [-> ->].
Qed.

(** X15.  Loading the configuration always ends, without a request: with
    a configuration or with exit code 1.  A readable file is returned as
    it is, the environment not being looked at, and an unreadable one
    exits with 1. *)
Theorem load_config_outcome (w : world) :
  ((exists cfg, load_config w = (Ok cfg, w))
   \/ load_config w = (Raise (SystemExit 1), w))
  /\ (forall cfg, config_file w = Content cfg -> load_config w = (Ok cfg, w))
  /\ (config_file w = Unreadable ->
      load_config w = (Raise (SystemExit 1), w)).
Proof.
  split; [apply load_config_cases|].
  unfold load_config. split.
  - now intros cfg ->.
  - now intros ->.
Qed.

Lemma str_opt_truthy (o : option string) :
  truthy_opt_str o = true -> truthy_str (str_opt o) = true.
Proof. destruct o; [trivial | discriminate]. Qed.

(** X16.  A configuration built from the environment has its four
    credentials non-empty and at least one mapping; every mapping has a
    name, a page and exactly one source, a folder or else a list, so that
    processing it finds its source. *)
Theorem environment_config_is_valid (w w' : world) (cfg : config) :
  config_file w = Missing ->
  load_config w = (Ok cfg, w') ->
  truthy_str (cf_url (confluence cfg)) = true
  /\ truthy_str (cf_user (confluence cfg)) = true
  /\ truthy_str (cf_api_token (confluence cfg)) = true
  /\ truthy_str (cu_api_token (clickup cfg)) = true
  /\ exists ms,
      mappings cfg = Some ms /\ ms <> []
      /\ Forall well_formed_mapping ms
      /\ Forall (fun m => mapping_source m <> None) ms.
Proof.
  intros Hc. unfold load_config, sys_exit, raise, ret. rewrite Hc.
  destruct (discover_mappings _ _ _ _) as [ms|] eqn:D; [|discriminate].
  destruct (negb (_ && _ && _ && _)) eqn:E; [discriminate|].
  destruct (negb (truthy_list (Some ms))) eqn:El; [discriminate|].
  intros [= <- _]. cbn.
  apply negb_false_iff in E.
  repeat (apply andb_true_iff in E; destruct E as [E ?]).
  repeat (split; [now apply str_opt_truthy|]).
  exists ms. split; [reflexivity|].
  split; [intros ->; discriminate|]. split.
  - eapply discover_invariant; [| constructor | exact D].
    intros name page_id list_id folder_id Hp. split.
    + intros Hf. split; [discriminate|]. split; [exact Hp|]. now left.
    + intros _ Hl. split; [discriminate|]. split; [exact Hp|]. now right.
  - eapply discover_invariant; [| constructor | exact D].
    intros name page_id list_id folder_id Hp. unfold mapping_source. split.
    + intros Hf. cbn. now rewrite Hf.
    + intros _ Hl. cbn. now rewrite Hl.
Qed.

Lemma discover_stops_at_gap (env : list (string * string)) (k : nat) :
  search_ends_at env k ->
  forall fuel index found ms,
    (index <= k)%nat ->
    discover_mappings fuel env index found = Some ms ->
    exists new,
      ms = found ++ new /\ (List.length new <= k - index)%nat.
Proof.
  intros [Hl Hf]. induction fuel as [|fuel IH]; intros index found ms Hi;
    cbn [discover_mappings]; [discriminate|].
  destruct (negb (truthy_opt_str (list_id_at env index))
            && negb (truthy_opt_str (folder_id_at env index))) eqn:E.
  - intros [= <-]. exists []. rewrite app_nil_r. split; [reflexivity|].
    cbn. lia.
  - assert (index <> k).
    { intros ->. rewrite Hl, Hf in E. discriminate. }
    destruct (negb (truthy_opt_str (page_id_at env index))).
    + intros H'. destruct (IH (S index) _ _ ltac:(lia) H') as (new & -> & L).
      exists new. split; [reflexivity | lia].
    + intros H'. destruct (IH (S index) _ _ ltac:(lia) H') as (new & -> & L).
      eexists (_ :: new). rewrite <- app_assoc. split; [reflexivity|].
      cbn [List.length]. lia.
Qed.

Lemma search_ends_test (env : list (string * string)) (index : nat) :
  negb (truthy_opt_str (list_id_at env index))
  && negb (truthy_opt_str (folder_id_at env index)) = true
  <-> search_ends_at env index.
Proof.
  unfold search_ends_at. rewrite andb_true_iff, !negb_true_iff. reflexivity.
Qed.

Lemma discover_up_to_gap (env : list (string * string)) (k : nat) :
  search_ends_at env k ->
  forall fuel index found,
    (index <= k)%nat -> no_gap env index k ->
    discover_mappings fuel env index found
    = if (k - index <? fuel)%nat
      then Some (found ++ flat_map (project_at env) (seq index (k - index)))
      else None.
Proof.
  intros Hk. induction fuel as [|fuel IH]; intros index found Hi Hn;
    cbn [discover_mappings]; [reflexivity|].
  destruct (negb (truthy_opt_str (list_id_at env index))
            && negb (truthy_opt_str (folder_id_at env index))) eqn:E.
  - apply search_ends_test in E.
    assert (index = k) as ->.
    { destruct (Nat.eq_dec index k) as [|Hne]; [assumption|].
      exfalso. apply (Hn index); [lia | exact E]. }
    rewrite Nat.sub_diag. cbn [seq flat_map]. now rewrite app_nil_r.
  - assert (Hlt : (index < k)%nat).
    { destruct (Nat.eq_dec index k) as [->|Hne]; [|lia].
      apply search_ends_test in Hk. rewrite Hk in E. discriminate. }
    assert (Hn' : no_gap env (S index) k)
      by (intros i Hr; apply Hn; lia).
    replace (k - index)%nat with (S (k - S index)) by lia.
    cbn [seq flat_map]. unfold project_at at 1.
    replace (S (k - S index) <? S fuel)%nat with (k - S index <? fuel)%nat
      by (destruct (Nat.ltb_spec (k - S index) fuel),
                   (Nat.ltb_spec (S (k - S index)) (S fuel));
          try reflexivity; lia).
    destruct (truthy_opt_str (page_id_at env index)); cbn [negb].
    + rewrite IH by (assumption || lia). rewrite <- app_assoc.
      now destruct (truthy_opt_str (folder_id_at env index)).
    + now rewrite IH by (assumption || lia).
Qed.

(** X17.  The search of the environment stops at the first number that
    has neither a list nor a folder, and not before: the mappings found
    are those of the projects numbered below it that have a page, in the
    order of their numbers, a project without a page being passed over.
    Projects numbered beyond it are not found, and with no project
    numbered 1 the load exits with 1. *)
Theorem search_stops_at_first_gap (env : list (string * string)) (k : nat) :
  search_ends_at env k ->
  (forall fuel index found ms,
      (index <= k)%nat ->
      discover_mappings fuel env index found = Some ms ->
      exists new, ms = found ++ new /\ (List.length new <= k - index)%nat)
  /\ (forall fuel index found,
         (index <= k)%nat -> no_gap env index k ->
         discover_mappings fuel env index found
         = if (k - index <? fuel)%nat
           then Some (found
                      ++ flat_map (project_at env) (seq index (k - index)))
           else None)
  /\ (forall w cfg,
         (1 <= k)%nat -> no_gap env 1 k ->
         config_file w = Missing -> environ w = env ->
         load_config w = (Ok cfg, w) ->
         mappings cfg
         = Some (flat_map (project_at env) (seq 1 (k - 1))))
  /\ (forall w,
         k = 1%nat -> config_file w = Missing -> environ w = env ->
         load_config w = (Raise (SystemExit 1), w)).
Proof.
  intros Hk. split; [now apply discover_stops_at_gap|].
  split; [now apply discover_up_to_gap|]. split.
  - intros w cfg H1 Hn Hc <-.
    unfold load_config, sys_exit, raise, ret. rewrite Hc.
    destruct (discover_mappings_ends (environ w)) as [ms D]. rewrite D.
    rewrite (discover_up_to_gap _ _ Hk _ _ _ H1 Hn) in D.
    destruct (_ <? _)%nat; [|discriminate D]. injection D as <-.
    destruct (negb (_ && _ && _ && _)); [discriminate|].
    destruct (negb _); [discriminate|]. now intros [= <-].
  - intros w -> Hc <-. unfold load_config, sys_exit, raise. rewrite Hc.
    destruct (discover_mappings_ends (environ w)) as [ms D]. rewrite D.
    destruct (discover_stops_at_gap _ _ Hk _ _ _ _ (le_n 1) D)
      as (new & -> & L).
    destruct new; [|cbn in L; lia].
    destruct (negb (_ && _ && _ && _)); reflexivity.
Qed.

Lemma environment_config_is_valid_witness :
  exists cfg,
    load_config (world_of_environ environ_with_gap)
    = (Ok cfg, world_of_environ environ_with_gap)
    /\ exists ms, mappings cfg = Some ms /\ Forall well_formed_mapping ms.
Proof.
  destruct (load_config (world_of_environ environ_with_gap))
    as [[cfg|e] w'] eqn:H; [|vm_compute in H; discriminate H].
  assert (w' = world_of_environ environ_with_gap)
    by (vm_compute in H; now injection H).
  subst w'. exists cfg. split; [reflexivity|].
  destruct (environment_config_is_valid (world_of_environ environ_with_gap)
              _ cfg eq_refl H)
    as (_ & _ & _ & _ & ms & Hm & _ & Hw & _).
  now exists ms.
Defined.

Lemma search_stops_at_first_gap_witness :
  discover_mappings 11 environ_with_gap 1 [] 
  = Some [{| m_name := Some "Proyecto 1"%string;
             m_confluence_page_id := Some "4242"%string;
             m_clickup_list_id := None;
             m_clickup_folder_id := Some "F1"%string |}]
  /\ discover_mappings 12 environ_with_pageless 1 []
     = Some [{| m_name := Some "Proyecto 1"%string;
                m_confluence_page_id := Some "4242"%string;
                m_clickup_list_id := Some "L1"%string;
                m_clickup_folder_id := None |};
             {| m_name := Some "Ops"%string;
                m_confluence_page_id := Some "4444"%string;
                m_clickup_list_id := Some "L3"%string;
                m_clickup_folder_id := None |}].
Proof.
  split.
  - rewrite (proj1 (proj2 (search_stops_at_first_gap environ_with_gap 2
                             ltac:(split; reflexivity)))
               11%nat 1%nat []).
    + reflexivity.
    + lia.
    + intros i Hi [H _]. assert (i = 1%nat) as -> by lia. discriminate H.
  - rewrite (proj1 (proj2 (search_stops_at_first_gap environ_with_pageless 4
                             ltac:(split; reflexivity)))
               12%nat 1%nat []).
    + reflexivity.
    + lia.
    + intros i Hi [H _].
      assert (i = 1 \/ i = 2 \/ i = 3)%nat as [->|[->| ->]] by lia;
        discriminate H.
Defined.

(** * What is not retried *)

Lemma fails_at_once_result {A} (payload : json_obj -> A) (k : Z)
  (a : result response) :
  fails_at_once a -> attempt_result payload k a = Ok (Return None).
Proof.
  intros [(r & -> & [H|H])| ->]; cbn [attempt_result].
  - now rewrite (status_error_test _ H).
  - rewrite H. now destruct (_ && _).
  - reflexivity.
Qed.

(** X18.  Only timeouts and connection failures are retried.  An HTTP
    error of any status, a body that is no JSON or another error of
    [requests] at the first attempt gives the failure signal after that
    single request, and a success at the first attempt is returned after
    it. *)
Theorem only_transient_failures_are_retried (api_token id : string)
  (w : world) :
  (fails_at_once (answer w 0 (folder_request api_token id 15)) ->
   get_lists_from_folder api_token id w
   = (Ok None, after w [folder_request api_token id 15]))
  /\ (fails_at_once (answer w 0 (tasks_request api_token id 15)) ->
      get_clickup_tasks api_token id w
      = (Ok None, after w [tasks_request api_token id 15]))
  /\ (forall j,
         succeeds_with (answer w 0 (tasks_request api_token id 15)) j ->
         get_clickup_tasks api_token id w
         = (Ok (Some (list_of (j_tasks j))),
            after w [tasks_request api_token id 15])).
Proof.
  split; [|split].
  - intros H. unfold get_lists_from_folder.
    rewrite (call_run _ _ _ (get_lists_attempt_run api_token id)).
    now rewrite (fails_at_once_result _ 0 _ H).
  - intros H. unfold get_clickup_tasks.
    rewrite (call_run _ _ _ (get_tasks_attempt_run api_token id)).
    now rewrite (fails_at_once_result _ 0 _ H).
  - intros j H. unfold get_clickup_tasks.
    rewrite (call_run _ _ _ (get_tasks_attempt_run api_token id)).
    now rewrite (succeeds_result _ 0 _ _ H).
Qed.

Lemma only_transient_failures_are_retried_witness :
  get_clickup_tasks "tok" "L1" (world_of net_unavailable)
  = (Ok None, after (world_of net_unavailable) [tasks_request "tok" "L1" 15]).
Proof.
  apply (proj1 (proj2 (only_transient_failures_are_retried "tok" "L1"
                         (world_of net_unavailable)))).
  left. eexists. split; [reflexivity|]. left. simpl. lia.
Defined.

(** X19.  A folder whose answer has no [lists] key or an empty one makes
    the whole fetch fail after that single request; no list is
    fetched. *)
Theorem empty_folder_is_failure (api_token folder_id : string) (w : world)
  (j : json_obj) :
  succeeds_with (answer w 0 (folder_request api_token folder_id 15)) j ->
  j_lists j = None \/ j_lists j = Some [] ->
  get_all_tasks_from_source api_token folder_id "folder" w
  = (Ok None, after w [folder_request api_token folder_id 15]).
Proof.
  intros Hs Hj.
  assert (Hl : get_lists_from_folder api_token folder_id w
               = (Ok (Some []), after w [folder_request api_token folder_id 15])).
  { unfold get_lists_from_folder.
    rewrite (call_run _ _ _ (get_lists_attempt_run api_token folder_id)).
    rewrite (succeeds_result _ 0 _ _ Hs).
    now destruct Hj as [-> | ->]. }
  unfold get_all_tasks_from_source.
  change (String.eqb "folder" "folder") with true. cbv iota.
  unfold bind. now rewrite Hl.
Qed.

Lemma empty_folder_is_failure_witness :
  get_all_tasks_from_source "tok" "F" "folder" (world_of net_empty_folder)
  = (Ok None, after (world_of net_empty_folder) [folder_request "tok" "F" 15]).
Proof.
  apply (empty_folder_is_failure "tok" "F" (world_of net_empty_folder)
           json_empty).
  - eexists. split; [reflexivity|]. split; [|reflexivity].
    unfold status_ok. simpl. lia.
  - left. reflexivity.
Defined.

(** * The chart tasks and the records *)

Section RecordFacts.

Variable fromtimestamp : Z -> result datetime.

Lemma resolved_names (t : task) :
  map (fun ct => (name ct, status ct)) (resolved fromtimestamp t)
  = if undated fromtimestamp t then []
    else [(task_name_of t, status_of t)].
Proof.
  unfold resolved, undated. rewrite !has_date_decoded.
  destruct (decoded fromtimestamp (t_start_date t)),
           (decoded fromtimestamp (t_due_date t)); reflexivity.
Qed.

(** X20.  When the filter returns, the chart tasks are the records of
    which a date decodes, in their order: their names and status labels
    are those of these records, with "Sin nombre" for a missing name and
    "Sin Status" for a missing status or label.  The filter returns when
    no inferred date leaves the years 1 to 9999. *)
Theorem chart_tasks_follow_records (tasks : list task) :
  (forall valid,
     filter_tasks fromtimestamp [] tasks = Ok valid ->
     map (fun ct => (name ct, status ct)) valid
     = map (fun t => (task_name_of t, status_of t))
         (filter (fun t => negb (undated fromtimestamp t)) tasks))
  /\ (existsb (inferred_out_of_range fromtimestamp) tasks = false ->
      exists valid, filter_tasks fromtimestamp [] tasks = Ok valid).
Proof.
  rewrite filter_tasks_resolved. cbn [app]. split.
  - destruct (existsb _ tasks); [discriminate|]. intros valid [= <-].
    induction tasks as [|t tasks IH]; [reflexivity|].
    cbn [flat_map filter]. rewrite map_app, resolved_names, IH.
    now destruct (undated fromtimestamp t).
  - intros ->. now eexists.
Qed.

End RecordFacts.

Lemma chart_tasks_follow_records_witness :
  exists valid,
    filter_tasks fromtimestamp_utc [] [task_A; task_B; task_C] = Ok valid
    /\ map (fun ct => (name ct, status ct)) valid
       = [("A", "in progress"); ("B", "to do")]%string.
Proof.
  destruct (proj2 (chart_tasks_follow_records fromtimestamp_utc
                     [task_A; task_B; task_C])) as [valid H].
  - vm_compute. reflexivity.
  - exists valid. split; [exact H|].
    rewrite (proj1 (chart_tasks_follow_records fromtimestamp_utc
                      [task_A; task_B; task_C]) valid H).
    vm_compute. reflexivity.
Defined.

Lemma load_config_outcome_witness :
  load_config (world_example [mapping_1; mapping_2])
  = (Ok (config_example [mapping_1; mapping_2]),
     world_example [mapping_1; mapping_2]).
Proof.
  apply (proj1 (proj2 (load_config_outcome
                         (world_example [mapping_1; mapping_2])))).
  reflexivity.
Defined.
